(** * cloudstash: catalog clients, drive helpers and catalog discovery

    A shallow embedding of the Go sources

    - [internal/drive/drive.go]   (constants, the [Drive] interface, [GetURL]),
    - [internal/db/client.go]     (the first catalog client, with [common.Metadata]),
    - the [sqlite] package        (the current catalog client),
    - [main.findDBDrive]          (catalog discovery at start-up),

    together with a small model of the two libraries the clients are written
    against: the SQLite engine (one table, positional placeholders, column
    affinity) and Go's [database/sql] (argument conversion, placeholder
    counting, [Scan]).  Go integers are [Z], Go strings are [string] (a
    sequence of bytes), Go [error] values are the inductive [error]. *)

From Stdlib Require Import ZArith String Ascii List Lia Bool.
From stdpp Require Import base decidable option list strings pretty gmap.
Import ListNotations.

Open Scope Z_scope.
Open Scope string_scope.

(* ===================================================================== *)
(** ** Go values: errors, results, panics *)
(* ===================================================================== *)

(** Go [error] values.  Two sentinels are compared with [==] in the sources
    ([common.ErrNotFound] and [sql.ErrNoRows]); every other error is a message.
    [Errorf prefix cause] is the value of [fmt.Errorf(prefix + "%v", cause)]:
    a fresh error that is equal to no sentinel. *)
Inductive error : Type :=
| ErrNotFound
| ErrNoRows
| ErrText (msg : string)
| Errorf (prefix : string) (cause : error).

#[global] Instance error_eq_dec : EqDecision error.
Proof. solve_decision. Defined.

(** A Go function returning [(T, error)]. *)
Inductive result (A : Type) : Type :=
| Ok (a : A)
| Err (e : error).
Arguments Ok {A} a.
Arguments Err {A} e.

Definition rbind {A B} (r : result A) (k : A -> result B) : result B :=
  match r with
  | Ok a => k a
  | Err e => Err e
  end.

Notation "'let*' x ':=' r 'in' k" := (rbind r (fun x => k))
  (at level 10, x name, r at level 100, k at level 200).

(** [if err != nil { return nil, fmt.Errorf(prefix + "%v", err) }] *)
Definition wrap {A} (prefix : string) (r : result A) : result A :=
  match r with
  | Ok a => Ok a
  | Err e => Err (Errorf prefix e)
  end.

(** A Go function that may panic at run time. *)
Inductive go (A : Type) : Type :=
| Return (a : A)
| Panic (msg : string).
Arguments Return {A} a.
Arguments Panic {A} msg.

(** Bounds of Go's [int64] (and of [int] on 64-bit targets) and [uint64]. *)
Definition MaxInt64 : Z := 2 ^ 63 - 1.
Definition MinInt64 : Z := - 2 ^ 63.
Definition MaxUint64 : Z := 2 ^ 64 - 1.

(** Go's [+] on [int]: two's complement wrap-around. *)
Definition wrap_int (z : Z) : Z := (z + 2 ^ 63) mod 2 ^ 64 - 2 ^ 63.

(** Indexing and slicing of Go strings (bytes). *)
Definition str_index (s : string) (i : nat) : option ascii := String.get i s.

Definition str_from (s : string) (i : nat) : string :=
  String.substring i (String.length s - i) s.

(* ===================================================================== *)
(** ** Package [common] *)
(* ===================================================================== *)

Module common.

(** [common.Metadata], as declared next to the first catalog client. *)
Record Metadata : Type := {
  Inode : Z;    (* int64 *)
  Name : string;
  URL : string;
  Size : Z;     (* int64 *)
  Mode : Z;     (* int *)
  Type_ : Z;    (* int *)
  Parent : Z;   (* uint64 *)
  NLink : Z     (* int *)
}.

(** Modelled from the spec: the name of the catalog object on a backend,
    [common.DatabaseFileName]; package [common] declares it outside the
    given sources and the spec names the object [cloudstash.db]. *)
Definition DatabaseFileName : string := "cloudstash.db".

End common.

(** The entry-type codes [common.DrvFile] and [common.DrvFolder]
    ([common.DRV_FOLDER] in the first client) are integer constants declared
    outside the given sources; the development is parametric in them. *)
Class TypeCodes : Type := {
  DrvFile : Z;
  DrvFolder : Z
}.

(* ===================================================================== *)
(** ** Package [drive] *)
(* ===================================================================== *)

Module drive.

(** [time.Duration] is a count of nanoseconds. *)
Definition Nanosecond : Z := 1.
Definition Microsecond : Z := 1000 * Nanosecond.
Definition Millisecond : Z := 1000 * Microsecond.
Definition Second : Z := 1000 * Millisecond.
Definition Minute : Z := 60 * Second.

Definition lockFile : string := "cloudstash.lock".
Definition lockTimeout : Z := 5 * Minute.

Record Metadata : Type := {
  Name : string;
  Size : Z;    (* uint64 *)
  Hash : string
}.

(** The methods of the [Drive] interface that the modelled code calls. *)
Record Drive : Type := {
  GetProviderName : string;
  GetFileMetadata : string -> result Metadata
}.

(** [GetURL]: [name[0]] panics on the empty string. *)
Definition GetURL (drv : Drive) (name : string) : go string :=
  let scheme := GetProviderName drv in
  match str_index name 0 with
  | None => Panic "runtime error: index out of range [0] with length 0"
  | Some c =>
      let name := if decide (c = "/"%char) then str_from name 1 else name in
      Return (scheme +:+ "://" +:+ name)
  end.

End drive.

(* ===================================================================== *)
(** ** The SQLite engine *)
(* ===================================================================== *)

Module sql.

(** Storage classes (REAL and BLOB are never produced by the clients). *)
Inductive value : Type :=
| VNull
| VInt (z : Z)
| VText (s : string).

#[global] Instance value_eq_dec : EqDecision value.
Proof. solve_decision. Defined.

Inductive affinity : Type := INTEGER | TEXT.

#[global] Instance affinity_eq_dec : EqDecision affinity.
Proof. solve_decision. Defined.

(** What the engine makes of a TEXT value that meets INTEGER affinity: the
    integer it spells, or the text itself when it spells none.  It is a
    parameter of the model. *)
Class Engine : Type := {
  numeric_affinity : string -> value
}.

Record column : Type := {
  col_name : string;
  col_affinity : affinity;
  col_not_null : bool;
  col_default : option value;
  col_rowid : bool         (* INTEGER PRIMARY KEY AUTOINCREMENT *)
}.

Record table_def : Type := {
  tbl_name : string;
  tbl_columns : list column;
  tbl_unique : list (list string);
  (* FOREIGN KEY(column) REFERENCES table(column); recorded, not enforced:
     the clients open the file without turning enforcement on *)
  tbl_foreign : list (string * (string * string))
}.

Definition row : Type := list value.

(** A table: its definition, its rows in rowid order, and its entry in
    [sqlite_sequence] (the largest rowid ever used). *)
Record table : Type := {
  t_def : table_def;
  t_rows : list row;
  t_seq : Z
}.

(** A database file: its tables, in creation order. *)
Definition database : Type := list table.

Inductive operand : Type :=
| Placeholder            (* ? *)
| Lit (v : value).

(** The statements the clients prepare. *)
Inductive statement : Type :=
| CreateTable (def : table_def)
| InsertInto (tbl : string) (cols : list string) (vals : list operand)
| SelectStar (tbl : string) (where_ : list (string * operand))
             (limit offset : option operand)
| SelectCount (tbl : string) (where_ : list (string * operand)).

Definition find_table (name : string) (db : database) : option table :=
  List.find (fun t => bool_decide (tbl_name (t_def t) = name)) db.

Fixpoint replace_table (t' : table) (db : database) : database :=
  match db with
  | [] => []
  | t :: db =>
      if bool_decide (tbl_name (t_def t) = tbl_name (t_def t'))
      then t' :: db
      else t :: replace_table t' db
  end.

Fixpoint col_index_from (i : nat) (cols : list column) (name : string) : option nat :=
  match cols with
  | [] => None
  | c :: cols =>
      if bool_decide (col_name c = name) then Some i
      else col_index_from (S i) cols name
  end.

Definition col_index (def : table_def) (name : string) : option nat :=
  col_index_from 0 (tbl_columns def) name.

Definition has_column (def : table_def) (name : string) : bool :=
  bool_decide (is_Some (col_index def name)).

Definition col_affinity_of (def : table_def) (name : string) : affinity :=
  match List.find (fun c => bool_decide (col_name c = name)) (tbl_columns def) with
  | Some c => col_affinity c
  | None => TEXT
  end.

(** The value a row holds in the named column. *)
Definition row_get (def : table_def) (r : row) (name : string) : value :=
  match col_index def name with
  | Some i => nth i r VNull
  | None => VNull
  end.

Section WithEngine.
Context `{Engine}.

Definition apply_affinity (a : affinity) (v : value) : value :=
  match a, v with
  | TEXT, VInt z => VText (pretty z)
  | INTEGER, VText s => numeric_affinity s
  | _, _ => v
  end.

(** [column = operand] where the operand has no affinity of its own: the
    column's affinity is applied to it; NULL equals nothing, an integer
    equals no text, texts compare byte by byte. *)
Definition sql_eq (a : affinity) (stored bound : value) : bool :=
  match stored, apply_affinity a bound with
  | VInt x, VInt y => bool_decide (x = y)
  | VText s, VText t => bool_decide (s = t)
  | _, _ => false
  end.

Definition row_matches (def : table_def) (conds : list (string * value)) (r : row) : bool :=
  forallb (fun cv => sql_eq (col_affinity_of def (fst cv)) (row_get def r (fst cv)) (snd cv)) conds.

Definition select_where (t : table) (conds : list (string * value)) : list row :=
  List.filter (row_matches (t_def t) conds) (t_rows t).

Definition count_where (t : table) (conds : list (string * value)) : Z :=
  Z.of_nat (length (select_where t conds)).

(** The rowid of a row: the value of its INTEGER PRIMARY KEY column. *)
Definition rowid_column (def : table_def) : option column :=
  List.find col_rowid (tbl_columns def).

Definition rowid_of (def : table_def) (r : row) : value :=
  match rowid_column def with
  | Some c => row_get def r (col_name c)
  | None => VNull
  end.

Definition max_rowid (t : table) : Z :=
  fold_right (fun r m => match rowid_of (t_def t) r with
                         | VInt z => Z.max z m
                         | _ => m
                         end) 0 (t_rows t).

(** AUTOINCREMENT: one more than the largest rowid the table has ever
    held; SQLITE_FULL once the largest possible rowid has been used. *)
Definition next_rowid (t : table) : result Z :=
  let m := Z.max (t_seq t) (max_rowid t) in
  if bool_decide (m = MaxInt64) then Err (ErrText "database or disk is full")
  else Ok (m + 1).

Fixpoint assoc (name : string) (kvs : list (string * value)) : option value :=
  match kvs with
  | [] => None
  | (k, v) :: kvs => if bool_decide (k = name) then Some v else assoc name kvs
  end.

(** The value an INSERT gives a column: the listed value, else the
    column's default, else NULL; then the column's affinity. *)
Definition insert_value (assign : list (string * value)) (c : column) : value :=
  match assoc (col_name c) assign with
  | Some v => apply_affinity (col_affinity c) v
  | None => match col_default c with Some d => d | None => VNull end
  end.

Definition fill_rowid (auto : Z) (c : column) (v : value) : value :=
  if col_rowid c then match v with VNull => VInt auto | _ => v end else v.

Definition not_null_violation (def : table_def) (r : row) : option string :=
  match List.find (fun cv => col_not_null (fst cv) && bool_decide (snd cv = VNull))
                  (combine (tbl_columns def) r) with
  | Some (c, _) => Some (col_name c)
  | None => None
  end.

(** Two rows collide on a UNIQUE column set when they hold equal non-NULL
    values in each of its columns. *)
Definition same_on (def : table_def) (cols : list string) (r1 r2 : row) : bool :=
  forallb (fun c => match row_get def r1 c, row_get def r2 c with
                    | VNull, _ | _, VNull => false
                    | v1, v2 => bool_decide (v1 = v2)
                    end) cols.

Definition unique_violation (t : table) (r : row) : option (list string) :=
  List.find (fun cols => existsb (same_on (t_def t) cols r) (t_rows t))
            (tbl_unique (t_def t)).

Fixpoint insert_by_rowid (def : table_def) (z : Z) (r : row) (rows : list row) : list row :=
  match rows with
  | [] => [r]
  | r' :: rows' =>
      match rowid_of def r' with
      | VInt z' => if bool_decide (z < z') then r :: rows
                   else r' :: insert_by_rowid def z r rows'
      | _ => r' :: insert_by_rowid def z r rows'
      end
  end.

Definition qualified (def : table_def) (cols : list string) : string :=
  String.concat ", " (map (fun c => tbl_name def +:+ "." +:+ c) cols).

(** Storing a row whose columns hold [given] (NULL in the rowid column asks
    for the next rowid): rowid, NOT NULL, primary key, UNIQUE, in this order. *)
Definition insert_given (t : table) (given : row) : result table :=
  let def := t_def t in
  let* z :=
    match rowid_of def given with
    | VInt z => Ok z
    | VNull => next_rowid t
    | VText _ => Err (ErrText "datatype mismatch")
    end in
  let r := map (fun cv => fill_rowid z (fst cv) (snd cv)) (combine (tbl_columns def) given) in
  match not_null_violation def r with
  | Some c => Err (ErrText ("NOT NULL constraint failed: " +:+ qualified def [c]))
  | None =>
      if existsb (fun r' => bool_decide (rowid_of def r' = VInt z)) (t_rows t)
      then Err (ErrText ("UNIQUE constraint failed: " +:+
                         qualified def (match rowid_column def with
                                        | Some c => [col_name c] | None => [] end)))
      else
        match unique_violation t r with
        | Some cols => Err (ErrText ("UNIQUE constraint failed: " +:+ qualified def cols))
        | None => Ok {| t_def := def;
                        t_rows := insert_by_rowid def z r (t_rows t);
                        t_seq := Z.max (t_seq t) z |}
        end
  end.

(** INSERT INTO t(columns) VALUES(values), the values already bound. *)
Definition insert_row (t : table) (assign : list (string * value)) : result table :=
  insert_given t (map (insert_value assign) (tbl_columns (t_def t))).

(** LIMIT n OFFSET m: a negative limit is no limit, a negative offset is 0. *)
Definition limit_offset (limit offset : option value) (rows : list row) : list row :=
  let rows := match offset with
              | Some (VInt m) => drop (Z.to_nat m) rows
              | _ => rows
              end in
  match limit with
  | Some (VInt n) => if bool_decide (n < 0) then rows else take (Z.to_nat n) rows
  | _ => rows
  end.

(** *** Statements *)

(** The operands of a statement, in the order of the text; placeholders
    are numbered by their position in this order. *)
Definition option_list {A} (o : option A) : list A :=
  match o with Some a => [a] | None => [] end.

Definition operands (s : statement) : list operand :=
  match s with
  | CreateTable _ => []
  | InsertInto _ _ vals => vals
  | SelectStar _ w l o => (map snd w ++ option_list l ++ option_list o)%list
  | SelectCount _ w => map snd w
  end.

Definition is_placeholder (o : operand) : bool :=
  match o with Placeholder => true | Lit _ => false end.

(** [sqlite3_bind_parameter_count] *)
Definition bind_parameter_count (s : statement) : nat :=
  length (List.filter is_placeholder (operands s)).

(** Binding: the i-th placeholder takes the i-th argument; a placeholder
    left without argument is NULL. *)
Fixpoint bind (ops : list operand) (args : list value) : list value :=
  match ops with
  | [] => []
  | Lit v :: ops => v :: bind ops args
  | Placeholder :: ops =>
      match args with
      | a :: args => a :: bind ops args
      | [] => VNull :: bind ops []
      end
  end.

Definition bind_where (w : list (string * operand)) (args : list value)
  : list (string * value) :=
  combine (map fst w) (bind (map snd w) args).

(** What is left of the arguments once [ops] have taken theirs. *)
Definition rest_args (ops : list operand) (args : list value) : list value :=
  drop (length (List.filter is_placeholder ops)) args.

(** [sqlite3_prepare]: the statement must fit the schema. *)
Definition compile (db : database) (s : statement) : result statement :=
  match s with
  | CreateTable def =>
      match find_table (tbl_name def) db with
      | Some _ => Err (ErrText ("table " +:+ tbl_name def +:+ " already exists"))
      | None => Ok s
      end
  | InsertInto tbl cols vals =>
      match find_table tbl db with
      | None => Err (ErrText ("no such table: " +:+ tbl))
      | Some t =>
          match List.find (fun c => negb (has_column (t_def t) c)) cols with
          | Some c => Err (ErrText ("table " +:+ tbl +:+ " has no column named " +:+ c))
          | None =>
              if bool_decide (length cols = length vals) then Ok s
              else Err (ErrText (pretty (length vals) +:+ " values for " +:+
                                 pretty (length cols) +:+ " columns"))
          end
      end
  | SelectStar tbl w _ _ | SelectCount tbl w =>
      match find_table tbl db with
      | None => Err (ErrText ("no such table: " +:+ tbl))
      | Some t =>
          match List.find (fun c => negb (has_column (t_def t) c)) (map fst w) with
          | Some c => Err (ErrText ("no such column: " +:+ c))
          | None => Ok s
          end
      end
  end.

(** Running a statement that returns rows. *)
Definition run_query (s : statement) (args : list value) (db : database)
  : result (list row) :=
  match s with
  | SelectStar tbl w l o =>
      match find_table tbl db with
      | None => Err (ErrText ("no such table: " +:+ tbl))
      | Some t =>
          let rest := rest_args (map snd w) args in
          let lim := bind (option_list l) rest in
          let off := bind (option_list o) (rest_args (option_list l) rest) in
          Ok (limit_offset (head lim) (head off) (select_where t (bind_where w args)))
      end
  | SelectCount tbl w =>
      match find_table tbl db with
      | None => Err (ErrText ("no such table: " +:+ tbl))
      | Some t => Ok [[VInt (count_where t (bind_where w args))]]
      end
  | _ => Ok []
  end.

(** Running a statement for its effect; the database is unchanged when
    the statement fails. *)
Definition run_exec (s : statement) (args : list value) (db : database)
  : result database :=
  match s with
  | CreateTable def =>
      match find_table (tbl_name def) db with
      | Some _ => Err (ErrText ("table " +:+ tbl_name def +:+ " already exists"))
      | None => Ok (db ++ [{| t_def := def; t_rows := []; t_seq := 0 |}])%list
      end
  | InsertInto tbl cols vals =>
      match find_table tbl db with
      | None => Err (ErrText ("no such table: " +:+ tbl))
      | Some t =>
          let* t' := insert_row t (combine cols (bind vals args)) in
          Ok (replace_table t' db)
      end
  | _ => Ok db
  end.

End WithEngine.

End sql.

(* ===================================================================== *)
(** ** Go's [database/sql] over the SQLite driver *)
(* ===================================================================== *)

Module gosql.
Import sql.

(** Go values passed as query arguments. *)
Inductive arg : Type :=
| AInt (z : Z)        (* int, int64 *)
| AUint64 (z : Z)
| AString (s : string).

(** The default parameter converter: a [uint64] with its high bit set is
    refused, everything else goes to the driver as INTEGER or TEXT. *)
Definition driver_value (a : arg) : result value :=
  match a with
  | AInt z => Ok (VInt z)
  | AUint64 z =>
      if bool_decide (2 ^ 63 <= z)
      then Err (ErrText "uint64 values with high bit set are not supported")
      else Ok (VInt z)
  | AString s => Ok (VText s)
  end.

Fixpoint driver_args (ordinal : nat) (args : list arg) : result (list value) :=
  match args with
  | [] => Ok []
  | a :: args =>
      let* v := wrap ("sql: converting argument $" +:+ pretty ordinal +:+ " type: ")
                     (driver_value a) in
      let* vs := driver_args (S ordinal) args in
      Ok (v :: vs)
  end.

(** Arguments are converted first; then their number is checked against
    the statement's placeholder count ([NumInput]). *)
Definition checked_args (st : statement) (args : list arg) : result (list value) :=
  let* vs := driver_args 1 args in
  if bool_decide (length vs = bind_parameter_count st) then Ok vs
  else Err (ErrText ("sql: expected " +:+ pretty (bind_parameter_count st) +:+
                     " arguments, got " +:+ pretty (length vs))).

Section WithEngine.
Context `{Engine}.

Definition Prepare (db : database) (s : statement) : result statement :=
  compile db s.

Definition Query (st : statement) (args : list arg) (db : database)
  : result (list row) :=
  let* vs := checked_args st args in
  run_query st vs db.

Definition Exec (st : statement) (args : list arg) (db : database)
  : result database :=
  let* vs := checked_args st args in
  run_exec st vs db.

(** [QueryRow] never fails itself: the [*Row] it returns keeps the error
    for [Scan]. *)
Definition Row : Type := result (list row).

Definition QueryRow (st : statement) (args : list arg) (db : database) : Row :=
  Query st args db.

(** [Row.Scan]: the deferred error, else [sql.ErrNoRows] when the
    result is empty, else the first row is scanned. *)
Definition Row_Scan {A} (r : Row) (scan : row -> result A) : result A :=
  match r with
  | Err e => Err e
  | Ok [] => Err ErrNoRows
  | Ok (x :: _) => scan x
  end.

End WithEngine.

(** *** [strconv] *)

Definition digit_of (c : ascii) : option Z :=
  let n := Z.of_nat (nat_of_ascii c) in
  if ((48 <=? n)%Z && (n <=? 57)%Z)%bool then Some (n - 48) else None.

Fixpoint parse_digits (acc : Z) (s : string) : option Z :=
  match s with
  | EmptyString => Some acc
  | String c s =>
      match digit_of c with
      | Some d => parse_digits (10 * acc + d) s
      | None => None
      end
  end.

Definition ParseUint (s : string) : option Z :=
  match s with
  | EmptyString => None
  | _ => match parse_digits 0 s with
         | Some z => if (z <=? MaxUint64)%Z then Some z else None
         | None => None
         end
  end.

Definition ParseInt (s : string) : option Z :=
  let signed (neg : bool) (s : string) :=
    match s with
    | EmptyString => None
    | _ => match parse_digits 0 s with
           | Some z =>
               if neg then (if (z <=? 2 ^ 63)%Z then Some (- z) else None)
               else (if (z <=? MaxInt64)%Z then Some z else None)
           | None => None
           end
    end in
  match s with
  | String c rest =>
      if decide (c = "+"%char) then signed false rest
      else if decide (c = "-"%char) then signed true rest
      else signed false s
  | EmptyString => None
  end.

(** *** [convertAssign]: a column value into a Go destination
    (the texts of the library's errors are abbreviated) *)

Definition scan_int64 (v : value) : result Z :=
  match v with
  | VInt z => Ok z
  | VText s => match ParseInt s with
               | Some z => Ok z
               | None => Err (ErrText "converting driver.Value type string to a int64: invalid syntax")
               end
  | VNull => Err (ErrText "converting NULL to int64 is unsupported")
  end.

Definition scan_int : value -> result Z := scan_int64.

Definition scan_uint64 (v : value) : result Z :=
  match v with
  | VInt z => if bool_decide (z < 0)
              then Err (ErrText "converting driver.Value type int64 to a uint64: invalid syntax")
              else Ok z
  | VText s => match ParseUint s with
               | Some z => Ok z
               | None => Err (ErrText "converting driver.Value type string to a uint64: invalid syntax")
               end
  | VNull => Err (ErrText "converting NULL to uint64 is unsupported")
  end.

Definition scan_string (v : value) : result string :=
  match v with
  | VInt z => Ok (pretty z)
  | VText s => Ok s
  | VNull => Err (ErrText "converting NULL to string is unsupported")
  end.

(** [Rows.Scan] reports the index of the column it failed on. *)
Definition at_column {A} (i : nat) (r : result A) : result A :=
  wrap ("sql: Scan error on column index " +:+ pretty i +:+ ": ") r.

Definition wrong_arity {A} (r : row) (dests : nat) : result A :=
  Err (ErrText ("sql: expected " +:+ pretty (length r) +:+
                " destination arguments in Scan, not " +:+ pretty dests)).

(** An engine for running the model on concrete tables: a text spells an
    integer when it is a signed decimal literal in the 64-bit range. *)
Definition decimal_engine : Engine :=
  {| numeric_affinity s := match ParseInt s with
                           | Some z => VInt z
                           | None => VText s
                           end |}.

End gosql.

(* ===================================================================== *)
(** ** The engine, continued: DELETE, UPDATE and sum() *)
(* ===================================================================== *)

Module sqlw.
Import sql gosql.

(** The statements that remove or rewrite rows. *)
Inductive change : Type :=
| DeleteFrom (tbl : string) (where_ : list (string * operand))
| UpdateSet (tbl : string) (sets : list (string * operand))
            (where_ : list (string * operand)).

(** SELECT sum(column) FROM table WHERE ... *)
Inductive aggregate : Type :=
| SelectSum (tbl : string) (col : string) (where_ : list (string * operand)).

(** The result of sum(): NULL when no value is summed, the integer sum when
    every summed value is an integer, and a floating-point number otherwise
    (kept as the values it is the sum of). *)
Inductive sum_value : Type :=
| SumNull
| SumInt (z : Z)
| SumReal (inputs : list value).

(** What [Scan] into an [int64] makes of a floating-point sum is a
    parameter of the model. *)
Class Floats : Type := {
  scan_real_sum : list value -> result Z
}.

Definition change_operands (c : change) : list operand :=
  match c with
  | DeleteFrom _ w => map snd w
  | UpdateSet _ s w => (map snd s ++ map snd w)%list
  end.

Definition change_parameter_count (c : change) : nat :=
  length (List.filter is_placeholder (change_operands c)).

(** The argument check of [database/sql], for a given placeholder count. *)
Definition checked_count (want : nat) (args : list arg) : result (list value) :=
  let* vs := driver_args 1 args in
  if bool_decide (length vs = want) then Ok vs
  else Err (ErrText ("sql: expected " +:+ pretty want +:+
                     " arguments, got " +:+ pretty (length vs))).

(** The first row with the given rowid, and the rows before and after it. *)
Fixpoint split_rowid (def : table_def) (id : value) (rows : list row)
  : option (list row * row * list row) :=
  match rows with
  | [] => None
  | r :: rows =>
      if bool_decide (rowid_of def r = id) then Some ([], r, rows)
      else match split_rowid def id rows with
           | Some (before, r', after) => Some (r :: before, r', after)
           | None => None
           end
  end.

Section WithEngine.
Context `{Engine}.

(** DELETE: the rows that match go, the sequence entry stays. *)
Definition delete_where (t : table) (conds : list (string * value)) : table :=
  {| t_def := t_def t;
     t_rows := List.filter (fun r => negb (row_matches (t_def t) conds r)) (t_rows t);
     t_seq := t_seq t |}.

(** The value UPDATE gives a column: the assigned value under the column's
    affinity, else the value the row holds. *)
Definition set_value (sets : list (string * value)) (c : column) (old : value) : value :=
  match assoc (col_name c) sets with
  | Some v => apply_affinity (col_affinity c) v
  | None => old
  end.

Definition updated_row (def : table_def) (sets : list (string * value)) (r : row) : row :=
  map (fun cv => set_value sets (fst cv) (snd cv)) (combine (tbl_columns def) r).

(** Rewriting the row with the given rowid: NOT NULL, primary key and UNIQUE
    are checked against the other rows; the row keeps its place unless its
    rowid changes. *)
Definition update_at (sets : list (string * value)) (t : table) (id : value)
  : result table :=
  let def := t_def t in
  match split_rowid def id (t_rows t) with
  | None => Ok t
  | Some (before, r, after) =>
      let new := updated_row def sets r in
      let others := {| t_def := def; t_rows := (before ++ after)%list; t_seq := t_seq t |} in
      match not_null_violation def new with
      | Some c => Err (ErrText ("NOT NULL constraint failed: " +:+ qualified def [c]))
      | None =>
          match rowid_of def new with
          | VInt z =>
              if existsb (fun r' => bool_decide (rowid_of def r' = VInt z)) (t_rows others)
              then Err (ErrText ("UNIQUE constraint failed: " +:+
                                 qualified def (match rowid_column def with
                                                | Some c => [col_name c] | None => [] end)))
              else
                match unique_violation others new with
                | Some cols => Err (ErrText ("UNIQUE constraint failed: " +:+ qualified def cols))
                | None =>
                    Ok {| t_def := def;
                          t_rows := if bool_decide (rowid_of def r = VInt z)
                                    then (before ++ new :: after)%list
                                    else insert_by_rowid def z new (t_rows others);
                          t_seq := t_seq t |}
                end
          | _ => Err (ErrText "datatype mismatch")
          end
      end
  end.

(** UPDATE: the rowids of the matching rows are collected first, then the
    rows are rewritten one by one; a failure undoes the whole statement. *)
Fixpoint update_each (sets : list (string * value)) (ids : list value) (t : table)
  : result table :=
  match ids with
  | [] => Ok t
  | id :: ids =>
      let* t' := update_at sets t id in
      update_each sets ids t'
  end.

Definition update_where (t : table) (sets conds : list (string * value)) : result table :=
  update_each sets (map (rowid_of (t_def t)) (select_where t conds)) t.

(** The accumulator of sum(): how many values have been met, the integer
    sum so far, whether the result is a floating-point number ([approx]),
    and whether the integer sum has left 64 bits ([overflow]). *)
Record sum_state : Type := {
  cnt : nat;
  iSum : Z;
  approx : bool;
  overflow : bool
}.

Definition sum_start : sum_state :=
  {| cnt := 0; iSum := 0; approx := false; overflow := false |}.

(** An integer is added to the integer sum while that sum is still exact;
    an addition that leaves 64 bits sets [overflow] for good. *)
Definition sum_integer (p : sum_state) (z : Z) : sum_state :=
  if approx p || overflow p
  then {| cnt := S (cnt p); iSum := iSum p; approx := approx p; overflow := overflow p |}
  else if bool_decide (MinInt64 <= iSum p + z <= MaxInt64)
       then {| cnt := S (cnt p); iSum := iSum p + z; approx := false; overflow := false |}
       else {| cnt := S (cnt p); iSum := iSum p; approx := true; overflow := true |}.

Definition sum_other (p : sum_state) : sum_state :=
  {| cnt := S (cnt p); iSum := iSum p; approx := true; overflow := overflow p |}.

(** The step of sum() on one value: NULL is skipped, a text is read under
    numeric affinity. *)
Definition sum_step (p : sum_state) (v : value) : sum_state :=
  match v with
  | VNull => p
  | VInt z => sum_integer p z
  | VText s => match numeric_affinity s with
               | VInt z => sum_integer p z
               | _ => sum_other p
               end
  end.

(** sum() over the values of a column, in the order of the rows: NULL when
    no value was met, the engine's integer-overflow error when a partial
    integer sum left 64 bits, a floating-point number when a value was no
    integer, else the integer sum. *)
Definition sum_column (vs : list value) : result sum_value :=
  let p := fold_left sum_step vs sum_start in
  if bool_decide (cnt p = 0%nat) then Ok SumNull
  else if overflow p then Err (ErrText "integer overflow")
  else if approx p
       then Ok (SumReal (List.filter (fun v => negb (bool_decide (v = VNull))) vs))
       else Ok (SumInt (iSum p)).

Definition compile_change (d : database) (c : change) : result change :=
  let tbl := match c with DeleteFrom tbl _ | UpdateSet tbl _ _ => tbl end in
  let cols := match c with
              | DeleteFrom _ w => map fst w
              | UpdateSet _ s w => (map fst s ++ map fst w)%list
              end in
  match find_table tbl d with
  | None => Err (ErrText ("no such table: " +:+ tbl))
  | Some t =>
      match List.find (fun c => negb (has_column (t_def t) c)) cols with
      | Some c => Err (ErrText ("no such column: " +:+ c))
      | None => Ok c
      end
  end.

Definition run_change (c : change) (args : list value) (d : database) : result database :=
  match c with
  | DeleteFrom tbl w =>
      match find_table tbl d with
      | None => Err (ErrText ("no such table: " +:+ tbl))
      | Some t => Ok (replace_table (delete_where t (bind_where w args)) d)
      end
  | UpdateSet tbl s w =>
      match find_table tbl d with
      | None => Err (ErrText ("no such table: " +:+ tbl))
      | Some t =>
          let* t' := update_where t (bind_where s args)
                                  (bind_where w (rest_args (map snd s) args)) in
          Ok (replace_table t' d)
      end
  end.

Definition PrepareChange (d : database) (c : change) : result change :=
  compile_change d c.

Definition ExecChange (c : change) (args : list arg) (d : database) : result database :=
  let* vs := checked_count (change_parameter_count c) args in
  run_change c vs d.

Definition PrepareSum (d : database) (a : aggregate) : result aggregate :=
  match a with
  | SelectSum tbl col w =>
      match find_table tbl d with
      | None => Err (ErrText ("no such table: " +:+ tbl))
      | Some t =>
          match List.find (fun c => negb (has_column (t_def t) c)) (col :: map fst w) with
          | Some c => Err (ErrText ("no such column: " +:+ c))
          | None => Ok a
          end
      end
  end.

(** The one row of an aggregate query; the sum is computed when the row is
    stepped to, so an overflow shows as the error of that row. *)
Definition QuerySum (a : aggregate) (args : list arg) (d : database)
  : result (result sum_value) :=
  match a with
  | SelectSum tbl col w =>
      let* vs := checked_count (length (List.filter is_placeholder (map snd w))) args in
      match find_table tbl d with
      | None => Err (ErrText ("no such table: " +:+ tbl))
      | Some t =>
          Ok (sum_column (map (fun r => row_get (t_def t) r col)
                              (select_where t (bind_where w vs))))
      end
  end.

End WithEngine.

(** [Scan] of the sum into an [int64]. *)
Definition scan_sum `{Floats} (s : sum_value) : result Z :=
  match s with
  | SumNull => scan_int64 VNull
  | SumInt z => Ok z
  | SumReal inputs => scan_real_sum inputs
  end.

End sqlw.

(* ===================================================================== *)
(** ** Package [db]: the first catalog client ([internal/db/client.go]) *)
(* ===================================================================== *)

Module db.
Import sql gosql.

Section Client.
Context `{Engine} `{TypeCodes}.

Definition not_null (name : string) (a : affinity) : column :=
  {| col_name := name; col_affinity := a; col_not_null := true;
     col_default := None; col_rowid := false |}.

Definition with_default (name : string) (a : affinity) (d : value) : column :=
  {| col_name := name; col_affinity := a; col_not_null := true;
     col_default := Some d; col_rowid := false |}.

Definition files : table_def :=
  {| tbl_name := "files";
     tbl_columns :=
       [ {| col_name := "inode"; col_affinity := INTEGER; col_not_null := true;
            col_default := None; col_rowid := true |};
         not_null "name" TEXT;
         with_default "url" TEXT (VText EmptyString);
         with_default "size" INTEGER (VInt 0);
         not_null "mode" INTEGER;
         not_null "parent" INTEGER;
         not_null "type" INTEGER ];
     tbl_unique := [["name"; "parent"]];
     tbl_foreign := [("parent", ("folders", "id"))] |}.

(** [tableSchemas]: the table, then the root folder with mode 0755. *)
Definition tableSchemas : list statement :=
  [ CreateTable files;
    InsertInto "files" ["inode"; "name"; "mode"; "parent"; "type"]
      [Lit (VInt 1); Lit (VText EmptyString); Lit (VInt 493); Lit (VInt 1);
       Lit (VInt DrvFolder)] ].

(** The loop of [InitDB]: the returned error ([None] is [nil]) and the file
    as the call leaves it.  (The message of a failed [Prepare] also quotes
    the text of the statement, which is left out here.) *)
Fixpoint init_loop (stmts : list statement) (d : database) : option error * database :=
  match stmts with
  | [] => (None, d)
  | sqlStr :: stmts =>
      match Prepare d sqlStr with
      | Err e => (Some (Errorf "error in query: " e), d)
      | Ok st =>
          match Exec st [] d with
          | Err e => (Some (Errorf "couldn't execute initialization query: " e), d)
          | Ok d' => init_loop stmts d'
          end
      end
  end.

(** [InitDB], on the file at the given path. *)
Definition InitDB (d : database) : option error * database :=
  init_loop tableSchemas d.

(** The seven destinations of [parseRow], in the order of the call. *)
Definition scan7 (r : row) : result common.Metadata :=
  match r with
  | [c0; c1; c2; c3; c4; c5; c6] =>
      let* inode := at_column 0 (scan_int64 c0) in
      let* name := at_column 1 (scan_string c1) in
      let* url := at_column 2 (scan_string c2) in
      let* size := at_column 3 (scan_int64 c3) in
      let* mode := at_column 4 (scan_int c4) in
      let* type := at_column 5 (scan_int c5) in
      let* parent := at_column 6 (scan_uint64 c6) in
      Ok {| common.Inode := inode; common.Name := name; common.URL := url;
            common.Size := size; common.Mode := mode; common.Type_ := type;
            common.Parent := parent; common.NLink := 0 |}
  | _ => wrong_arity r 7
  end.

(** [parseRow]: [row.Scan(&md.Inode, &md.Name, &md.URL, &md.Size, &md.Mode,
    &md.Type, &md.Parent)]. *)
Definition parseRow (r : Row) : result common.Metadata :=
  match Row_Scan r scan7 with
  | Err ErrNoRows => Err ErrNotFound
  | Err e => Err (Errorf "there is an error in query: " e)
  | Ok md => Ok md
  end.

Definition by_name_and_parent : statement :=
  SelectStar "files" [("name", Placeholder); ("parent", Placeholder)] None None.

Definition by_inode : statement :=
  SelectStar "files" [("inode", Placeholder)] None None.

Definition Search (parent : Z) (name : string) (d : database) : result common.Metadata :=
  let* query := wrap "couldn't prepare statement: " (Prepare d by_name_and_parent) in
  let row := QueryRow query [AUint64 parent; AString name] d in
  parseRow row.

Definition Get (inode : Z) (d : database) : result common.Metadata :=
  let* query := wrap "couldn't prepare statement: " (Prepare d by_inode) in
  let row := QueryRow query [AUint64 inode] d in
  parseRow row.

End Client.
End db.

(* ===================================================================== *)
(** ** Package [sqlite]: the current catalog client *)
(* ===================================================================== *)

Module sqlite.
Import sql gosql.

(** [sqlite.Metadata] is declared outside the given sources; its fields are
    those the client reads and writes. *)
Record Metadata : Type := {
  Inode : Z;
  Name : string;
  URL : string;
  Size : Z;
  Mode : Z;
  Parent : Z;
  Type_ : Z;
  Hash : string;
  NLink : Z
}.

Definition set_NLink (md : Metadata) (n : Z) : Metadata :=
  {| Inode := Inode md; Name := Name md; URL := URL md; Size := Size md;
     Mode := Mode md; Parent := Parent md; Type_ := Type_ md; Hash := Hash md;
     NLink := n |}.

Section Client.
Context `{Engine} `{TypeCodes}.

Definition files : table_def :=
  {| tbl_name := "files";
     tbl_columns :=
       [ {| col_name := "inode"; col_affinity := INTEGER; col_not_null := true;
            col_default := None; col_rowid := true |};
         db.not_null "name" TEXT;
         db.with_default "url" TEXT (VText EmptyString);
         db.with_default "size" INTEGER (VInt 0);
         db.not_null "mode" INTEGER;
         db.not_null "parent" INTEGER;
         db.not_null "type" INTEGER;
         db.with_default "hash" TEXT (VText EmptyString) ];
     tbl_unique := [["name"; "parent"]];
     tbl_foreign := [("parent", ("folders", "id"))] |}.

(** [tableSchemas]: the table, then the root folder with mode 0755. *)
Definition tableSchemas : list statement :=
  [ CreateTable files;
    InsertInto "files" ["inode"; "name"; "mode"; "parent"; "type"]
      [Lit (VInt 1); Lit (VText EmptyString); Lit (VInt 493); Lit (VInt 0);
       Lit (VInt DrvFolder)] ].

(** The loop of [InitDB]; the message of a failed [Prepare] also quotes the
    text of the statement, which is left out here. *)
Fixpoint init_loop (stmts : list statement) (d : database) : option error * database :=
  match stmts with
  | [] => (None, d)
  | sqlStr :: stmts =>
      match Prepare d sqlStr with
      | Err e => (Some (Errorf "error in query: " e), d)
      | Ok st =>
          match Exec st [] d with
          | Err e => (Some (Errorf "couldn't execute initialization query: " e), d)
          | Ok d' => init_loop stmts d'
          end
      end
  end.

(** [InitDB], on the file at the given path: the returned error ([None]
    is [nil]) and the file as the call leaves it. *)
Definition InitDB (d : database) : option error * database :=
  init_loop tableSchemas d.

(** [parseRow]: [row.Scan(&md.Inode, &md.Name, &md.URL, &md.Size, &md.Mode,
    &md.Parent, &md.Type, &md.Hash)]. *)
Definition scan8 (r : row) : result Metadata :=
  match r with
  | [c0; c1; c2; c3; c4; c5; c6; c7] =>
      let* inode := at_column 0 (scan_int64 c0) in
      let* name := at_column 1 (scan_string c1) in
      let* url := at_column 2 (scan_string c2) in
      let* size := at_column 3 (scan_int64 c3) in
      let* mode := at_column 4 (scan_int c4) in
      let* parent := at_column 5 (scan_int64 c5) in
      let* type := at_column 6 (scan_int c6) in
      let* hash := at_column 7 (scan_string c7) in
      Ok {| Inode := inode; Name := name; URL := url; Size := size;
            Mode := mode; Parent := parent; Type_ := type; Hash := hash;
            NLink := 0 |}
  | _ => wrong_arity r 8
  end.

Definition parseRow (r : row) : result Metadata :=
  wrap "couldn't parse row: " (scan8 r).

Definition by_name_and_parent : statement :=
  SelectStar "files" [("name", Placeholder); ("parent", Placeholder)] None None.

Definition by_inode : statement :=
  SelectStar "files" [("inode", Placeholder)] None None.

Definition by_parent : statement :=
  SelectStar "files" [("parent", Placeholder)] None None.

Definition count_by_parent_and_type : statement :=
  SelectCount "files" [("parent", Placeholder); ("type", Placeholder)].

Definition limit_offset_rows : statement :=
  SelectStar "files" [] (Some Placeholder) (Some Placeholder).

Definition insert_directory : statement :=
  InsertInto "files" ["name"; "mode"; "parent"; "type"]
    [Placeholder; Placeholder; Placeholder; Placeholder].

Definition insert_file : statement :=
  InsertInto "files" ["name"; "url"; "size"; "mode"; "parent"; "type"; "hash"]
    [Placeholder; Placeholder; Placeholder; Placeholder; Placeholder;
     Placeholder; Placeholder].

Definition fillNLink (md : Metadata) (d : database) : result Metadata :=
  if bool_decide (Type_ md = DrvFile) then Ok (set_NLink md 1)
  else
    let* query := wrap "couldn't prepare statement: " (Prepare d count_by_parent_and_type) in
    let* row := wrap "there is an error in query: "
                     (Query query [AInt (Inode md); AInt DrvFolder] d) in
    (* row.Next(); row.Scan(&count) *)
    match row with
    | [c0] :: _ =>
        match scan_int c0 with
        | Ok count => Ok (set_NLink md (wrap_int (count + 2)))
        | Err _ => Err (ErrText "couldn't parse row count")
        end
    | _ => Err (ErrText "couldn't parse row count")
    end.

Definition Search (parent : Z) (name : string) (d : database) : result Metadata :=
  let* query := wrap "couldn't prepare statement: " (Prepare d by_name_and_parent) in
  let* row := wrap "there is an error in query: "
                   (Query query [AString name; AInt parent] d) in
  match row with
  | [] => Err ErrNotFound
  | r :: _ => parseRow r
  end.

Definition Get (inode : Z) (d : database) : result Metadata :=
  let* query := wrap "couldn't prepare statement: " (Prepare d by_inode) in
  let* row := wrap "there is an error in query: " (Query query [AInt inode] d) in
  match row with
  | [] => Err ErrNotFound
  | r :: _ =>
      let* md := parseRow r in
      wrap "couldn't get nlink count: " (fillNLink md d)
  end.

(** The loop [for row.Next() { ... mdList = append(mdList, *md) }]. *)
Fixpoint collect (d : database) (rows : list row) (mdList : list Metadata)
  : result (list Metadata) :=
  match rows with
  | [] => Ok mdList
  | r :: rows =>
      let* md := parseRow r in
      let* md := wrap "couldn't get nlink count: " (fillNLink md d) in
      collect d rows (mdList ++ [md])%list
  end.

Definition GetChildren (parent : Z) (d : database) : result (list Metadata) :=
  let* query := wrap "couldn't prepare statement: " (Prepare d by_parent) in
  let* row := wrap "there is an error in query: " (Query query [AInt parent] d) in
  collect d row [].

Definition GetRows (limit offset : Z) (d : database) : result (list Metadata) :=
  let* query := wrap "couldn't prepare statement: " (Prepare d limit_offset_rows) in
  let* row := wrap "there is an error in query: " (Query query [] d) in
  collect d row [].

(** The part of [AddDirectory] and [CreateFile] after the INSERT: read the
    new row back and set its link count. *)
Definition read_back (parent : Z) (name : string) (nlink : Z) (d : database)
  : result Metadata :=
  let* query := wrap "couldn't prepare statement: " (Prepare d by_name_and_parent) in
  let* row := wrap "there is an error in query: "
                   (Query query [AString name; AInt parent] d) in
  match row with
  | [] => Err (ErrText "row should be inserted but apparently it didn't")
  | r :: _ =>
      let* md := parseRow r in
      Ok (set_NLink md nlink)
  end.

(** [AddDirectory]: the result and the database as the call leaves it. *)
Definition AddDirectory (parent : Z) (name : string) (mode : Z) (d : database)
  : result Metadata * database :=
  match wrap "couldn't prepare statement: " (Prepare d insert_directory) with
  | Err e => (Err e, d)
  | Ok query =>
      match wrap "couldn't insert directory: "
                 (Exec query [AString name; AInt mode; AInt parent; AInt DrvFolder] d) with
      | Err e => (Err e, d)
      | Ok d' =>
          (* since the directory has just been created, there are only
             '.' and '..' *)
          (read_back parent name 2 d', d')
      end
  end.

Definition CreateFile (parent : Z) (name : string) (mode : Z) (url hash : string)
                      (d : database) : result Metadata * database :=
  match wrap "couldn't prepare statement: " (Prepare d insert_file) with
  | Err e => (Err e, d)
  | Ok query =>
      match wrap "couldn't insert file: "
                 (Exec query [AString name; AString url; AInt 0; AInt mode;
                              AInt parent; AInt DrvFile; AString hash] d) with
      | Err e => (Err e, d)
      | Ok d' =>
          (* it's file and hardlink isn't supported *)
          (read_back parent name 1 d', d')
      end
  end.

Definition Insert (md : Metadata) (d : database) : option error * database :=
  match wrap "couldn't prepare statement: " (Prepare d insert_file) with
  | Err e => (Some e, d)
  | Ok query =>
      match wrap "couldn't insert file: "
                 (Exec query [AString (Name md); AString (URL md); AInt (Size md);
                              AInt (Mode md); AInt (Parent md); AInt (Type_ md);
                              AString (Hash md)] d) with
      | Err e => (Some e, d)
      | Ok d' => (None, d')
      end
  end.

End Client.

Section ClientContinued.
Context `{Engine} `{TypeCodes} `{sqlw.Floats}.

Definition one_row : statement :=
  SelectStar "files" [] (Some (Lit (VInt 1))) None.

(** [IsValidDatabase]: the error of [Prepare] is dropped, so after a failed
    [Prepare] the statement is nil and [query.Query()] dereferences it. *)
Definition IsValidDatabase (d : database) : go bool :=
  match Prepare d one_row with
  | Err _ => Panic "runtime error: invalid memory address or nil pointer dereference"
  | Ok query =>
      match Query query [] d with
      | Err _ => Return false
      | Ok _ => Return true
      end
  end.

Definition delete_by_inode : sqlw.change :=
  sqlw.DeleteFrom "files" [("inode", Placeholder)].

Definition Delete (inode : Z) (d : database) : option error * database :=
  match wrap "couldn't prepare statement: " (sqlw.PrepareChange d delete_by_inode) with
  | Err e => (Some e, d)
  | Ok query =>
      match wrap "couldn't delete entry: " (sqlw.ExecChange query [AInt inode] d) with
      | Err e => (Some e, d)
      | Ok d' => (None, d')
      end
  end.

Definition update_by_inode : sqlw.change :=
  sqlw.UpdateSet "files"
    [("name", Placeholder); ("url", Placeholder); ("size", Placeholder);
     ("mode", Placeholder); ("parent", Placeholder); ("type", Placeholder);
     ("hash", Placeholder)]
    [("inode", Placeholder)].

Definition Update (md : Metadata) (d : database) : option error * database :=
  match wrap "couldn't prepare statement: " (sqlw.PrepareChange d update_by_inode) with
  | Err e => (Some e, d)
  | Ok query =>
      match wrap "couldn't update file: "
                 (sqlw.ExecChange query
                    [AString (Name md); AString (URL md); AInt (Size md); AInt (Mode md);
                     AInt (Parent md); AInt (Type_ md); AString (Hash md);
                     AInt (Inode md)] d) with
      | Err e => (Some e, d)
      | Ok d' => (None, d')
      end
  end.

Definition count_rows : statement := SelectCount "files" [].

Definition count_by_type : statement := SelectCount "files" [("type", Placeholder)].

Definition sum_size_by_type : sqlw.aggregate :=
  sqlw.SelectSum "files" "size" [("type", Placeholder)].

(** [row.Next()] unchecked, then [row.Scan(&count)] with one destination. *)
Definition scan_count (prefix : string) (rows : list row) : result Z :=
  match rows with
  | [c0] :: _ => wrap prefix (at_column 0 (scan_int c0))
  | r :: _ => wrap prefix (wrong_arity r 1)
  | [] => Err (Errorf prefix (ErrText "sql: Scan called without calling Next"))
  end.

Definition GetRowCount (d : database) : result Z :=
  let* query := wrap "couldn't prepare statement: " (Prepare d count_rows) in
  let* row := wrap "there is an error in query: " (Query query [] d) in
  scan_count "couldn't get row count: " row.

Definition GetFileCount (d : database) : result Z :=
  let* query := wrap "couldn't prepare statement: " (Prepare d count_by_type) in
  let* row := wrap "there is an error in query: " (Query query [AInt DrvFile] d) in
  scan_count "couldn't get file count: " row.

Definition GetTotalSize (d : database) : result Z :=
  let* query := wrap "couldn't prepare statement: " (sqlw.PrepareSum d sum_size_by_type) in
  let* row := wrap "there is an error in query: "
                   (sqlw.QuerySum query [AInt DrvFile] d) in
  (* row.Next() unchecked, then row.Scan(&size) *)
  match row with
  | Ok s => wrap "couldn't get sum of sizes: " (at_column 0 (sqlw.scan_sum s))
  | Err e => Err (Errorf "couldn't get sum of sizes: " e)
  end.

Definition insert_with_inode : statement :=
  InsertInto "files" ["inode"; "name"; "url"; "size"; "mode"; "parent"; "type"; "hash"]
    [Placeholder; Placeholder; Placeholder; Placeholder; Placeholder;
     Placeholder; Placeholder; Placeholder].

Definition ForceInsert (md : Metadata) (d : database) : option error * database :=
  match wrap "couldn't prepare statement: " (Prepare d insert_with_inode) with
  | Err e => (Some e, d)
  | Ok query =>
      match wrap "couldn't insert file: "
                 (Exec query [AInt (Inode md); AString (Name md); AString (URL md);
                              AInt (Size md); AInt (Mode md); AInt (Parent md);
                              AInt (Type_ md); AString (Hash md)] d) with
      | Err e => (Some e, d)
      | Ok d' => (None, d')
      end
  end.

End ClientContinued.
End sqlite.

(* ===================================================================== *)
(** ** Package [main]: catalog discovery *)
(* ===================================================================== *)

Module main.
Import drive.

(** [findDBDrive]: the drives are probed in the order of the slice; the
    metadata a probe returns is dropped. *)
Fixpoint findDBDrive (drives : list Drive) : result Drive :=
  match drives with
  | [] => Err ErrNotFound
  | drv :: drives =>
      match GetFileMetadata drv common.DatabaseFileName with
      | Err err =>
          if decide (err = ErrNotFound) then findDBDrive drives
          else Err (Errorf ("couldn't get database file metadata from " +:+
                            GetProviderName drv +:+ ": ") err)
      | Ok _ => Ok drv
      end
  end.

End main.

(* ===================================================================== *)
(** ** The remote lock of a backend *)
(* ===================================================================== *)

(** Modelled from the spec: the [Lock] and [Unlock] methods of a backend.
    [drive.go] declares them in the [Drive] interface and fixes the two
    constants; their implementations (one per provider) are outside the given
    sources.  The model follows the interface comment and the spec:
    [Lock] creates the lock object when it is absent; when it is present it
    waits and looks again, and once it has waited longer than [lockTimeout]
    it removes the lock object itself and starts again from the beginning;
    [Unlock] deletes the lock object.

    A backend is the set of its object names.  [interval] is the pause
    between two looks; [released k] tells whether the mount that holds the
    lock deletes it during the [k]-th pause.  [Lock_loop] returns the backend
    and the number of pauses made, or [None] when [fuel] runs out. *)
Module remote_lock.
Import drive.

(** Modelled from the spec: the loop of [Lock], implemented per provider
    outside the given sources.  Absent lock: create it and return.  Present
    lock: once more than [lockTimeout] has been waited, remove it and start
    again from the beginning; otherwise pause and look again. *)
Fixpoint Lock_loop (fuel : nat) (interval : Z) (released : nat -> bool)
                   (objects : gset string) (k : nat) (waited : Z)
  : option (gset string * nat) :=
  match fuel with
  | O => None
  | S fuel =>
      if decide (lockFile ∈ objects) then
        if decide (lockTimeout < waited) then
          Lock_loop fuel interval released (objects ∖ {[lockFile]}) k 0
        else
          let objects := if released k then objects ∖ {[lockFile]} else objects in
          Lock_loop fuel interval released objects (S k) (waited + interval)
      else Some (objects ∪ {[lockFile]}, k)
  end.

(** Modelled from the spec: [Lock], implemented per provider outside the
    given sources; the loop started with nothing waited yet. *)
Definition Lock (fuel : nat) (interval : Z) (released : nat -> bool)
                (objects : gset string) : option (gset string * nat) :=
  Lock_loop fuel interval released objects 0 0.



End remote_lock.

(* ===================================================================== *)
(** ** Notions the statements below are phrased with *)
(* ===================================================================== *)

Module spec.
Import sql.

(** The object name of a URL: the name without one leading slash. *)
Definition object_name (name : string) : string :=
  match name with
  | String c rest => if decide (c = "/"%char) then rest else name
  | EmptyString => name
  end.

(** The canonical lookup by [(parent INTEGER, name TEXT)]: the rows whose
    [parent] column holds the integer and whose [name] column holds the
    text. *)
Definition canonical_rows (parent : Z) (name : string) (t : table) : list row :=
  List.filter (fun r => bool_decide (row_get (t_def t) r "name" = VText name) &&
                        bool_decide (row_get (t_def t) r "parent" = VInt parent))
              (t_rows t).

(** The rows with a given inode. *)
Definition rows_with_inode (inode : Z) (t : table) : list row :=
  List.filter (fun r => bool_decide (row_get (t_def t) r "inode" = VInt inode))
              (t_rows t).

(** The number of rows whose parent is [inode] and whose type is [code]. *)
Definition children_of_type (inode code : Z) (t : table) : Z :=
  Z.of_nat (length (List.filter
    (fun r => bool_decide (row_get (t_def t) r "parent" = VInt inode) &&
              bool_decide (row_get (t_def t) r "type" = VInt code))
    (t_rows t))).

(** A catalog of the current client: a database whose [files] table has
    the client's schema. *)
Definition catalog (d : database) (t : table) : Prop :=
  find_table "files" d = Some t /\ t_def t = sqlite.files.

(** The same for the first client. *)
Definition first_catalog (d : database) (t : table) : Prop :=
  find_table "files" d = Some t /\ t_def t = db.files.

(** The rows of a catalog of the current client under the schema of the
    first one: every column but [hash]. *)
Definition without_hash (t : table) : table :=
  {| t_def := db.files; t_rows := map (take 7) (t_rows t); t_seq := t_seq t |}.

(** Modelled from the spec: the error kinds of the core (section 7). *)
Inductive ErrorKind : Type :=
| NOT_FOUND | CONFLICT | INVALID | IO | LOCKED | CORRUPT | NO_SPACE | CANCELED.

(** The kind a caller can tell from an error value: [common.ErrNotFound]
    is the only sentinel the clients return; every other error they return
    is built by [fmt.Errorf] and carries a message only. *)
Definition kind_of (e : error) : option ErrorKind :=
  match e with
  | ErrNotFound => Some NOT_FOUND
  | _ => None
  end.

(** The inode of the entry a lookup found, if it found one. *)
Definition found {A} (inode : A -> Z) (r : result A) : option Z :=
  match r with
  | Ok md => Some (inode md)
  | Err _ => None
  end.

End spec.

(* ===================================================================== *)
(** ** Concrete backends and catalogs the statements are run on *)
(* ===================================================================== *)

Definition dropbox_drive : drive.Drive :=
  {| drive.GetProviderName := "dropbox";
     drive.GetFileMetadata name :=
       if decide (name = common.DatabaseFileName)
       then Ok {| drive.Name := name; drive.Size := 4096; drive.Hash := "h1" |}
       else Err ErrNotFound |}.

Definition gdrive_drive : drive.Drive :=
  {| drive.GetProviderName := "gdrive";
     drive.GetFileMetadata name :=
       if decide (name = common.DatabaseFileName)
       then Ok {| drive.Name := name; drive.Size := 8192; drive.Hash := "h2" |}
       else Err ErrNotFound |}.

Definition empty_drive : drive.Drive :=
  {| drive.GetProviderName := "empty";
     drive.GetFileMetadata name := Err ErrNotFound |}.

Definition holds_catalog (drv : drive.Drive) : Prop :=
  exists md, drive.GetFileMetadata drv common.DatabaseFileName = Ok md.

(** The selection the sentence about several copies describes: under a
    ranking [age] of the backends' copies, no backend that holds the catalog
    has a newer copy than the selected one. *)
Definition selects_newest (age : drive.Drive -> Z) : Prop :=
  forall drives drv, main.findDBDrive drives = Ok drv ->
    forall drv', In drv' drives -> holds_catalog drv' -> age drv' <= age drv.


(** The link count the catalog derives for an entry, over table [t]. *)
Definition nlink_derived `{TypeCodes} (t : sql.table) (md : sqlite.Metadata) : Prop :=
  (sqlite.Type_ md = DrvFile -> sqlite.NLink md = 1) /\
  (sqlite.Type_ md = DrvFolder ->
   sqlite.NLink md = 2 + spec.children_of_type (sqlite.Inode md) DrvFolder t).

(** Type codes for concrete catalogs: files 0, folders 1. *)
Definition codes01 : TypeCodes := {| DrvFile := 0; DrvFolder := 1 |}.

(** The catalog after the first launch, and after [mkdir /docs]. *)
Definition fresh_catalog : sql.database :=
  snd (@sqlite.InitDB gosql.decimal_engine codes01 []).

Definition docs_catalog : sql.database :=
  snd (@sqlite.AddDirectory gosql.decimal_engine codes01 1 "docs" 493 fresh_catalog).

Definition docs_table : sql.table :=
  match sql.find_table "files" docs_catalog with
  | Some t => t
  | None => {| sql.t_def := sqlite.files; sql.t_rows := []; sql.t_seq := 0 |}
  end.

(** What a column declaration says: name, type, whether it is the
    INTEGER PRIMARY KEY AUTOINCREMENT, and its DEFAULT. *)
Definition column_signature (c : sql.column)
  : string * sql.affinity * bool * option sql.value :=
  (sql.col_name c, sql.col_affinity c, sql.col_rowid c, sql.col_default c).

(** The sentence about the first launch, as stated, of an initialisation
    [init]: on an empty database it leaves exactly one table, [files], with
    the eight columns inode to hash and UNIQUE(name, parent), holding exactly
    one row, the root with inode 1, empty name, parent 0, mode 493 and type
    FOLDER. *)
Definition first_launch_as_stated `{TypeCodes}
           (init : sql.database -> option error * sql.database) : Prop :=
  exists t root,
    init [] = (None, [t]) /\
    sql.tbl_name (sql.t_def t) = "files" /\
    map column_signature (sql.tbl_columns (sql.t_def t)) =
      [ ("inode", sql.INTEGER, true, None);
        ("name", sql.TEXT, false, None);
        ("url", sql.TEXT, false, Some (sql.VText EmptyString));
        ("size", sql.INTEGER, false, Some (sql.VInt 0));
        ("mode", sql.INTEGER, false, None);
        ("parent", sql.INTEGER, false, None);
        ("type", sql.INTEGER, false, None);
        ("hash", sql.TEXT, false, Some (sql.VText EmptyString)) ] /\
    sql.tbl_unique (sql.t_def t) = [["name"; "parent"]] /\
    sql.t_rows t = [root] /\
    sql.row_get (sql.t_def t) root "inode" = sql.VInt 1 /\
    sql.row_get (sql.t_def t) root "name" = sql.VText EmptyString /\
    sql.row_get (sql.t_def t) root "parent" = sql.VInt 0 /\
    sql.row_get (sql.t_def t) root "mode" = sql.VInt 493 /\
    sql.row_get (sql.t_def t) root "type" = sql.VInt DrvFolder.

(** The error text of an insert that repeats a [(name, parent)] pair. *)
Definition duplicate_text (t : sql.table) : string :=
  if bool_decide (Z.max (sql.t_seq t) (sql.max_rowid t) = MaxInt64)
  then "database or disk is full"
  else "UNIQUE constraint failed: files.name, files.parent".



(** The first client's catalog after its [InitDB]. *)
Definition first_fresh_catalog : sql.database :=
  snd (@db.InitDB gosql.decimal_engine codes01 []).

Definition first_fresh_table : sql.table :=
  match sql.find_table "files" first_fresh_catalog with
  | Some t => t
  | None => {| sql.t_def := db.files; sql.t_rows := []; sql.t_seq := 0 |}
  end.

(** A catalog with the root and one directory [docs] under it. *)
Definition root_and_docs `{TypeCodes} : sql.table :=
  {| sql.t_def := sqlite.files;
     sql.t_rows :=
       [ [sql.VInt 1; sql.VText EmptyString; sql.VText EmptyString; sql.VInt 0;
          sql.VInt 493; sql.VInt 0; sql.VInt DrvFolder; sql.VText EmptyString];
         [sql.VInt 2; sql.VText "docs"; sql.VText EmptyString; sql.VInt 0;
          sql.VInt 493; sql.VInt 1; sql.VInt DrvFolder; sql.VText EmptyString] ];
     sql.t_seq := 2 |}.

(** A first-client catalog with the root and an entry named [5] under
    inode 7. *)
Definition first_named_five : sql.database :=
  [ {| sql.t_def := db.files;
       sql.t_rows :=
         [ [sql.VInt 1; sql.VText EmptyString; sql.VText EmptyString; sql.VInt 0;
            sql.VInt 493; sql.VInt 1; sql.VInt 1];
           [sql.VInt 2; sql.VText "5"; sql.VText EmptyString; sql.VInt 0;
            sql.VInt 420; sql.VInt 7; sql.VInt 0] ];
       sql.t_seq := 2 |} ].

(** The sentence about duplicate inserts, as stated: the error of an insert
    that repeats a [(name, parent)] pair is of kind CONFLICT. *)
Definition duplicate_insert_is_conflict `{sql.Engine} `{TypeCodes} : Prop :=
  forall d t parent name mode,
    spec.catalog d t ->
    spec.canonical_rows parent name t <> [] ->
    exists e, fst (sqlite.AddDirectory parent name mode d) = Err e /\
              spec.kind_of e = Some spec.CONFLICT.

(* ===================================================================== *)
(** ** Catalogs as the current client writes them *)
(* ===================================================================== *)

(** The row that holds an entry: the eight columns in table order. *)
Definition row_of (md : sqlite.Metadata) : sql.row :=
  [sql.VInt (sqlite.Inode md); sql.VText (sqlite.Name md); sql.VText (sqlite.URL md);
   sql.VInt (sqlite.Size md); sql.VInt (sqlite.Mode md); sql.VInt (sqlite.Parent md);
   sql.VInt (sqlite.Type_ md); sql.VText (sqlite.Hash md)].

Definition inode_of (r : sql.row) : sql.value := sql.row_get sqlite.files r "inode".

(** The pair that UNIQUE(name, parent) keeps apart. *)
Definition key_of (r : sql.row) : sql.value * sql.value :=
  (sql.row_get sqlite.files r "name", sql.row_get sqlite.files r "parent").

(** A [files] table in the state the client's calls keep it in: every row
    holds an entry, inodes are distinct, [(name, parent)] pairs are
    distinct, and the sequence entry is at least every inode in use. *)
Definition consistent (t : sql.table) : Prop :=
  sql.t_def t = sqlite.files /\
  (forall r, In r (sql.t_rows t) -> exists md, r = row_of md) /\
  List.NoDup (map inode_of (sql.t_rows t)) /\
  List.NoDup (map key_of (sql.t_rows t)) /\
  sql.max_rowid t <= sql.t_seq t.

(** The inode AUTOINCREMENT gives the next inserted row. *)
Definition next_inode (t : sql.table) : Z :=
  Z.max (sql.t_seq t) (sql.max_rowid t) + 1.

(** The link count [fillNLink] derives for an entry over table [t]. *)
Definition derived_nlink `{TypeCodes} (t : sql.table) (md : sqlite.Metadata) : Z :=
  if bool_decide (sqlite.Type_ md = DrvFile) then 1
  else 2 + spec.children_of_type (sqlite.Inode md) DrvFolder t.

(** The table after a row has been stored under a new largest rowid. *)
Definition with_row (t : sql.table) (md : sqlite.Metadata) : sql.table :=
  {| sql.t_def := sqlite.files;
     sql.t_rows := (sql.t_rows t ++ [row_of md])%list;
     sql.t_seq := Z.max (sql.t_seq t) (sqlite.Inode md) |}.

(** The entry an insert without inode stores. *)
Definition new_entry (t : sql.table) (name url : string) (size mode parent type : Z)
                     (hash : string) (nlink : Z) : sqlite.Metadata :=
  {| sqlite.Inode := next_inode t; sqlite.Name := name; sqlite.URL := url;
     sqlite.Size := size; sqlite.Mode := mode; sqlite.Parent := parent;
     sqlite.Type_ := type; sqlite.Hash := hash; sqlite.NLink := nlink |}.

(** The calls that write to a catalog, and the catalog each leaves. *)
Inductive call : Type :=
| CallAddDirectory (parent : Z) (name : string) (mode : Z)
| CallCreateFile (parent : Z) (name : string) (mode : Z) (url hash : string)
| CallInsert (md : sqlite.Metadata)
| CallForceInsert (md : sqlite.Metadata)
| CallDelete (inode : Z)
| CallUpdate (md : sqlite.Metadata).

Definition after `{sql.Engine} `{TypeCodes} (c : call) (d : sql.database) : sql.database :=
  match c with
  | CallAddDirectory parent name mode => snd (sqlite.AddDirectory parent name mode d)
  | CallCreateFile parent name mode url hash =>
      snd (sqlite.CreateFile parent name mode url hash d)
  | CallInsert md => snd (sqlite.Insert md d)
  | CallForceInsert md => snd (sqlite.ForceInsert md d)
  | CallDelete inode => snd (sqlite.Delete inode d)
  | CallUpdate md => snd (sqlite.Update md d)
  end.

(** A float-free run of the model: sums of non-integers are refused. *)
Definition no_floats : sqlw.Floats :=
  {| sqlw.scan_real_sum _ :=
       Err (ErrText "converting driver.Value type float64 to a int64: invalid syntax") |}.

(** The rows of a given type code, and the sum of the sizes of entries. *)
Definition rows_of_type (code : Z) (t : sql.table) : list sql.row :=
  List.filter (fun r => bool_decide (sql.row_get sqlite.files r "type" = sql.VInt code))
              (sql.t_rows t).

Definition total_size (mds : list sqlite.Metadata) : Z :=
  fold_right (fun md acc => sqlite.Size md + acc) 0 mds.

(** The sum of the sizes as the engine accumulates it, entry by entry, from
    [acc]: [None] once a partial sum leaves 64 bits. *)
Fixpoint running_size (acc : Z) (mds : list sqlite.Metadata) : option Z :=
  match mds with
  | [] => Some acc
  | md :: mds =>
      if bool_decide (MinInt64 <= acc + sqlite.Size md <= MaxInt64)
      then running_size (acc + sqlite.Size md) mds
      else None
  end.

(** The root and the directory [docs], as entries. *)
Definition root_entry : sqlite.Metadata :=
  {| sqlite.Inode := 1; sqlite.Name := EmptyString; sqlite.URL := EmptyString;
     sqlite.Size := 0; sqlite.Mode := 493; sqlite.Parent := 0; sqlite.Type_ := 1;
     sqlite.Hash := EmptyString; sqlite.NLink := 0 |}.

Definition docs_entry : sqlite.Metadata :=
  {| sqlite.Inode := 2; sqlite.Name := "docs"; sqlite.URL := EmptyString;
     sqlite.Size := 0; sqlite.Mode := 493; sqlite.Parent := 1; sqlite.Type_ := 1;
     sqlite.Hash := EmptyString; sqlite.NLink := 0 |}.

(** The catalog after [mkdir /docs] and the creation of a file in it. *)
Definition file_entry : sqlite.Metadata :=
  {| sqlite.Inode := 3; sqlite.Name := "a.txt"; sqlite.URL := "dropbox://x1";
     sqlite.Size := 0; sqlite.Mode := 420; sqlite.Parent := 2; sqlite.Type_ := 0;
     sqlite.Hash := "h"; sqlite.NLink := 1 |}.

Definition file_catalog : sql.database :=
  snd (@sqlite.CreateFile gosql.decimal_engine codes01 2 "a.txt" 420 "dropbox://x1" "h"
         docs_catalog).

Definition file_table : sql.table :=
  match sql.find_table "files" file_catalog with
  | Some t => t
  | None => {| sql.t_def := sqlite.files; sql.t_rows := []; sql.t_seq := 0 |}
  end.

(** The table without the rows of a given inode. *)
Definition without_inode (inode : Z) (t : sql.table) : sql.table :=
  {| sql.t_def := sql.t_def t;
     sql.t_rows := List.filter (fun r => negb (bool_decide (inode_of r = sql.VInt inode)))
                               (sql.t_rows t);
     sql.t_seq := sql.t_seq t |}.

(** The table after an entry has been stored under the inode it carries. *)
Definition with_row_at (t : sql.table) (md : sqlite.Metadata) : sql.table :=
  {| sql.t_def := sqlite.files;
     sql.t_rows := sql.insert_by_rowid sqlite.files (sqlite.Inode md) (row_of md) (sql.t_rows t);
     sql.t_seq := Z.max (sql.t_seq t) (sqlite.Inode md) |}.

(** An entry with another inode. *)
Definition set_Inode (md : sqlite.Metadata) (inode : Z) : sqlite.Metadata :=
  {| sqlite.Inode := inode; sqlite.Name := sqlite.Name md; sqlite.URL := sqlite.URL md;
     sqlite.Size := sqlite.Size md; sqlite.Mode := sqlite.Mode md;
     sqlite.Parent := sqlite.Parent md; sqlite.Type_ := sqlite.Type_ md;
     sqlite.Hash := sqlite.Hash md; sqlite.NLink := sqlite.NLink md |}.

(** A [files] table with the given rows and sequence entry. *)
Definition files_table (rows : list sql.row) (seq : Z) : sql.table :=
  {| sql.t_def := sqlite.files; sql.t_rows := rows; sql.t_seq := seq |}.

(** Three files of sizes 40, 2 and 0, and three whose sizes are the largest
    [int64], 1 and -2; the catalog that holds the first three. *)
Definition sized_entry (inode size : Z) : sqlite.Metadata :=
  {| sqlite.Inode := inode; sqlite.Name := pretty inode; sqlite.URL := "dropbox://x";
     sqlite.Size := size; sqlite.Mode := 420; sqlite.Parent := 1; sqlite.Type_ := 0;
     sqlite.Hash := "h"; sqlite.NLink := 1 |}.

Definition sized_entries : list sqlite.Metadata :=
  [sized_entry 2 40; sized_entry 3 2; sized_entry 4 0].

Definition overflowing_entries : list sqlite.Metadata :=
  [sized_entry 2 MaxInt64; sized_entry 3 1; sized_entry 4 (-2)].

Definition sized_catalog : sql.database :=
  [files_table (map row_of sized_entries) 4].

(** The catalog a sequence of calls leaves. *)
Definition after_all `{sql.Engine} `{TypeCodes} (calls : list call) (d : sql.database)
  : sql.database :=
  fold_left (fun d c => after c d) calls d.

(** [a.txt] renamed and moved to the root, and renamed to a taken name. *)
Definition moved_entry : sqlite.Metadata :=
  {| sqlite.Inode := 3; sqlite.Name := "b.txt"; sqlite.URL := "dropbox://x1";
     sqlite.Size := 12; sqlite.Mode := 420; sqlite.Parent := 1; sqlite.Type_ := 0;
     sqlite.Hash := "h2"; sqlite.NLink := 1 |}.

Definition clashing_entry : sqlite.Metadata :=
  {| sqlite.Inode := 3; sqlite.Name := "docs"; sqlite.URL := "dropbox://x1";
     sqlite.Size := 0; sqlite.Mode := 420; sqlite.Parent := 1; sqlite.Type_ := 0;
     sqlite.Hash := "h"; sqlite.NLink := 1 |}.

(** A probe that answers NOT_FOUND for the catalog. *)
Definition answers_not_found (drv : drive.Drive) : Prop :=
  drive.GetFileMetadata drv common.DatabaseFileName = Err ErrNotFound.


(* ===================================================================== *)
(** * Theorems *)
(* ===================================================================== *)

(** ** Go arithmetic and strings *)

Lemma wrap_int_small z : MinInt64 <= z <= MaxInt64 -> wrap_int z = z.
Proof.
  unfold wrap_int, MinInt64, MaxInt64. intros Hz.
  rewrite Z.mod_small by lia. lia.
Qed.

(** ** [drive.GetURL] *)

Lemma str_from_1 c s : str_from (String c s) 1 = s.
Proof.
  unfold str_from. cbn [String.length Nat.sub String.substring].
  rewrite Nat.sub_0_r.
  induction s as [|d s IH]; cbn [String.length String.substring]; [reflexivity|].
  f_equal. exact IH.
Qed.

Lemma GetURL_nonempty (drv : drive.Drive) (c : ascii) (rest : string) :
  drive.GetURL drv (String c rest) =
  Return (drive.GetProviderName drv +:+ "://" +:+ spec.object_name (String c rest)).
Proof.
  unfold drive.GetURL, str_index, spec.object_name. cbn [String.get].
  destruct (decide (c = "/"%char)); [rewrite str_from_1|]; reflexivity.
Qed.

(** C9.  For every drive and every non-empty object name, [GetURL] returns
    the provider name, then [://], then the name with one leading slash
    removed if it has one. *)
Theorem GetURL_format (drv : drive.Drive) (name : string) :
  name <> EmptyString ->
  drive.GetURL drv name =
  Return (drive.GetProviderName drv +:+ "://" +:+ spec.object_name name).
Proof.
  destruct name as [|c rest]; [congruence|].
  intros _. apply GetURL_nonempty.
Qed.

Lemma GetURL_format_witness :
  "/docs/a.bin" <> EmptyString /\
  drive.GetURL dropbox_drive "/docs/a.bin" = Return "dropbox://docs/a.bin".
Proof.
  split; [discriminate|].
  apply (GetURL_format dropbox_drive "/docs/a.bin"). discriminate.
Defined.

Example GetURL_strips_one_slash_only :
  drive.GetURL dropbox_drive "//a.bin" = Return "dropbox:///a.bin" /\
  drive.GetURL dropbox_drive "a/b.bin" = Return "dropbox://a/b.bin".
Proof. split; reflexivity. Qed.

(** C10.  [GetURL] reads [name[0]] unguarded: on the empty name the index is
    out of range and the call panics; on every non-empty name the index is in
    range and the call returns. *)
Theorem GetURL_index_in_range (drv : drive.Drive) :
  (str_index EmptyString 0 = None /\
   exists msg, drive.GetURL drv EmptyString = Panic msg) /\
  (forall name, name <> EmptyString ->
     (exists c, str_index name 0 = Some c) /\
     exists url, drive.GetURL drv name = Return url).
Proof.
  split.
  - split; [reflexivity|]. eexists. reflexivity.
  - intros [|c rest] Hne; [congruence|]. split.
    + exists c. reflexivity.
    + eexists. apply GetURL_nonempty.
Qed.

Lemma GetURL_index_in_range_witness :
  "a.bin" <> EmptyString /\
  (exists c, str_index "a.bin" 0 = Some c) /\
  exists url, drive.GetURL gdrive_drive "a.bin" = Return url.
Proof.
  split; [discriminate|].
  apply (proj2 (GetURL_index_in_range gdrive_drive) "a.bin"). discriminate.
Defined.

(** ** [main.findDBDrive] *)

Lemma findDBDrive_skips (before : list drive.Drive) (rest : list drive.Drive) :
  Forall (fun d => drive.GetFileMetadata d common.DatabaseFileName = Err ErrNotFound) before ->
  main.findDBDrive (before ++ rest) = main.findDBDrive rest.
Proof.
  induction 1 as [|d before Hd _ IH]; [reflexivity|].
  cbn [app main.findDBDrive]. rewrite Hd.
  destruct (decide (ErrNotFound = ErrNotFound)); [exact IH|congruence].
Qed.

(** C6, as the code has it.  The backends are probed in list order for
    [cloudstash.db] and the first probe that does not answer NOT_FOUND
    decides: a backend that holds the object is selected, whatever the other
    backends hold; another error is returned, wrapped with the provider name;
    and when every probe answers NOT_FOUND, the result is NOT_FOUND. *)
Theorem findDBDrive_first_holder (before after : list drive.Drive) (drv : drive.Drive) :
  Forall (fun d => drive.GetFileMetadata d common.DatabaseFileName = Err ErrNotFound) before ->
  main.findDBDrive before = Err ErrNotFound /\
  (holds_catalog drv -> main.findDBDrive (before ++ drv :: after) = Ok drv) /\
  (forall err, drive.GetFileMetadata drv common.DatabaseFileName = Err err ->
     err <> ErrNotFound ->
     main.findDBDrive (before ++ drv :: after) =
     Err (Errorf ("couldn't get database file metadata from " +:+
                  drive.GetProviderName drv +:+ ": ") err)).
Proof.
  intros Hb. split; [|split].
  - rewrite <- (app_nil_r before). rewrite (findDBDrive_skips before [] Hb). reflexivity.
  - intros [md Hmd]. rewrite (findDBDrive_skips before _ Hb).
    cbn [main.findDBDrive]. rewrite Hmd. reflexivity.
  - intros err He Hne. rewrite (findDBDrive_skips before _ Hb).
    cbn [main.findDBDrive]. rewrite He.
    destruct (decide (err = ErrNotFound)); [contradiction|reflexivity].
Qed.

Lemma findDBDrive_first_holder_witness :
  main.findDBDrive [empty_drive] = Err ErrNotFound /\
  main.findDBDrive [empty_drive; dropbox_drive; gdrive_drive] = Ok dropbox_drive.
Proof.
  assert (Hb : Forall (fun d => drive.GetFileMetadata d common.DatabaseFileName = Err ErrNotFound)
                      [empty_drive]) by (constructor; [reflexivity|constructor]).
  destruct (findDBDrive_first_holder [empty_drive] [gdrive_drive] dropbox_drive Hb)
    as (Hnone & Hsel & _).
  split; [exact Hnone|].
  apply Hsel. eexists. reflexivity.
Defined.

(** C6, as the sentence states it, fails: both backends below hold the
    catalog, and whichever of the two copies counts as the newer one,
    [findDBDrive] selects the backend that comes first in the list. *)
Lemma findDBDrive_not_newest :
  (main.findDBDrive [dropbox_drive; gdrive_drive] = Ok dropbox_drive /\
   main.findDBDrive [gdrive_drive; dropbox_drive] = Ok gdrive_drive) /\
  ~ exists age, age dropbox_drive <> age gdrive_drive /\ selects_newest age.
Proof.
  split; [split; reflexivity|].
  intros (age & Hne & Hsel).
  assert (H1 : age gdrive_drive <= age dropbox_drive).
  { apply (Hsel [dropbox_drive; gdrive_drive]); [reflexivity| |eexists; reflexivity].
    right; left; reflexivity. }
  assert (H2 : age dropbox_drive <= age gdrive_drive).
  { apply (Hsel [gdrive_drive; dropbox_drive]); [reflexivity| |eexists; reflexivity].
    right; left; reflexivity. }
  lia.
Qed.

(** ** The remote lock (constants of [drive.go], protocol from the spec) *)









Example Lock_never_released :
  remote_lock.Lock 8 drive.Minute (fun _ => false) {[drive.lockFile; "cloudstash.db"]} =
  Some ({[drive.lockFile; "cloudstash.db"]}, 6%nat).
Proof. vm_compute. reflexivity. Qed.

Example Lock_released_during_third_pause :
  remote_lock.Lock 8 drive.Minute (fun k => bool_decide (k = 2%nat)) {[drive.lockFile]} =
  Some ({[drive.lockFile]}, 3%nat).
Proof. vm_compute. reflexivity. Qed.

(** ** The engine *)

Section EngineFacts.
Context `{sql.Engine}.
Import sql.

Lemma sql_eq_text (v : value) (s : string) :
  sql_eq TEXT v (VText s) = bool_decide (v = VText s).
Proof.
  unfold sql_eq, apply_affinity. destruct v as [|z|s']; cbn.
  - symmetry. apply bool_decide_eq_false. congruence.
  - symmetry. apply bool_decide_eq_false. congruence.
  - apply bool_decide_ext. split; congruence.
Qed.

Lemma sql_eq_int (v : value) (z : Z) :
  sql_eq INTEGER v (VInt z) = bool_decide (v = VInt z).
Proof.
  unfold sql_eq, apply_affinity. destruct v as [|z'|s]; cbn.
  - symmetry. apply bool_decide_eq_false. congruence.
  - apply bool_decide_ext. split; congruence.
  - symmetry. apply bool_decide_eq_false. congruence.
Qed.

(** An integer bound to a TEXT column is compared as its decimal text. *)
Lemma sql_eq_text_int (v : value) (z : Z) :
  sql_eq TEXT v (VInt z) = bool_decide (v = VText (pretty z)).
Proof.
  unfold sql_eq, apply_affinity. destruct v as [|z'|s]; cbn.
  - symmetry. apply bool_decide_eq_false. congruence.
  - symmetry. apply bool_decide_eq_false. congruence.
  - apply bool_decide_ext. split; congruence.
Qed.

Lemma filter_ext_all {A} (f g : A -> bool) (l : list A) :
  (forall a, f a = g a) -> List.filter f l = List.filter g l.
Proof.
  intros Hfg. induction l as [|a l IH]; [reflexivity|].
  cbn [List.filter]. rewrite Hfg, IH. reflexivity.
Qed.

Lemma filter_length_le {A} (f : A -> bool) (l : list A) :
  (length (List.filter f l) <= length l)%nat.
Proof.
  induction l as [|a l IH]; cbn [List.filter length]; [lia|].
  destruct (f a); cbn [length]; lia.
Qed.

Lemma filter_In_head {A} (f : A -> bool) (l : list A) (a : A) (rest : list A) :
  List.filter f l = a :: rest -> In a l /\ f a = true.
Proof.
  intros Hf. apply filter_In. rewrite Hf. left. reflexivity.
Qed.

Lemma filter_nil_iff {A} (f : A -> bool) (l : list A) :
  List.filter f l = [] <-> forall a, In a l -> f a = false.
Proof.
  induction l as [|a l IH]; cbn [List.filter].
  - split; [intros _ a []|reflexivity].
  - destruct (f a) eqn:Hfa.
    + split; [discriminate|]. intros Hall.
      specialize (Hall a (or_introl eq_refl)). congruence.
    + rewrite IH. split.
      * intros Hall b [<-|Hb]; [exact Hfa|auto].
      * intros Hall b Hb. apply Hall. right. exact Hb.
Qed.

End EngineFacts.

(** ** The current client's statements on a catalog *)

Section SqliteFacts.
Context `{sql.Engine} `{TypeCodes}.
Import sql gosql.

Lemma catalog_prepare d t (s : statement) :
  spec.catalog d t ->
  In s [sqlite.by_name_and_parent; sqlite.by_inode; sqlite.by_parent;
        sqlite.count_by_parent_and_type; sqlite.limit_offset_rows;
        sqlite.insert_directory; sqlite.insert_file] ->
  Prepare d s = Ok s.
Proof.
  intros [Hfind Hdef] Hin. unfold Prepare.
  repeat (destruct Hin as [<-|Hin]); try contradiction;
    cbn; rewrite Hfind, ?Hdef; reflexivity.
Qed.

Lemma query_by_name_and_parent d t parent name :
  spec.catalog d t ->
  Query sqlite.by_name_and_parent [AString name; AInt parent] d =
  Ok (spec.canonical_rows parent name t).
Proof.
  intros [Hfind Hdef]. unfold Query.
  change (checked_args _ _) with (Ok (A:=list value) [VText name; VInt parent]).
  cbn. rewrite Hfind. f_equal.
  unfold select_where, spec.canonical_rows. rewrite Hdef.
  apply filter_ext_all. intros r. unfold row_matches. cbn.
  rewrite sql_eq_text, sql_eq_int, andb_true_r. reflexivity.
Qed.

Lemma query_by_inode d t inode :
  spec.catalog d t ->
  Query sqlite.by_inode [AInt inode] d = Ok (spec.rows_with_inode inode t).
Proof.
  intros [Hfind Hdef]. unfold Query.
  change (checked_args _ _) with (Ok (A:=list value) [VInt inode]).
  cbn. rewrite Hfind. f_equal.
  unfold select_where, spec.rows_with_inode. rewrite Hdef.
  apply filter_ext_all. intros r. unfold row_matches. cbn.
  rewrite sql_eq_int, andb_true_r. reflexivity.
Qed.

Lemma query_by_parent d t parent :
  spec.catalog d t ->
  Query sqlite.by_parent [AInt parent] d =
  Ok (List.filter (fun r => bool_decide (row_get (t_def t) r "parent" = VInt parent))
                  (t_rows t)).
Proof.
  intros [Hfind Hdef]. unfold Query.
  change (checked_args _ _) with (Ok (A:=list value) [VInt parent]).
  cbn. rewrite Hfind. f_equal.
  unfold select_where. rewrite Hdef.
  apply filter_ext_all. intros r. unfold row_matches. cbn.
  rewrite sql_eq_int, andb_true_r. reflexivity.
Qed.

Lemma query_count d t inode code :
  spec.catalog d t ->
  Query sqlite.count_by_parent_and_type [AInt inode; AInt code] d =
  Ok [[VInt (spec.children_of_type inode code t)]].
Proof.
  intros [Hfind Hdef]. unfold Query.
  change (checked_args _ _) with (Ok (A:=list value) [VInt inode; VInt code]).
  cbn. rewrite Hfind. do 4 f_equal.
  unfold count_where, spec.children_of_type, select_where. rewrite Hdef.
  do 2 f_equal. apply filter_ext_all. intros r. unfold row_matches. cbn.
  rewrite !sql_eq_int, andb_true_r. reflexivity.
Qed.

End SqliteFacts.

(** ** The current client: lookups and link counts *)

Section SqliteLookups.
Context `{sql.Engine} `{TypeCodes}.
Import sql gosql.

Lemma Search_on_catalog d t parent name :
  spec.catalog d t ->
  sqlite.Search parent name d =
  match spec.canonical_rows parent name t with
  | [] => Err ErrNotFound
  | r :: _ => sqlite.parseRow r
  end.
Proof.
  intros Hcat. unfold sqlite.Search.
  rewrite (catalog_prepare d t) by (cbn; tauto || exact Hcat).
  cbn [wrap rbind]. rewrite (query_by_name_and_parent d t) by exact Hcat.
  reflexivity.
Qed.

Lemma Get_on_catalog d t inode :
  spec.catalog d t ->
  sqlite.Get inode d =
  match spec.rows_with_inode inode t with
  | [] => Err ErrNotFound
  | r :: _ =>
      let* md := sqlite.parseRow r in
      wrap "couldn't get nlink count: " (sqlite.fillNLink md d)
  end.
Proof.
  intros Hcat. unfold sqlite.Get.
  rewrite (catalog_prepare d t) by (cbn; tauto || exact Hcat).
  cbn [wrap rbind]. rewrite (query_by_inode d t) by exact Hcat.
  reflexivity.
Qed.

Lemma children_of_type_bounds inode code t :
  0 <= spec.children_of_type inode code t <= Z.of_nat (length (t_rows t)).
Proof.
  unfold spec.children_of_type.
  pose proof (filter_length_le
    (fun r => bool_decide (row_get (t_def t) r "parent" = VInt inode) &&
              bool_decide (row_get (t_def t) r "type" = VInt code)) (t_rows t)).
  lia.
Qed.

Lemma fillNLink_on_catalog d t md :
  spec.catalog d t ->
  Z.of_nat (length (t_rows t)) + 2 <= MaxInt64 ->
  sqlite.fillNLink md d =
  Ok (sqlite.set_NLink md
        (if bool_decide (sqlite.Type_ md = DrvFile) then 1
         else 2 + spec.children_of_type (sqlite.Inode md) DrvFolder t)).
Proof.
  intros Hcat Hsize. unfold sqlite.fillNLink.
  destruct (bool_decide (sqlite.Type_ md = DrvFile)); [reflexivity|].
  rewrite (catalog_prepare d t) by (cbn; tauto || exact Hcat).
  cbn [wrap rbind]. rewrite (query_count d t) by exact Hcat.
  cbn [wrap rbind scan_int scan_int64].
  pose proof (children_of_type_bounds (sqlite.Inode md) DrvFolder t) as Hb.
  rewrite wrap_int_small by (unfold MinInt64, MaxInt64 in *; lia).
  do 2 f_equal. lia.
Qed.

Lemma fillNLink_derived d t md md' :
  spec.catalog d t ->
  DrvFile <> DrvFolder ->
  Z.of_nat (length (t_rows t)) + 2 <= MaxInt64 ->
  sqlite.fillNLink md d = Ok md' ->
  nlink_derived t md'.
Proof.
  intros Hcat Hcodes Hsize Hfill.
  rewrite (fillNLink_on_catalog d t md Hcat Hsize) in Hfill.
  injection Hfill as <-. unfold nlink_derived. cbn.
  split; intros Hty.
  - rewrite bool_decide_eq_true_2 by exact Hty. reflexivity.
  - rewrite bool_decide_eq_false_2 by congruence. reflexivity.
Qed.

Lemma collect_derived d t :
  spec.catalog d t ->
  DrvFile <> DrvFolder ->
  Z.of_nat (length (t_rows t)) + 2 <= MaxInt64 ->
  forall rows mdList res,
    sqlite.collect d rows mdList = Ok res ->
    Forall (nlink_derived t) mdList ->
    Forall (nlink_derived t) res.
Proof.
  intros Hcat Hcodes Hsize.
  induction rows as [|r rows IH]; intros mdList res Hrun Hacc; cbn [sqlite.collect] in Hrun.
  - injection Hrun as <-. exact Hacc.
  - destruct (sqlite.parseRow r) as [md|e]; cbn [rbind] in Hrun; [|discriminate].
    destruct (sqlite.fillNLink md d) as [md'|e] eqn:Hfill; cbn [wrap rbind] in Hrun;
      [|discriminate].
    apply (IH _ _ Hrun). apply Forall_app. split; [exact Hacc|].
    constructor; [|constructor].
    exact (fillNLink_derived d t md md' Hcat Hcodes Hsize Hfill).
Qed.

End SqliteLookups.

(** ** Initialisation *)

Section Initialisation.
Context `{sql.Engine} `{TypeCodes}.
Import sql gosql.

(** C2, as the code has it.  [InitDB] of the current client, on a fresh
    path, succeeds and leaves a database with exactly one table, [files],
    with the columns inode INTEGER PRIMARY KEY AUTOINCREMENT, name TEXT, url
    TEXT DEFAULT empty, size INTEGER DEFAULT 0, mode INTEGER, parent INTEGER,
    type INTEGER, hash TEXT DEFAULT empty and UNIQUE(name, parent), holding
    exactly one row: the root, with inode 1, empty name, parent 0, mode 0755
    (493) and type FOLDER.  [InitDB] of the first client, on a fresh path,
    succeeds as well and leaves exactly one table, [files], with the same
    columns except [hash], which it does not have, and UNIQUE(name, parent),
    holding exactly one row: the root, with inode 1, empty name, mode 493,
    type FOLDER and parent 1, its own inode. *)
Theorem InitDB_first_launch :
  (exists t root,
    sqlite.InitDB [] = (None, [t]) /\
    tbl_name (t_def t) = "files" /\
    map column_signature (tbl_columns (t_def t)) =
      [ ("inode", INTEGER, true, None);
        ("name", TEXT, false, None);
        ("url", TEXT, false, Some (VText EmptyString));
        ("size", INTEGER, false, Some (VInt 0));
        ("mode", INTEGER, false, None);
        ("parent", INTEGER, false, None);
        ("type", INTEGER, false, None);
        ("hash", TEXT, false, Some (VText EmptyString)) ] /\
    tbl_unique (t_def t) = [["name"; "parent"]] /\
    t_rows t = [root] /\
    row_get (t_def t) root "inode" = VInt 1 /\
    row_get (t_def t) root "name" = VText EmptyString /\
    row_get (t_def t) root "parent" = VInt 0 /\
    row_get (t_def t) root "mode" = VInt 493 /\
    row_get (t_def t) root "type" = VInt DrvFolder) /\
  (exists t root,
    db.InitDB [] = (None, [t]) /\
    tbl_name (t_def t) = "files" /\
    map column_signature (tbl_columns (t_def t)) =
      [ ("inode", INTEGER, true, None);
        ("name", TEXT, false, None);
        ("url", TEXT, false, Some (VText EmptyString));
        ("size", INTEGER, false, Some (VInt 0));
        ("mode", INTEGER, false, None);
        ("parent", INTEGER, false, None);
        ("type", INTEGER, false, None) ] /\
    tbl_unique (t_def t) = [["name"; "parent"]] /\
    t_rows t = [root] /\
    row_get (t_def t) root "inode" = VInt 1 /\
    row_get (t_def t) root "name" = VText EmptyString /\
    row_get (t_def t) root "parent" = VInt 1 /\
    row_get (t_def t) root "mode" = VInt 493 /\
    row_get (t_def t) root "type" = VInt DrvFolder).
Proof.
  split.
  - eexists _, _. split; [reflexivity|]. cbn [t_def t_rows].
    repeat split; reflexivity.
  - eexists _, _. split; [reflexivity|]. cbn [t_def t_rows].
    repeat split; reflexivity.
Qed.

(** The sentence as stated does hold of the current client. *)
Lemma current_client_first_launch : first_launch_as_stated sqlite.InitDB.
Proof.
  eexists _, _. split; [reflexivity|]. cbn [t_def t_rows].
  repeat split; reflexivity.
Qed.

(** The first client initialises differently: its table has no [hash]
    column and its root row is its own parent. *)
Lemma first_client_InitDB :
  exists t root,
    db.InitDB [] = (None, [t]) /\
    map col_name (tbl_columns (t_def t)) =
      ["inode"; "name"; "url"; "size"; "mode"; "parent"; "type"] /\
    t_rows t = [root] /\
    row_get (t_def t) root "inode" = VInt 1 /\
    row_get (t_def t) root "parent" = VInt 1 /\
    row_get (t_def t) root "type" = VInt DrvFolder.
Proof.
  eexists _, _. split; [reflexivity|]. cbn [t_def t_rows].
  repeat split; reflexivity.
Qed.

(** A second [InitDB] on the same file fails and changes nothing. *)
Lemma InitDB_twice d :
  sqlite.InitDB [] = (None, d) ->
  sqlite.InitDB d =
  (Some (Errorf "error in query: " (ErrText "table files already exists")), d).
Proof. intros Hd. injection Hd as <-. reflexivity. Qed.

End Initialisation.

(** C2, as stated, fails for the first client: the table its [InitDB]
    leaves has seven columns, none of them [hash], and its root row has
    parent 1. *)
Lemma first_client_first_launch_differs :
  ~ @first_launch_as_stated codes01 (@db.InitDB gosql.decimal_engine codes01).
Proof.
  intros (t & root & Hrun & _ & Hcols & _).
  injection Hrun as <-. vm_compute in Hcols. discriminate Hcols.
Qed.

(** ** [GetRows] *)

Section SqliteGetRows.
Context `{sql.Engine} `{TypeCodes}.
Import sql gosql.

Lemma compile_same d s s' : compile d s = Ok s' -> s' = s.
Proof.
  destruct s as [def|tbl cols vals|tbl w l o|tbl w]; cbn [compile]; intros Hc.
  - destruct (find_table (tbl_name def) d); congruence.
  - destruct (find_table tbl d) as [t|]; [|discriminate].
    destruct (List.find _ cols); [discriminate|].
    destruct (bool_decide _); congruence.
  - destruct (find_table tbl d) as [t|]; [|discriminate].
    destruct (List.find _ (map fst w)); congruence.
  - destruct (find_table tbl d) as [t|]; [|discriminate].
    destruct (List.find _ (map fst w)); congruence.
Qed.

(** C7.  For every limit and offset [GetRows] returns an error and never a
    list of rows: the statement has two placeholders, LIMIT ? OFFSET ?, and
    [Query()] is called without arguments.  On a catalog the error is the
    argument-count error of [database/sql]. *)
Theorem GetRows_always_fails (d : database) (limit offset : Z) :
  (exists e, sqlite.GetRows limit offset d = Err e) /\
  bind_parameter_count sqlite.limit_offset_rows = 2%nat /\
  (forall t, spec.catalog d t ->
     sqlite.GetRows limit offset d =
     Err (Errorf "there is an error in query: "
                 (ErrText "sql: expected 2 arguments, got 0"))).
Proof.
  split; [|split].
  - unfold sqlite.GetRows, Prepare.
    destruct (compile d sqlite.limit_offset_rows) as [query|e] eqn:Hc; cbn [wrap rbind].
    + apply compile_same in Hc. subst query. eexists. reflexivity.
    + eexists. reflexivity.
  - reflexivity.
  - intros t Hcat. unfold sqlite.GetRows.
    rewrite (catalog_prepare d t) by (cbn; tauto || exact Hcat).
    reflexivity.
Qed.

End SqliteGetRows.

Lemma GetRows_always_fails_witness :
  spec.catalog docs_catalog docs_table /\
  @sqlite.GetRows gosql.decimal_engine codes01 10 0 docs_catalog =
  Err (Errorf "there is an error in query: " (ErrText "sql: expected 2 arguments, got 0")).
Proof.
  assert (Hcat : spec.catalog docs_catalog docs_table) by (split; reflexivity).
  split; [exact Hcat|].
  apply (proj2 (proj2 (@GetRows_always_fails gosql.decimal_engine codes01
                         docs_catalog 10 0)) docs_table Hcat).
Defined.

(** ** Inserting into a catalog *)

Section SqliteInserts.
Context `{sql.Engine} `{TypeCodes}.
Import sql gosql.

Lemma max_rowid_rows def rows seq r z :
  In r rows -> rowid_of def r = VInt z ->
  z <= max_rowid {| t_def := def; t_rows := rows; t_seq := seq |}.
Proof.
  unfold max_rowid. cbn [t_def t_rows].
  induction rows as [|r' rows IH]; intros Hin Hz; [destruct Hin|].
  cbn [fold_right]. destruct Hin as [->|Hin].
  - rewrite Hz. lia.
  - specialize (IH Hin Hz). destruct (rowid_of def r'); lia.
Qed.

Lemma max_rowid_ge t r z :
  In r (t_rows t) -> rowid_of (t_def t) r = VInt z -> z <= max_rowid t.
Proof. destruct t as [def rows seq]. apply max_rowid_rows. Qed.

Lemma next_rowid_fresh t z :
  next_rowid t = Ok z ->
  existsb (fun r' => bool_decide (rowid_of (t_def t) r' = VInt z)) (t_rows t) = false.
Proof.
  unfold next_rowid. destruct (bool_decide _); [discriminate|].
  intros Hz. injection Hz as <-.
  destruct (existsb _ (t_rows t)) eqn:Hex; [|reflexivity].
  apply existsb_exists in Hex. destruct Hex as (r' & Hin & Heq).
  apply bool_decide_eq_true_1 in Heq.
  pose proof (max_rowid_ge t r' _ Hin Heq). lia.
Qed.

Lemma next_rowid_cases t :
  (Z.max (t_seq t) (max_rowid t) = MaxInt64 /\
   next_rowid t = Err (ErrText "database or disk is full")) \/
  (Z.max (t_seq t) (max_rowid t) <> MaxInt64 /\
   next_rowid t = Ok (Z.max (t_seq t) (max_rowid t) + 1)).
Proof.
  unfold next_rowid. destruct (decide (Z.max (t_seq t) (max_rowid t) = MaxInt64)) as [Hm|Hm].
  - left. rewrite bool_decide_eq_true_2 by exact Hm. auto.
  - right. rewrite bool_decide_eq_false_2 by exact Hm. auto.
Qed.

Lemma insert_given_duplicate t name url size mode parent ty hash :
  t_def t = sqlite.files ->
  spec.canonical_rows parent name t <> [] ->
  insert_given t [VNull; VText name; VText url; VInt size; VInt mode;
                  VInt parent; VInt ty; VText hash] =
  Err (ErrText (duplicate_text t)).
Proof.
  intros Hdef Hdup. unfold insert_given, duplicate_text. rewrite Hdef. cbv zeta.
  change (rowid_of sqlite.files [VNull; VText name; VText url; VInt size; VInt mode;
                                 VInt parent; VInt ty; VText hash]) with VNull.
  destruct (next_rowid_cases t) as [[Hm Hnext]|[Hm Hnext]]; rewrite Hnext; cbn [rbind].
  - rewrite bool_decide_eq_true_2 by exact Hm. reflexivity.
  - rewrite bool_decide_eq_false_2 by exact Hm.
    set (z := Z.max (t_seq t) (max_rowid t) + 1) in *.
    change (map _ (combine (tbl_columns sqlite.files) _))
      with [VInt z; VText name; VText url; VInt size; VInt mode;
            VInt parent; VInt ty; VText hash].
    change (not_null_violation sqlite.files _) with (@None string).
    pose proof (next_rowid_fresh t z Hnext) as Hfresh.
    rewrite Hdef in Hfresh. rewrite Hfresh.
    assert (Hviol : unique_violation t
              [VInt z; VText name; VText url; VInt size; VInt mode;
               VInt parent; VInt ty; VText hash] = Some ["name"; "parent"]).
    { unfold unique_violation. rewrite Hdef. cbn [tbl_unique sqlite.files List.find].
      destruct (spec.canonical_rows parent name t) as [|r' rest] eqn:Hrows; [congruence|].
      apply filter_In_head in Hrows. destruct Hrows as [Hin Hmatch].
      apply andb_true_iff in Hmatch. destruct Hmatch as [Hn Hp].
      apply bool_decide_eq_true_1 in Hn. apply bool_decide_eq_true_1 in Hp.
      rewrite Hdef in Hn, Hp.
      replace (existsb _ (t_rows t)) with true; [reflexivity|].
      symmetry. apply existsb_exists. exists r'. split; [exact Hin|].
      unfold same_on. cbn [forallb].
      rewrite Hn, Hp.
      change (row_get sqlite.files _ "name") with (VText name).
      change (row_get sqlite.files _ "parent") with (VInt parent).
      cbv iota beta. rewrite !bool_decide_eq_true_2 by reflexivity. reflexivity. }
    rewrite Hviol. reflexivity.
Qed.

End SqliteInserts.

Section SqliteInsertErrors.
Context `{sql.Engine} `{TypeCodes}.
Import sql gosql.

Lemma Exec_insert_directory d t name mode parent :
  spec.catalog d t ->
  Exec sqlite.insert_directory [AString name; AInt mode; AInt parent; AInt DrvFolder] d =
  let* t' := insert_given t [VNull; VText name; VText EmptyString; VInt 0; VInt mode;
                             VInt parent; VInt DrvFolder; VText EmptyString] in
  Ok (replace_table t' d).
Proof.
  intros [Hfind Hdef]. unfold Exec.
  change (checked_args _ _)
    with (Ok (A:=list value) [VText name; VInt mode; VInt parent; VInt DrvFolder]).
  cbn [rbind run_exec sqlite.insert_directory]. rewrite Hfind.
  unfold insert_row. rewrite Hdef. reflexivity.
Qed.

Lemma Exec_insert_file d t name url size mode parent ty hash :
  spec.catalog d t ->
  Exec sqlite.insert_file [AString name; AString url; AInt size; AInt mode;
                           AInt parent; AInt ty; AString hash] d =
  let* t' := insert_given t [VNull; VText name; VText url; VInt size; VInt mode;
                             VInt parent; VInt ty; VText hash] in
  Ok (replace_table t' d).
Proof.
  intros [Hfind Hdef]. unfold Exec.
  change (checked_args _ _)
    with (Ok (A:=list value) [VText name; VText url; VInt size; VInt mode;
                              VInt parent; VInt ty; VText hash]).
  cbn [rbind run_exec sqlite.insert_file]. rewrite Hfind.
  unfold insert_row. rewrite Hdef. reflexivity.
Qed.

Lemma AddDirectory_duplicate d t parent name mode :
  spec.catalog d t ->
  spec.canonical_rows parent name t <> [] ->
  sqlite.AddDirectory parent name mode d =
  (Err (Errorf "couldn't insert directory: " (ErrText (duplicate_text t))), d).
Proof.
  intros Hcat Hdup. unfold sqlite.AddDirectory.
  rewrite (catalog_prepare d t) by (cbn; tauto || exact Hcat). cbn [wrap].
  rewrite (Exec_insert_directory d t) by exact Hcat.
  rewrite insert_given_duplicate by (exact Hdup || apply Hcat). reflexivity.
Qed.

Lemma CreateFile_duplicate d t parent name mode url hash :
  spec.catalog d t ->
  spec.canonical_rows parent name t <> [] ->
  sqlite.CreateFile parent name mode url hash d =
  (Err (Errorf "couldn't insert file: " (ErrText (duplicate_text t))), d).
Proof.
  intros Hcat Hdup. unfold sqlite.CreateFile.
  rewrite (catalog_prepare d t) by (cbn; tauto || exact Hcat). cbn [wrap].
  rewrite (Exec_insert_file d t) by exact Hcat.
  rewrite insert_given_duplicate by (exact Hdup || apply Hcat). reflexivity.
Qed.

Lemma Insert_duplicate d t md :
  spec.catalog d t ->
  spec.canonical_rows (sqlite.Parent md) (sqlite.Name md) t <> [] ->
  sqlite.Insert md d =
  (Some (Errorf "couldn't insert file: " (ErrText (duplicate_text t))), d).
Proof.
  intros Hcat Hdup. unfold sqlite.Insert.
  rewrite (catalog_prepare d t) by (cbn; tauto || exact Hcat). cbn [wrap].
  rewrite (Exec_insert_file d t) by exact Hcat.
  rewrite insert_given_duplicate by (exact Hdup || apply Hcat). reflexivity.
Qed.

End SqliteInsertErrors.

(** ** The first client's statements on its catalog *)

Section FirstClientFacts.
Context `{sql.Engine} `{TypeCodes}.
Import sql gosql.

Lemma first_catalog_prepare d t (s : statement) :
  spec.first_catalog d t ->
  In s [db.by_name_and_parent; db.by_inode] ->
  Prepare d s = Ok s.
Proof.
  intros [Hfind Hdef] Hin. unfold Prepare.
  repeat (destruct Hin as [<-|Hin]); try contradiction;
    cbn; rewrite Hfind, ?Hdef; reflexivity.
Qed.

Lemma checked_args_uint64 (st : statement) (z : Z) (rest : list arg) :
  z < 2 ^ 63 ->
  checked_args st (AUint64 z :: rest) = checked_args st (AInt z :: rest).
Proof.
  intros Hz. unfold checked_args. cbn [driver_args driver_value].
  rewrite bool_decide_eq_false_2 by lia. reflexivity.
Qed.

(** The two clients prepare the same statement for [Search]. *)
Lemma same_Search_statement : db.by_name_and_parent = sqlite.by_name_and_parent.
Proof. reflexivity. Qed.

(** The rows the first client's [Search] asks for: [parent] is bound to the
    first placeholder, the one compared with column [name], and [name] to
    the second, the one compared with column [parent]. *)
Lemma first_Search_query d t parent name :
  spec.first_catalog d t -> parent < 2 ^ 63 ->
  QueryRow db.by_name_and_parent [AUint64 parent; AString name] d =
  Ok (select_where t [("name", VInt parent); ("parent", VText name)]).
Proof.
  intros [Hfind Hdef] Hp. unfold QueryRow, Query.
  rewrite checked_args_uint64 by exact Hp.
  change (checked_args _ _) with (Ok (A:=list value) [VInt parent; VText name]).
  cbn. rewrite Hfind. reflexivity.
Qed.

Lemma first_Get_query d t inode :
  spec.first_catalog d t -> inode < 2 ^ 63 ->
  QueryRow db.by_inode [AUint64 inode] d = Ok (spec.rows_with_inode inode t).
Proof.
  intros [Hfind Hdef] Hp. unfold QueryRow, Query.
  rewrite checked_args_uint64 by exact Hp.
  change (checked_args _ _) with (Ok (A:=list value) [VInt inode]).
  cbn. rewrite Hfind. f_equal.
  unfold select_where, spec.rows_with_inode. rewrite Hdef.
  apply filter_ext_all. intros r. unfold row_matches. cbn.
  rewrite sql_eq_int, andb_true_r. reflexivity.
Qed.

Lemma first_Search_on_catalog d t parent name :
  spec.first_catalog d t -> parent < 2 ^ 63 ->
  db.Search parent name d =
  db.parseRow (Ok (select_where t [("name", VInt parent); ("parent", VText name)])).
Proof.
  intros Hcat Hp. unfold db.Search.
  rewrite (first_catalog_prepare d t) by (cbn; tauto || exact Hcat).
  cbn [wrap rbind]. rewrite (first_Search_query d t) by assumption. reflexivity.
Qed.

Lemma first_Get_on_catalog d t inode :
  spec.first_catalog d t -> inode < 2 ^ 63 ->
  db.Get inode d = db.parseRow (Ok (spec.rows_with_inode inode t)).
Proof.
  intros Hcat Hp. unfold db.Get.
  rewrite (first_catalog_prepare d t) by (cbn; tauto || exact Hcat).
  cbn [wrap rbind]. rewrite (first_Get_query d t) by assumption. reflexivity.
Qed.

(** A [uint64] argument with its high bit set never reaches the engine. *)
Lemma first_Get_high_bit d t inode :
  spec.first_catalog d t -> 2 ^ 63 <= inode ->
  db.Get inode d =
  Err (Errorf "there is an error in query: "
        (Errorf "sql: converting argument $1 type: "
                (ErrText "uint64 values with high bit set are not supported"))).
Proof.
  intros Hcat Hp. unfold db.Get.
  rewrite (first_catalog_prepare d t) by (cbn; tauto || exact Hcat).
  cbn [wrap rbind]. unfold QueryRow, Query, checked_args.
  cbn [driver_args driver_value]. rewrite bool_decide_eq_true_2 by exact Hp.
  reflexivity.
Qed.

(** With [parent] bound to the [name] placeholder, a row is selected when its
    name is the decimal text of [parent] and its parent equals what the
    engine makes of [name]. *)
Lemma swapped_rows t parent name :
  t_def t = db.files ->
  select_where t [("name", VInt parent); ("parent", VText name)] =
  List.filter (fun r => bool_decide (row_get db.files r "name" = VText (pretty parent)) &&
                        sql_eq INTEGER (row_get db.files r "parent") (VText name))
              (t_rows t).
Proof.
  intros Hdef. unfold select_where. rewrite Hdef.
  apply filter_ext_all. intros r. unfold row_matches. cbn.
  rewrite sql_eq_text_int, andb_true_r. reflexivity.
Qed.



Lemma parseRow_no_rows : db.parseRow (Ok []) = Err ErrNotFound.
Proof. reflexivity. Qed.

End FirstClientFacts.

(** ** The first client swaps [Type] and [Parent] *)

Section FirstClientSwap.
Context `{sql.Engine} `{TypeCodes}.
Import sql gosql.




End FirstClientSwap.



(** ** [Search]: the order of the arguments *)

Section SearchBinding.
Context `{sql.Engine} `{TypeCodes}.
Import sql gosql.

(** C1.  Both clients prepare the same statement, with the placeholder for
    [name] first and the one for [parent] second.  The current client binds
    [(name, parent)]: its [Search] returns the first row whose [name] column
    holds [name] and whose [parent] column holds [parent], the canonical
    lookup.  The first client binds [(parent, name)]: its [Search] looks for
    a row whose name is the decimal text of [parent] and whose parent is
    what the engine makes of [name].  The two differ: on the same rows, the
    current client finds [docs] under the root and the first client does
    not, although the row is there. *)
Theorem Search_binding_order (d8 d7 : database) (t8 t7 : table)
        (parent : Z) (name : string) :
  spec.catalog d8 t8 -> spec.first_catalog d7 t7 -> parent < 2 ^ 63 ->
  db.by_name_and_parent = sqlite.by_name_and_parent /\
  sqlite.Search parent name d8 =
    match spec.canonical_rows parent name t8 with
    | [] => Err ErrNotFound
    | r :: _ => sqlite.parseRow r
    end /\
  db.Search parent name d7 =
    db.parseRow (Ok (List.filter
      (fun r => bool_decide (row_get db.files r "name" = VText (pretty parent)) &&
                sql_eq INTEGER (row_get db.files r "parent") (VText name))
      (t_rows t7))) /\
  (spec.canonical_rows 1 "docs" root_and_docs <> [] /\
   spec.canonical_rows 1 "docs" (spec.without_hash root_and_docs) <> [] /\
   spec.found sqlite.Inode (sqlite.Search 1 "docs" [root_and_docs]) = Some 2 /\
   spec.found common.Inode (db.Search 1 "docs" [spec.without_hash root_and_docs]) = None).
Proof.
  intros Hcat8 Hcat7 Hp. split; [reflexivity|]. split; [|split].
  - apply Search_on_catalog. exact Hcat8.
  - rewrite (first_Search_on_catalog d7 t7 parent name Hcat7 Hp).
    rewrite swapped_rows by apply Hcat7. reflexivity.
  - split; [vm_compute; discriminate|]. split; [vm_compute; discriminate|].
    split; vm_compute; reflexivity.
Qed.

End SearchBinding.

Lemma Search_binding_order_witness :
  spec.catalog docs_catalog docs_table /\
  spec.first_catalog first_fresh_catalog first_fresh_table /\
  1 < 2 ^ 63 /\
  @sqlite.Search gosql.decimal_engine 1 "docs" docs_catalog =
    match spec.canonical_rows 1 "docs" docs_table with
    | [] => Err ErrNotFound
    | r :: _ => sqlite.parseRow r
    end /\
  spec.found common.Inode
    (@db.Search gosql.decimal_engine 1 "docs" [spec.without_hash (@root_and_docs codes01)])
  = None.
Proof.
  assert (Hcat8 : spec.catalog docs_catalog docs_table) by (split; reflexivity).
  assert (Hcat7 : spec.first_catalog first_fresh_catalog first_fresh_table)
    by (split; reflexivity).
  assert (Hp : 1 < 2 ^ 63) by reflexivity.
  destruct (@Search_binding_order gosql.decimal_engine codes01 docs_catalog first_fresh_catalog
              docs_table first_fresh_table 1 "docs" Hcat8 Hcat7 Hp)
    as (_ & Hs & _ & _ & _ & _ & Hnone).
  repeat split; assumption.
Defined.

(** ** Errors of lookups and inserts *)

Section LookupAndInsertErrors.
Context `{sql.Engine} `{TypeCodes}.
Import sql gosql.

Lemma first_Search_high_bit d t parent name :
  spec.first_catalog d t -> 2 ^ 63 <= parent ->
  db.Search parent name d =
  Err (Errorf "there is an error in query: "
        (Errorf "sql: converting argument $1 type: "
                (ErrText "uint64 values with high bit set are not supported"))).
Proof.
  intros Hcat Hp. unfold db.Search.
  rewrite (first_catalog_prepare d t) by (cbn; tauto || exact Hcat).
  cbn [wrap rbind]. unfold QueryRow, Query, checked_args.
  cbn [driver_args driver_value]. rewrite bool_decide_eq_true_2 by exact Hp.
  reflexivity.
Qed.

(** C5, as the code has it.  On a catalog of the current client, [Search]
    and [Get] that match no row return exactly [ErrNotFound].  On a catalog
    of the first client, [Get] of an inode below 2^63 that no row has returns
    [ErrNotFound], and [Search] with a parent below 2^63 returns
    [ErrNotFound] when no row has the decimal text of [parent] in its name
    column and [name] in its parent column, which is what its swapped
    arguments ask for; with an inode or parent of 2^63 or more both return
    the wrapped error of the argument conversion, which is not
    [ErrNotFound].  An insert ([AddDirectory], [CreateFile], [Insert]) that
    repeats the [(name, parent)] pair of an existing row fails and leaves
    the catalog unchanged; what it returns is the engine's message wrapped by
    [fmt.Errorf]: the UNIQUE failure on name and parent when inodes are
    left, and [database or disk is full] when the sequence is used up.  The
    error carries no kind: the clients have no CONFLICT error. *)
Theorem lookup_and_insert_errors (d d7 : database) (t t7 : table) :
  spec.catalog d t -> spec.first_catalog d7 t7 ->
  (forall parent name,
     (forall r, In r (t_rows t) ->
        ~ (row_get sqlite.files r "name" = VText name /\
           row_get sqlite.files r "parent" = VInt parent)) ->
     sqlite.Search parent name d = Err ErrNotFound) /\
  (forall inode,
     (forall r, In r (t_rows t) -> row_get sqlite.files r "inode" <> VInt inode) ->
     sqlite.Get inode d = Err ErrNotFound) /\
  (forall inode, inode < 2 ^ 63 ->
     (forall r, In r (t_rows t7) -> row_get db.files r "inode" <> VInt inode) ->
     db.Get inode d7 = Err ErrNotFound) /\
  (forall inode, 2 ^ 63 <= inode ->
     db.Get inode d7 =
     Err (Errorf "there is an error in query: "
            (Errorf "sql: converting argument $1 type: "
                    (ErrText "uint64 values with high bit set are not supported")))) /\
  (forall parent name, parent < 2 ^ 63 ->
     (forall r, In r (t_rows t7) ->
        ~ (row_get db.files r "name" = VText (pretty parent) /\
           sql_eq INTEGER (row_get db.files r "parent") (VText name) = true)) ->
     db.Search parent name d7 = Err ErrNotFound) /\
  (forall parent name, 2 ^ 63 <= parent ->
     db.Search parent name d7 =
     Err (Errorf "there is an error in query: "
            (Errorf "sql: converting argument $1 type: "
                    (ErrText "uint64 values with high bit set are not supported")))) /\
  (forall parent name r,
     In r (t_rows t) ->
     row_get sqlite.files r "name" = VText name ->
     row_get sqlite.files r "parent" = VInt parent ->
     exists text,
       (forall mode,
          sqlite.AddDirectory parent name mode d =
          (Err (Errorf "couldn't insert directory: " (ErrText text)), d)) /\
       (forall mode url hash,
          sqlite.CreateFile parent name mode url hash d =
          (Err (Errorf "couldn't insert file: " (ErrText text)), d)) /\
       (forall md, sqlite.Name md = name -> sqlite.Parent md = parent ->
          sqlite.Insert md d =
          (Some (Errorf "couldn't insert file: " (ErrText text)), d)) /\
       (Z.max (t_seq t) (max_rowid t) <> MaxInt64 ->
        text = "UNIQUE constraint failed: files.name, files.parent") /\
       (Z.max (t_seq t) (max_rowid t) = MaxInt64 ->
        text = "database or disk is full") /\
       (forall prefix, spec.kind_of (Errorf prefix (ErrText text)) = None)).
Proof.
  intros Hcat Hcat7.
  assert (Hdef : t_def t = sqlite.files) by apply Hcat.
  assert (Hdef7 : t_def t7 = db.files) by apply Hcat7.
  split; [|split; [|split; [|split; [|split; [|split]]]]].
  - intros parent name Hnone. rewrite (Search_on_catalog d t parent name Hcat).
    replace (spec.canonical_rows parent name t) with (@nil row); [reflexivity|].
    symmetry. apply filter_nil_iff. intros r Hin. rewrite Hdef.
    apply andb_false_iff.
    destruct (decide (row_get sqlite.files r "name" = VText name)) as [Hn|Hn].
    + right. apply bool_decide_eq_false_2. intros Hp. exact (Hnone r Hin (conj Hn Hp)).
    + left. apply bool_decide_eq_false_2. exact Hn.
  - intros inode Hnone. rewrite (Get_on_catalog d t inode Hcat).
    replace (spec.rows_with_inode inode t) with (@nil row); [reflexivity|].
    symmetry. apply filter_nil_iff. intros r Hin. rewrite Hdef.
    apply bool_decide_eq_false_2. exact (Hnone r Hin).
  - intros inode Hlow Hnone. rewrite (first_Get_on_catalog d7 t7 inode Hcat7 Hlow).
    replace (spec.rows_with_inode inode t7) with (@nil row); [reflexivity|].
    symmetry. apply filter_nil_iff. intros r Hin. rewrite Hdef7.
    apply bool_decide_eq_false_2. exact (Hnone r Hin).
  - intros inode Hhigh. exact (first_Get_high_bit d7 t7 inode Hcat7 Hhigh).
  - intros parent name Hlow Hnone.
    rewrite (first_Search_on_catalog d7 t7 parent name Hcat7 Hlow).
    rewrite (swapped_rows t7 parent name Hdef7).
    replace (List.filter _ (t_rows t7)) with (@nil row); [reflexivity|].
    symmetry. apply filter_nil_iff. intros r Hin.
    destruct (bool_decide (row_get db.files r "name" = VText (pretty parent))) eqn:Hn;
      [|reflexivity].
    destruct (sql_eq INTEGER (row_get db.files r "parent") (VText name)) eqn:Hp;
      [|reflexivity].
    exfalso. apply (Hnone r Hin). split; [|exact Hp].
    apply bool_decide_eq_true_1 in Hn. exact Hn.
  - intros parent name Hhigh. exact (first_Search_high_bit d7 t7 parent name Hcat7 Hhigh).
  - intros parent name r Hin Hn Hp.
    assert (Hdup : spec.canonical_rows parent name t <> []).
    { intros Hnil. pose proof (proj1 (filter_nil_iff _ _) Hnil r Hin) as Hf.
      cbv beta in Hf. rewrite Hdef, Hn, Hp in Hf.
      rewrite !bool_decide_eq_true_2 in Hf by reflexivity. discriminate. }
    exists (duplicate_text t). split; [|split; [|split; [|split; [|split]]]].
    + intros mode. apply AddDirectory_duplicate; assumption.
    + intros mode url hash. apply CreateFile_duplicate; assumption.
    + intros md <- <-. apply Insert_duplicate; assumption.
    + intros Hm. unfold duplicate_text. rewrite bool_decide_eq_false_2 by exact Hm.
      reflexivity.
    + intros Hm. unfold duplicate_text. rewrite bool_decide_eq_true_2 by exact Hm.
      reflexivity.
    + intros prefix. unfold duplicate_text. destruct (bool_decide _); reflexivity.
Qed.

End LookupAndInsertErrors.

Lemma lookup_and_insert_errors_witness :
  spec.catalog docs_catalog docs_table /\
  spec.first_catalog first_fresh_catalog first_fresh_table /\
  @sqlite.Get gosql.decimal_engine codes01 7 docs_catalog = Err ErrNotFound /\
  @db.Get gosql.decimal_engine 7 first_fresh_catalog = Err ErrNotFound /\
  @db.Search gosql.decimal_engine 1 "docs" first_fresh_catalog = Err ErrNotFound /\
  @db.Get gosql.decimal_engine (2 ^ 63) first_fresh_catalog =
    Err (Errorf "there is an error in query: "
           (Errorf "sql: converting argument $1 type: "
                   (ErrText "uint64 values with high bit set are not supported"))) /\
  exists text,
    @sqlite.AddDirectory gosql.decimal_engine codes01 1 "docs" 448 docs_catalog =
    (Err (Errorf "couldn't insert directory: " (ErrText text)), docs_catalog) /\
    text = "UNIQUE constraint failed: files.name, files.parent".
Proof.
  assert (Hcat : spec.catalog docs_catalog docs_table) by (split; reflexivity).
  assert (Hcat7 : spec.first_catalog first_fresh_catalog first_fresh_table)
    by (split; reflexivity).
  destruct (@lookup_and_insert_errors gosql.decimal_engine codes01
              docs_catalog first_fresh_catalog docs_table first_fresh_table Hcat Hcat7)
    as (_ & Hget & Hget7 & Hhigh7 & Hsearch7 & _ & Hins).
  split; [exact Hcat|]. split; [exact Hcat7|]. split; [|split; [|split; [|split]]].
  - apply Hget. intros r Hin.
    repeat (destruct Hin as [<-|Hin]; [vm_compute; discriminate|]). destruct Hin.
  - apply Hget7; [reflexivity|]. intros r Hin.
    repeat (destruct Hin as [<-|Hin]; [vm_compute; discriminate|]). destruct Hin.
  - apply Hsearch7; [reflexivity|]. intros r Hin [Hname _].
    repeat (destruct Hin as [<-|Hin]; [vm_compute in Hname; discriminate Hname|]).
    destruct Hin.
  - apply Hhigh7. vm_compute. discriminate.
  - destruct (Hins 1 "docs"
                [sql.VInt 2; sql.VText "docs"; sql.VText EmptyString; sql.VInt 0;
                 sql.VInt 493; sql.VInt 1; sql.VInt 1; sql.VText EmptyString])
      as (text & Hadd & _ & _ & Htext & _).
    + right. left. reflexivity.
    + reflexivity.
    + reflexivity.
    + exists text. split; [apply Hadd|]. apply Htext. vm_compute. discriminate.
Defined.

(** The first client's [Search] for the name [7] under parent 5 finds the
    entry named [5] under parent 7, although no row has parent 5 and name
    [7]. *)
Example first_client_Search_finds_another_row :
  exists md,
    @db.Search gosql.decimal_engine 5 "7" first_named_five = Ok md /\
    common.Inode md = 2 /\ common.Name md = "5".
Proof. eexists. split; [vm_compute; reflexivity|]. split; reflexivity. Qed.

(** C5, the sentence about duplicate inserts as stated, fails: creating
    [docs] under the root a second time returns a formatted error, which is
    of no kind, and not a CONFLICT. *)
Lemma duplicate_insert_not_conflict :
  fst (@sqlite.AddDirectory gosql.decimal_engine codes01 1 "docs" 493 docs_catalog) =
    Err (Errorf "couldn't insert directory: "
                (ErrText "UNIQUE constraint failed: files.name, files.parent")) /\
  ~ @duplicate_insert_is_conflict gosql.decimal_engine codes01.
Proof.
  split; [vm_compute; reflexivity|].
  intros Hclaim.
  destruct (Hclaim docs_catalog docs_table 1 "docs" 493) as (e & He & Hkind).
  - split; reflexivity.
  - vm_compute. discriminate.
  - vm_compute in He. injection He as <-. discriminate.
Qed.

(** ** [AddDirectory] on a free name *)

Section SqliteCreates.
Context `{sql.Engine} `{TypeCodes}.
Import sql gosql.

Lemma find_replace_table name t t' d :
  find_table name d = Some t ->
  tbl_name (t_def t') = name ->
  find_table name (replace_table t' d) = Some t'.
Proof.
  unfold find_table. intros Hfind Hname.
  induction d as [|t0 d IH]; [discriminate|].
  cbn [List.find replace_table] in *.
  destruct (decide (tbl_name (t_def t0) = name)) as [Heq|Hne].
  - rewrite bool_decide_eq_true_2 by congruence.
    cbn [List.find]. rewrite bool_decide_eq_true_2 by exact Hname. reflexivity.
  - rewrite bool_decide_eq_false_2 in Hfind by exact Hne.
    rewrite bool_decide_eq_false_2 by congruence.
    cbn [List.find]. rewrite bool_decide_eq_false_2 by exact Hne. exact (IH Hfind).
Qed.

Lemma filter_insert_by_rowid (f : row -> bool) def z r rows :
  List.filter f rows = [] -> f r = true ->
  List.filter f (insert_by_rowid def z r rows) = [r].
Proof.
  intros Hnone Hr. induction rows as [|r' rows IH]; cbn [insert_by_rowid].
  - cbn [List.filter]. rewrite Hr. reflexivity.
  - cbn [List.filter] in Hnone. destruct (f r') eqn:Hr'; [discriminate|].
    destruct (rowid_of def r') as [|z'|s]; try destruct (bool_decide (z < z'));
      cbn [List.filter]; rewrite ?Hr, ?Hr'; cbn [List.filter]; rewrite ?Hr';
      try (rewrite Hnone; reflexivity); exact (IH Hnone).
Qed.

Lemma no_unique_violation t z name url size mode parent ty hash :
  t_def t = sqlite.files ->
  spec.canonical_rows parent name t = [] ->
  unique_violation t [VInt z; VText name; VText url; VInt size; VInt mode;
                      VInt parent; VInt ty; VText hash] = None.
Proof.
  intros Hdef Hnone. unfold unique_violation. rewrite Hdef.
  cbn [tbl_unique sqlite.files List.find].
  replace (existsb _ (t_rows t)) with false; [reflexivity|].
  symmetry. apply not_true_is_false. intros Hex.
  apply existsb_exists in Hex. destruct Hex as (r' & Hin & Hsame).
  pose proof (proj1 (filter_nil_iff _ _) Hnone r' Hin) as Hf. cbv beta in Hf.
  rewrite Hdef in Hf. unfold same_on in Hsame. cbn [forallb] in Hsame.
  change (row_get sqlite.files [VInt z; VText name; VText url; VInt size; VInt mode;
                                VInt parent; VInt ty; VText hash] "name")
    with (VText name) in Hsame.
  change (row_get sqlite.files [VInt z; VText name; VText url; VInt size; VInt mode;
                                VInt parent; VInt ty; VText hash] "parent")
    with (VInt parent) in Hsame.
  destruct (row_get sqlite.files r' "name") as [|zn|sn]; [discriminate| |];
    destruct (row_get sqlite.files r' "parent") as [|zp|sp];
    cbn in Hsame; try discriminate;
    apply andb_true_iff in Hsame; destruct Hsame as [Hn Hp]; try discriminate;
    apply andb_true_iff in Hp; destruct Hp as [Hp _];
    apply bool_decide_eq_true_1 in Hn; apply bool_decide_eq_true_1 in Hp;
    try discriminate.
  injection Hn as <-. injection Hp as <-.
  rewrite !bool_decide_eq_true_2 in Hf by reflexivity. discriminate.
Qed.

(** On a catalog that has no row with this name under this parent and has
    rowids left, [AddDirectory] stores the directory under the next rowid
    and returns it, with link count 2. *)
Lemma AddDirectory_creates d t parent name mode :
  spec.catalog d t ->
  spec.canonical_rows parent name t = [] ->
  Z.max (t_seq t) (max_rowid t) <> MaxInt64 ->
  exists d',
    sqlite.AddDirectory parent name mode d =
    (Ok {| sqlite.Inode := Z.max (t_seq t) (max_rowid t) + 1; sqlite.Name := name;
           sqlite.URL := EmptyString; sqlite.Size := 0; sqlite.Mode := mode;
           sqlite.Parent := parent; sqlite.Type_ := DrvFolder;
           sqlite.Hash := EmptyString; sqlite.NLink := 2 |}, d').
Proof.
  intros Hcat Hnone Hm. pose proof Hcat as [Hfind Hdef].
  unfold sqlite.AddDirectory.
  rewrite (catalog_prepare d t) by (cbn; tauto || exact Hcat). cbn [wrap].
  rewrite (Exec_insert_directory d t) by exact Hcat.
  unfold insert_given. rewrite Hdef. cbv zeta.
  change (rowid_of sqlite.files [VNull; VText name; VText EmptyString; VInt 0; VInt mode;
                                 VInt parent; VInt DrvFolder; VText EmptyString])
    with VNull.
  destruct (next_rowid_cases t) as [[Hfull _]|[_ Hnext]]; [contradiction|].
  rewrite Hnext. cbn [rbind].
  set (z := Z.max (t_seq t) (max_rowid t) + 1) in *.
  set (r := [VInt z; VText name; VText EmptyString; VInt 0; VInt mode;
             VInt parent; VInt DrvFolder; VText EmptyString]).
  change (map _ (combine (tbl_columns sqlite.files) _)) with r.
  change (not_null_violation sqlite.files r) with (@None string).
  pose proof (next_rowid_fresh t z Hnext) as Hfresh. rewrite Hdef in Hfresh.
  rewrite Hfresh.
  assert (Hnv : unique_violation t r = None)
    by (apply no_unique_violation; assumption).
  rewrite Hnv.
  cbn [rbind wrap].
  set (t' := {| t_def := sqlite.files;
                t_rows := insert_by_rowid sqlite.files z r (t_rows t);
                t_seq := Z.max (t_seq t) z |}).
  assert (Hcat' : spec.catalog (replace_table t' d) t').
  { split; [|reflexivity]. apply (find_replace_table "files" t t' d Hfind). reflexivity. }
  eexists. f_equal. unfold sqlite.read_back.
  rewrite (catalog_prepare _ t') by (cbn; tauto || exact Hcat').
  cbn [wrap rbind]. rewrite (query_by_name_and_parent _ t') by exact Hcat'.
  cbn [wrap rbind]. unfold spec.canonical_rows. cbn [t_def t_rows t'].
  rewrite filter_insert_by_rowid.
  - reflexivity.
  - unfold spec.canonical_rows in Hnone. rewrite Hdef in Hnone. exact Hnone.
  - change (row_get sqlite.files r "name") with (VText name).
    change (row_get sqlite.files r "parent") with (VInt parent).
    rewrite !bool_decide_eq_true_2 by reflexivity. reflexivity.
Qed.

End SqliteCreates.

(** ** Link counts *)

Section SqliteLinkCounts.
Context `{sql.Engine} `{TypeCodes}.
Import sql gosql.

Lemma read_back_nlink parent name nlink d md :
  sqlite.read_back parent name nlink d = Ok md -> sqlite.NLink md = nlink.
Proof.
  unfold sqlite.read_back. intros Hrun.
  destruct (wrap _ (Prepare d sqlite.by_name_and_parent)) as [query|e];
    cbn [rbind] in Hrun; [|discriminate].
  destruct (wrap _ (Query query _ d)) as [rows|e]; cbn [rbind] in Hrun; [|discriminate].
  destruct rows as [|r rows]; [discriminate|].
  destruct (sqlite.parseRow r) as [md0|e]; cbn [rbind] in Hrun; [|discriminate].
  injection Hrun as <-. reflexivity.
Qed.

Lemma AddDirectory_nlink parent name mode d md d' :
  sqlite.AddDirectory parent name mode d = (Ok md, d') -> sqlite.NLink md = 2.
Proof.
  unfold sqlite.AddDirectory. intros Hrun.
  destruct (wrap _ (Prepare d sqlite.insert_directory)) as [query|e]; [|discriminate].
  destruct (wrap _ (Exec query _ d)) as [d1|e]; [|discriminate].
  injection Hrun as Hback _. exact (read_back_nlink _ _ _ _ _ Hback).
Qed.

End SqliteLinkCounts.

(* ===================================================================== *)
(** * Further properties of the catalog client *)
(* ===================================================================== *)

(** ** Reading rows *)

Section ReadingRows.
Context `{sql.Engine} `{TypeCodes}.
Import sql gosql.

Lemma scan8_fields r md :
  sqlite.scan8 r = Ok md ->
  scan_int64 (row_get sqlite.files r "inode") = Ok (sqlite.Inode md) /\
  scan_string (row_get sqlite.files r "name") = Ok (sqlite.Name md) /\
  scan_int64 (row_get sqlite.files r "parent") = Ok (sqlite.Parent md) /\
  scan_int (row_get sqlite.files r "type") = Ok (sqlite.Type_ md) /\
  sqlite.NLink md = 0.
Proof.
  unfold sqlite.scan8.
  destruct r as [|c0 [|c1 [|c2 [|c3 [|c4 [|c5 [|c6 [|c7 [|c8 r]]]]]]]]]; try discriminate.
  change (row_get sqlite.files _ "inode") with c0.
  change (row_get sqlite.files _ "name") with c1.
  change (row_get sqlite.files _ "parent") with c5.
  change (row_get sqlite.files _ "type") with c6.
  unfold at_column.
  destruct (scan_int64 c0) as [inode|e]; cbn [wrap rbind]; [|discriminate].
  destruct (scan_string c1) as [name|e]; cbn [wrap rbind]; [|discriminate].
  destruct (scan_string c2) as [url|e]; cbn [wrap rbind]; [|discriminate].
  destruct (scan_int64 c3) as [size|e]; cbn [wrap rbind]; [|discriminate].
  destruct (scan_int c4) as [mode|e]; cbn [wrap rbind]; [|discriminate].
  destruct (scan_int64 c5) as [parent|e]; cbn [wrap rbind]; [|discriminate].
  destruct (scan_int c6) as [type|e]; cbn [wrap rbind]; [|discriminate].
  destruct (scan_string c7) as [hash|e]; cbn [wrap rbind]; [|discriminate].
  intros Hmd. injection Hmd as <-. cbn. auto.
Qed.

Lemma parseRow_fields r md :
  sqlite.parseRow r = Ok md -> sqlite.scan8 r = Ok md.
Proof.
  unfold sqlite.parseRow. destruct (sqlite.scan8 r); cbn [wrap]; congruence.
Qed.

Lemma parseRow_row_of md :
  sqlite.parseRow (row_of md) = Ok (sqlite.set_NLink md 0).
Proof. reflexivity. Qed.

Lemma fillNLink_keeps md md' d :
  sqlite.fillNLink md d = Ok md' -> md' = sqlite.set_NLink md (sqlite.NLink md').
Proof.
  unfold sqlite.fillNLink. destruct (bool_decide _).
  - intros Hmd. injection Hmd as <-. reflexivity.
  - destruct (wrap _ (Prepare d _)) as [query|e]; cbn [rbind]; [|discriminate].
    destruct (wrap _ (Query query _ d)) as [rows|e]; cbn [rbind]; [|discriminate].
    destruct rows as [|[|c0 [|c1 r]] rows]; try discriminate.
    destruct (scan_int c0); [|discriminate].
    intros Hmd. injection Hmd as <-. reflexivity.
Qed.

(** X1.  On a catalog, an entry returned by [Search] has the name and the
    parent that were asked for, comes from a row of the table, and has link
    count 0: [Search], unlike [Get], does not derive the link count. *)
Theorem Search_returns_what_was_asked (d : database) (t : table)
        (parent : Z) (name : string) (md : sqlite.Metadata) :
  spec.catalog d t ->
  sqlite.Search parent name d = Ok md ->
  sqlite.Name md = name /\ sqlite.Parent md = parent /\ sqlite.NLink md = 0 /\
  exists r, In r (t_rows t) /\ sqlite.parseRow r = Ok md /\
            row_get sqlite.files r "name" = VText name /\
            row_get sqlite.files r "parent" = VInt parent.
Proof.
  intros Hcat Hs. pose proof Hcat as [_ Hdef].
  rewrite (Search_on_catalog d t parent name Hcat) in Hs.
  destruct (spec.canonical_rows parent name t) as [|r rest] eqn:Hrows; [discriminate|].
  apply filter_In_head in Hrows. destruct Hrows as [Hin Hmatch].
  apply andb_true_iff in Hmatch. destruct Hmatch as [Hn Hp].
  apply bool_decide_eq_true_1 in Hn. apply bool_decide_eq_true_1 in Hp.
  rewrite Hdef in Hn, Hp.
  destruct (scan8_fields r md (parseRow_fields r md Hs)) as (_ & Hname & Hparent & _ & Hnl).
  rewrite Hn in Hname. rewrite Hp in Hparent. cbn in Hname, Hparent.
  repeat split; try congruence.
  exists r. auto.
Qed.

(** X2.  On a catalog, an entry returned by [Get] has the inode that was
    asked for and comes from a row of the table with that inode. *)
Theorem Get_returns_the_inode (d : database) (t : table) (inode : Z)
        (md : sqlite.Metadata) :
  spec.catalog d t ->
  sqlite.Get inode d = Ok md ->
  sqlite.Inode md = inode /\
  exists r md0, In r (t_rows t) /\ row_get sqlite.files r "inode" = VInt inode /\
                sqlite.parseRow r = Ok md0 /\ md = sqlite.set_NLink md0 (sqlite.NLink md).
Proof.
  intros Hcat Hg. pose proof Hcat as [_ Hdef].
  rewrite (Get_on_catalog d t inode Hcat) in Hg.
  destruct (spec.rows_with_inode inode t) as [|r rest] eqn:Hrows; [discriminate|].
  apply filter_In_head in Hrows. destruct Hrows as [Hin Hi].
  apply bool_decide_eq_true_1 in Hi. rewrite Hdef in Hi.
  destruct (sqlite.parseRow r) as [md0|e] eqn:Hparse; cbn [rbind] in Hg; [|discriminate].
  destruct (sqlite.fillNLink md0 d) as [md1|e] eqn:Hfill; cbn [wrap] in Hg; [|discriminate].
  injection Hg as <-.
  pose proof (fillNLink_keeps md0 md1 d Hfill) as Hkeep.
  destruct (scan8_fields r md0 (parseRow_fields r md0 Hparse)) as (Hinode & _).
  rewrite Hi in Hinode. cbn in Hinode. injection Hinode as Hinode.
  split.
  - rewrite Hkeep. cbn. congruence.
  - exists r, md0. auto.
Qed.

End ReadingRows.

Lemma Search_returns_what_was_asked_witness :
  spec.catalog docs_catalog docs_table /\
  exists md, @sqlite.Search gosql.decimal_engine 1 "docs" docs_catalog = Ok md /\
             sqlite.Name md = "docs" /\ sqlite.Parent md = 1 /\ sqlite.NLink md = 0.
Proof.
  assert (Hcat : spec.catalog docs_catalog docs_table) by (split; reflexivity).
  split; [exact Hcat|]. eexists. split; [vm_compute; reflexivity|].
  destruct (@Search_returns_what_was_asked gosql.decimal_engine docs_catalog docs_table
              1 "docs" _ Hcat eq_refl) as (Hn & Hp & Hl & _).
  auto.
Defined.

Lemma Get_returns_the_inode_witness :
  spec.catalog docs_catalog docs_table /\
  exists md, @sqlite.Get gosql.decimal_engine codes01 2 docs_catalog = Ok md /\
             sqlite.Inode md = 2.
Proof.
  assert (Hcat : spec.catalog docs_catalog docs_table) by (split; reflexivity).
  split; [exact Hcat|]. eexists. split; [vm_compute; reflexivity|].
  apply (@Get_returns_the_inode gosql.decimal_engine codes01 docs_catalog docs_table
           2 _ Hcat eq_refl).
Defined.

(** ** Inserting without an inode: the complete behaviour *)

Section AutoInserts.
Context `{sql.Engine} `{TypeCodes}.
Import sql gosql.

Lemma insert_by_rowid_fresh def z r rows :
  (forall r' z', In r' rows -> rowid_of def r' = VInt z' -> z' < z) ->
  insert_by_rowid def z r rows = (rows ++ [r])%list.
Proof.
  induction rows as [|r' rows IH]; intros Hfresh; [reflexivity|].
  cbn [insert_by_rowid app].
  rewrite IH by (intros r'' z'' Hin; apply Hfresh; right; exact Hin).
  destruct (rowid_of def r') as [|z'|s] eqn:Hid; try reflexivity.
  rewrite bool_decide_eq_false_2; [reflexivity|].
  specialize (Hfresh r' z' (or_introl eq_refl) Hid). lia.
Qed.

Lemma rowid_of_files r : rowid_of sqlite.files r = row_get sqlite.files r "inode".
Proof. reflexivity. Qed.

Lemma filter_app_one {A} (f : A -> bool) (l : list A) (a : A) :
  List.filter f (l ++ [a]) = (List.filter f l ++ (if f a then [a] else []))%list.
Proof.
  induction l as [|b l IH]; cbn [app List.filter].
  - destruct (f a); reflexivity.
  - rewrite IH. destruct (f b); reflexivity.
Qed.

(** The engine's answer to an INSERT that names no inode. *)
Lemma insert_given_auto t name url size mode parent ty hash nlink :
  t_def t = sqlite.files ->
  insert_given t [VNull; VText name; VText url; VInt size; VInt mode;
                  VInt parent; VInt ty; VText hash] =
  if bool_decide (Z.max (t_seq t) (max_rowid t) = MaxInt64)
  then Err (ErrText "database or disk is full")
  else match spec.canonical_rows parent name t with
       | [] => Ok (with_row t (new_entry t name url size mode parent ty hash nlink))
       | _ => Err (ErrText "UNIQUE constraint failed: files.name, files.parent")
       end.
Proof.
  intros Hdef.
  destruct (spec.canonical_rows parent name t) as [|r0 rest] eqn:Hrows.
  2:{ rewrite insert_given_duplicate by (exact Hdef || congruence).
      unfold duplicate_text. destruct (bool_decide _); reflexivity. }
  unfold insert_given. rewrite Hdef. cbv zeta.
  change (rowid_of sqlite.files [VNull; VText name; VText url; VInt size; VInt mode;
                                 VInt parent; VInt ty; VText hash]) with VNull.
  destruct (next_rowid_cases t) as [[Hm Hnext]|[Hm Hnext]]; rewrite Hnext; cbn [rbind].
  - rewrite bool_decide_eq_true_2 by exact Hm. reflexivity.
  - rewrite bool_decide_eq_false_2 by exact Hm.
    set (z := Z.max (t_seq t) (max_rowid t) + 1) in *.
    set (r := [VInt z; VText name; VText url; VInt size; VInt mode;
               VInt parent; VInt ty; VText hash]).
    change (map _ (combine (tbl_columns sqlite.files) _)) with r.
    change (not_null_violation sqlite.files r) with (@None string).
    pose proof (next_rowid_fresh t z Hnext) as Hfresh. rewrite Hdef in Hfresh.
    rewrite Hfresh.
    assert (Hnv : unique_violation t r = None)
      by (apply no_unique_violation; assumption).
    rewrite Hnv. f_equal. unfold with_row, new_entry, next_inode. fold z. f_equal.
    apply insert_by_rowid_fresh. intros r' z' Hin Hid.
    rewrite <- Hdef in Hid. pose proof (max_rowid_ge t r' z' Hin Hid). lia.
Qed.

(** What [AddDirectory] does on a catalog, case by case. *)
Lemma AddDirectory_on_catalog d t parent name mode :
  spec.catalog d t ->
  sqlite.AddDirectory parent name mode d =
  if bool_decide (Z.max (t_seq t) (max_rowid t) = MaxInt64)
  then (Err (Errorf "couldn't insert directory: " (ErrText "database or disk is full")), d)
  else match spec.canonical_rows parent name t with
       | [] =>
           let md := new_entry t name EmptyString 0 mode parent DrvFolder EmptyString 2 in
           (Ok md, replace_table (with_row t md) d)
       | _ => (Err (Errorf "couldn't insert directory: "
                      (ErrText "UNIQUE constraint failed: files.name, files.parent")), d)
       end.
Proof.
  intros Hcat. pose proof Hcat as [Hfind Hdef]. unfold sqlite.AddDirectory.
  rewrite (catalog_prepare d t) by (cbn; tauto || exact Hcat). cbn [wrap].
  rewrite (Exec_insert_directory d t) by exact Hcat.
  rewrite (insert_given_auto t name EmptyString 0 mode parent DrvFolder EmptyString 2 Hdef).
  destruct (bool_decide (Z.max (t_seq t) (max_rowid t) = MaxInt64)); [reflexivity|].
  destruct (spec.canonical_rows parent name t) as [|r0 rest] eqn:Hrows; [|reflexivity].
  cbn [rbind wrap]. cbv zeta.
  set (md := new_entry t name EmptyString 0 mode parent DrvFolder EmptyString 2).
  assert (Hcat' : spec.catalog (replace_table (with_row t md) d) (with_row t md)).
  { split; [|reflexivity]. apply (find_replace_table "files" t _ d Hfind). reflexivity. }
  f_equal. unfold sqlite.read_back.
  rewrite (catalog_prepare _ (with_row t md)) by (cbn; tauto || exact Hcat').
  cbn [wrap rbind]. rewrite (query_by_name_and_parent _ (with_row t md)) by exact Hcat'.
  cbn [wrap rbind]. unfold spec.canonical_rows. cbn [t_def t_rows with_row].
  rewrite filter_app_one.
  unfold spec.canonical_rows in Hrows. rewrite Hdef in Hrows. rewrite Hrows.
  change (row_get sqlite.files (row_of md) "name") with (VText name).
  change (row_get sqlite.files (row_of md) "parent") with (VInt parent).
  rewrite !bool_decide_eq_true_2 by reflexivity. reflexivity.
Qed.

Lemma CreateFile_on_catalog d t parent name mode url hash :
  spec.catalog d t ->
  sqlite.CreateFile parent name mode url hash d =
  if bool_decide (Z.max (t_seq t) (max_rowid t) = MaxInt64)
  then (Err (Errorf "couldn't insert file: " (ErrText "database or disk is full")), d)
  else match spec.canonical_rows parent name t with
       | [] =>
           let md := new_entry t name url 0 mode parent DrvFile hash 1 in
           (Ok md, replace_table (with_row t md) d)
       | _ => (Err (Errorf "couldn't insert file: "
                      (ErrText "UNIQUE constraint failed: files.name, files.parent")), d)
       end.
Proof.
  intros Hcat. pose proof Hcat as [Hfind Hdef]. unfold sqlite.CreateFile.
  rewrite (catalog_prepare d t) by (cbn; tauto || exact Hcat). cbn [wrap].
  rewrite (Exec_insert_file d t) by exact Hcat.
  rewrite (insert_given_auto t name url 0 mode parent DrvFile hash 1 Hdef).
  destruct (bool_decide (Z.max (t_seq t) (max_rowid t) = MaxInt64)); [reflexivity|].
  destruct (spec.canonical_rows parent name t) as [|r0 rest] eqn:Hrows; [|reflexivity].
  cbn [rbind wrap]. cbv zeta.
  set (md := new_entry t name url 0 mode parent DrvFile hash 1).
  assert (Hcat' : spec.catalog (replace_table (with_row t md) d) (with_row t md)).
  { split; [|reflexivity]. apply (find_replace_table "files" t _ d Hfind). reflexivity. }
  f_equal. unfold sqlite.read_back.
  rewrite (catalog_prepare _ (with_row t md)) by (cbn; tauto || exact Hcat').
  cbn [wrap rbind]. rewrite (query_by_name_and_parent _ (with_row t md)) by exact Hcat'.
  cbn [wrap rbind]. unfold spec.canonical_rows. cbn [t_def t_rows with_row].
  rewrite filter_app_one.
  unfold spec.canonical_rows in Hrows. rewrite Hdef in Hrows. rewrite Hrows.
  change (row_get sqlite.files (row_of md) "name") with (VText name).
  change (row_get sqlite.files (row_of md) "parent") with (VInt parent).
  rewrite !bool_decide_eq_true_2 by reflexivity. reflexivity.
Qed.

Lemma Insert_on_catalog d t md :
  spec.catalog d t ->
  sqlite.Insert md d =
  if bool_decide (Z.max (t_seq t) (max_rowid t) = MaxInt64)
  then (Some (Errorf "couldn't insert file: " (ErrText "database or disk is full")), d)
  else match spec.canonical_rows (sqlite.Parent md) (sqlite.Name md) t with
       | [] =>
           (None,
            replace_table
              (with_row t (new_entry t (sqlite.Name md) (sqlite.URL md) (sqlite.Size md)
                             (sqlite.Mode md) (sqlite.Parent md) (sqlite.Type_ md)
                             (sqlite.Hash md) 0)) d)
       | _ => (Some (Errorf "couldn't insert file: "
                       (ErrText "UNIQUE constraint failed: files.name, files.parent")), d)
       end.
Proof.
  intros Hcat. pose proof Hcat as [Hfind Hdef]. unfold sqlite.Insert.
  rewrite (catalog_prepare d t) by (cbn; tauto || exact Hcat). cbn [wrap].
  rewrite (Exec_insert_file d t) by exact Hcat.
  rewrite (insert_given_auto t _ _ _ _ _ _ _ 0 Hdef).
  destruct (bool_decide (Z.max (t_seq t) (max_rowid t) = MaxInt64)); [reflexivity|].
  destruct (spec.canonical_rows _ _ t); reflexivity.
Qed.

Lemma catalog_after_insert d t md :
  spec.catalog d t -> spec.catalog (replace_table (with_row t md) d) (with_row t md).
Proof.
  intros [Hfind Hdef]. split; [|reflexivity].
  apply (find_replace_table "files" t _ d Hfind). reflexivity.
Qed.

End AutoInserts.

(** ** Looking up what was inserted *)

Section InsertThenLookup.
Context `{sql.Engine} `{TypeCodes}.
Import sql gosql.

Lemma canonical_rows_with_row t md parent name :
  t_def t = sqlite.files ->
  spec.canonical_rows parent name (with_row t md) =
  (spec.canonical_rows parent name t ++
   (if bool_decide (sqlite.Name md = name) && bool_decide (sqlite.Parent md = parent)
    then [row_of md] else []))%list.
Proof.
  intros Hdef. unfold spec.canonical_rows. cbn [t_def t_rows with_row].
  rewrite filter_app_one, Hdef. f_equal.
  change (row_get sqlite.files (row_of md) "name") with (VText (sqlite.Name md)).
  change (row_get sqlite.files (row_of md) "parent") with (VInt (sqlite.Parent md)).
  rewrite (bool_decide_ext (VText (sqlite.Name md) = VText name) (sqlite.Name md = name))
    by (split; congruence).
  rewrite (bool_decide_ext (VInt (sqlite.Parent md) = VInt parent) (sqlite.Parent md = parent))
    by (split; congruence).
  reflexivity.
Qed.

Lemma rows_with_inode_with_row t md inode :
  t_def t = sqlite.files ->
  spec.rows_with_inode inode (with_row t md) =
  (spec.rows_with_inode inode t ++
   (if bool_decide (sqlite.Inode md = inode) then [row_of md] else []))%list.
Proof.
  intros Hdef. unfold spec.rows_with_inode. cbn [t_def t_rows with_row].
  rewrite filter_app_one, Hdef. f_equal.
  change (row_get sqlite.files (row_of md) "inode") with (VInt (sqlite.Inode md)).
  rewrite (bool_decide_ext (VInt (sqlite.Inode md) = VInt inode) (sqlite.Inode md = inode))
    by (split; congruence).
  reflexivity.
Qed.

Lemma children_with_row t md inode code :
  t_def t = sqlite.files ->
  spec.children_of_type inode code (with_row t md) =
  spec.children_of_type inode code t +
  (if bool_decide (sqlite.Parent md = inode) && bool_decide (sqlite.Type_ md = code)
   then 1 else 0).
Proof.
  intros Hdef. unfold spec.children_of_type. cbn [t_def t_rows with_row].
  rewrite filter_app_one, Hdef, length_app, Nat2Z.inj_add. f_equal.
  change (row_get sqlite.files (row_of md) "parent") with (VInt (sqlite.Parent md)).
  change (row_get sqlite.files (row_of md) "type") with (VInt (sqlite.Type_ md)).
  rewrite (bool_decide_ext (VInt (sqlite.Parent md) = VInt inode) (sqlite.Parent md = inode))
    by (split; congruence).
  rewrite (bool_decide_ext (VInt (sqlite.Type_ md) = VInt code) (sqlite.Type_ md = code))
    by (split; congruence).
  destruct (_ && _); reflexivity.
Qed.

Lemma rows_below_next t r z :
  In r (t_rows t) -> rowid_of (t_def t) r = VInt z -> z < next_inode t.
Proof.
  intros Hin Hid. pose proof (max_rowid_ge t r z Hin Hid). unfold next_inode. lia.
Qed.

Lemma rows_with_next_inode t :
  t_def t = sqlite.files -> spec.rows_with_inode (next_inode t) t = [].
Proof.
  intros Hdef. apply filter_nil_iff. intros r Hin.
  apply bool_decide_eq_false_2. intros Hid.
  assert (Hid' : rowid_of (t_def t) r = VInt (next_inode t))
    by (rewrite Hdef in *; exact Hid).
  pose proof (rows_below_next t r _ Hin Hid'). lia.
Qed.

(** What a successful [AddDirectory] returned and left. *)
Lemma AddDirectory_Ok_inv d t parent name mode md d' :
  spec.catalog d t ->
  sqlite.AddDirectory parent name mode d = (Ok md, d') ->
  md = new_entry t name EmptyString 0 mode parent DrvFolder EmptyString 2 /\
  d' = replace_table (with_row t md) d /\
  spec.canonical_rows parent name t = [] /\
  Z.max (t_seq t) (max_rowid t) <> MaxInt64.
Proof.
  intros Hcat Hrun. rewrite (AddDirectory_on_catalog d t parent name mode Hcat) in Hrun.
  destruct (decide (Z.max (t_seq t) (max_rowid t) = MaxInt64)) as [Hm|Hm].
  - rewrite bool_decide_eq_true_2 in Hrun by exact Hm. discriminate.
  - rewrite bool_decide_eq_false_2 in Hrun by exact Hm.
    destruct (spec.canonical_rows parent name t); [|discriminate].
    cbv zeta in Hrun. injection Hrun as <- <-. auto.
Qed.

Lemma CreateFile_Ok_inv d t parent name mode url hash md d' :
  spec.catalog d t ->
  sqlite.CreateFile parent name mode url hash d = (Ok md, d') ->
  md = new_entry t name url 0 mode parent DrvFile hash 1 /\
  d' = replace_table (with_row t md) d /\
  spec.canonical_rows parent name t = [] /\
  Z.max (t_seq t) (max_rowid t) <> MaxInt64.
Proof.
  intros Hcat Hrun. rewrite (CreateFile_on_catalog d t parent name mode url hash Hcat) in Hrun.
  destruct (decide (Z.max (t_seq t) (max_rowid t) = MaxInt64)) as [Hm|Hm].
  - rewrite bool_decide_eq_true_2 in Hrun by exact Hm. discriminate.
  - rewrite bool_decide_eq_false_2 in Hrun by exact Hm.
    destruct (spec.canonical_rows parent name t); [|discriminate].
    cbv zeta in Hrun. injection Hrun as <- <-. auto.
Qed.

Lemma Search_finds_new_row d t md :
  spec.catalog d t ->
  spec.canonical_rows (sqlite.Parent md) (sqlite.Name md) t = [] ->
  sqlite.Search (sqlite.Parent md) (sqlite.Name md) (replace_table (with_row t md) d) =
  Ok (sqlite.set_NLink md 0).
Proof.
  intros Hcat Hfree. pose proof Hcat as [_ Hdef].
  rewrite (Search_on_catalog _ (with_row t md)) by (apply catalog_after_insert; exact Hcat).
  rewrite canonical_rows_with_row by exact Hdef. rewrite Hfree.
  rewrite !bool_decide_eq_true_2 by reflexivity. reflexivity.
Qed.

(** X3.  A successful [AddDirectory] returns a FOLDER entry with the given
    name, parent and mode, size 0, empty url and hash and link count 2,
    under an inode larger than the sequence entry and than every inode of
    the table; and [Search] by the same parent and name then finds that
    entry (with link count 0, as [Search] leaves it). *)
Theorem AddDirectory_then_Search (d d' : database) (t : table)
        (parent : Z) (name : string) (mode : Z) (md : sqlite.Metadata) :
  spec.catalog d t ->
  sqlite.AddDirectory parent name mode d = (Ok md, d') ->
  md = {| sqlite.Inode := sqlite.Inode md; sqlite.Name := name;
          sqlite.URL := EmptyString; sqlite.Size := 0; sqlite.Mode := mode;
          sqlite.Parent := parent; sqlite.Type_ := DrvFolder;
          sqlite.Hash := EmptyString; sqlite.NLink := 2 |} /\
  t_seq t < sqlite.Inode md /\
  (forall r z, In r (t_rows t) -> row_get sqlite.files r "inode" = VInt z ->
               z < sqlite.Inode md) /\
  sqlite.Search parent name d' = Ok (sqlite.set_NLink md 0).
Proof.
  intros Hcat Hrun. pose proof Hcat as [_ Hdef].
  destruct (AddDirectory_Ok_inv d t parent name mode md d' Hcat Hrun)
    as (Hmd & -> & Hfree & _).
  split; [rewrite Hmd; reflexivity|]. split; [rewrite Hmd; unfold new_entry, next_inode; cbn; lia|].
  split.
  - intros r z Hin Hid. rewrite Hmd. cbn.
    apply (rows_below_next t r z Hin). rewrite Hdef. exact Hid.
  - assert (Hp : sqlite.Parent md = parent) by (rewrite Hmd; reflexivity).
    assert (Hn : sqlite.Name md = name) by (rewrite Hmd; reflexivity).
    rewrite <- Hp, <- Hn. apply Search_finds_new_row; [exact Hcat|].
    rewrite Hp, Hn. exact Hfree.
Qed.

(** X4.  A successful [CreateFile] returns a FILE entry with the given name,
    parent, mode, url and hash, size 0 and link count 1, under an inode
    larger than the sequence entry and than every inode of the table; and
    [Search] by the same parent and name then finds that entry. *)
Theorem CreateFile_then_Search (d d' : database) (t : table)
        (parent : Z) (name : string) (mode : Z) (url hash : string)
        (md : sqlite.Metadata) :
  spec.catalog d t ->
  sqlite.CreateFile parent name mode url hash d = (Ok md, d') ->
  md = {| sqlite.Inode := sqlite.Inode md; sqlite.Name := name;
          sqlite.URL := url; sqlite.Size := 0; sqlite.Mode := mode;
          sqlite.Parent := parent; sqlite.Type_ := DrvFile;
          sqlite.Hash := hash; sqlite.NLink := 1 |} /\
  t_seq t < sqlite.Inode md /\
  (forall r z, In r (t_rows t) -> row_get sqlite.files r "inode" = VInt z ->
               z < sqlite.Inode md) /\
  sqlite.Search parent name d' = Ok (sqlite.set_NLink md 0).
Proof.
  intros Hcat Hrun. pose proof Hcat as [_ Hdef].
  destruct (CreateFile_Ok_inv d t parent name mode url hash md d' Hcat Hrun)
    as (Hmd & -> & Hfree & _).
  split; [rewrite Hmd; reflexivity|]. split; [rewrite Hmd; unfold new_entry, next_inode; cbn; lia|].
  split.
  - intros r z Hin Hid. rewrite Hmd. cbn.
    apply (rows_below_next t r z Hin). rewrite Hdef. exact Hid.
  - assert (Hp : sqlite.Parent md = parent) by (rewrite Hmd; reflexivity).
    assert (Hn : sqlite.Name md = name) by (rewrite Hmd; reflexivity).
    rewrite <- Hp, <- Hn. apply Search_finds_new_row; [exact Hcat|].
    rewrite Hp, Hn. exact Hfree.
Qed.

End InsertThenLookup.

Lemma AddDirectory_then_Search_witness :
  spec.catalog docs_catalog docs_table /\
  exists md d',
    @sqlite.AddDirectory gosql.decimal_engine codes01 2 "music" 448 docs_catalog = (Ok md, d') /\
    sqlite.Inode md = 3 /\
    @sqlite.Search gosql.decimal_engine 2 "music" d' = Ok (sqlite.set_NLink md 0).
Proof.
  assert (Hcat : spec.catalog docs_catalog docs_table) by (split; reflexivity).
  split; [exact Hcat|]. eexists _, _. split; [vm_compute; reflexivity|].
  split; [reflexivity|].
  apply (@AddDirectory_then_Search gosql.decimal_engine codes01 docs_catalog _ docs_table
           2 "music" 448 _ Hcat eq_refl).
Defined.

Lemma CreateFile_then_Search_witness :
  spec.catalog docs_catalog docs_table /\
  exists md d',
    @sqlite.CreateFile gosql.decimal_engine codes01 2 "a.txt" 420 "dropbox://x1" "h"
                       docs_catalog = (Ok md, d') /\
    sqlite.Inode md = 3 /\ sqlite.Type_ md = 0 /\
    @sqlite.Search gosql.decimal_engine 2 "a.txt" d' = Ok (sqlite.set_NLink md 0).
Proof.
  assert (Hcat : spec.catalog docs_catalog docs_table) by (split; reflexivity).
  split; [exact Hcat|]. eexists _, _. split; [vm_compute; reflexivity|].
  split; [reflexivity|]. split; [reflexivity|].
  apply (@CreateFile_then_Search gosql.decimal_engine codes01 docs_catalog _ docs_table
           2 "a.txt" 420 "dropbox://x1" "h" _ Hcat eq_refl).
Defined.

(** ** Link counts after an insert *)

Section LinkCountsAfterInsert.
Context `{sql.Engine} `{TypeCodes}.
Import sql gosql.

Lemma set_NLink_same md : sqlite.set_NLink md (sqlite.NLink md) = md.
Proof. destruct md. reflexivity. Qed.

Lemma set_NLink_twice md n m :
  sqlite.set_NLink (sqlite.set_NLink md n) m = sqlite.set_NLink md m.
Proof. reflexivity. Qed.

(** [Get] on a catalog, in full: the first row with the inode, parsed, with
    the derived link count. *)
Lemma Get_derives d t inode :
  spec.catalog d t ->
  Z.of_nat (length (t_rows t)) + 2 <= MaxInt64 ->
  sqlite.Get inode d =
  match spec.rows_with_inode inode t with
  | [] => Err ErrNotFound
  | r :: _ =>
      let* md := sqlite.parseRow r in
      Ok (sqlite.set_NLink md (derived_nlink t md))
  end.
Proof.
  intros Hcat Hsize. rewrite (Get_on_catalog d t inode Hcat).
  destruct (spec.rows_with_inode inode t) as [|r rest]; [reflexivity|].
  destruct (sqlite.parseRow r) as [md|e]; cbn [rbind]; [|reflexivity].
  rewrite (fillNLink_on_catalog d t md Hcat Hsize). reflexivity.
Qed.

Lemma Get_after_new_row d t mdn inode mdp :
  spec.catalog d t ->
  Z.of_nat (length (t_rows t)) + 3 <= MaxInt64 ->
  sqlite.Get inode d = Ok mdp ->
  sqlite.Get inode (replace_table (with_row t mdn) d) =
  Ok (sqlite.set_NLink mdp
        (if bool_decide (sqlite.Type_ mdp = DrvFile) then 1
         else sqlite.NLink mdp +
              (if bool_decide (sqlite.Parent mdn = inode) &&
                  bool_decide (sqlite.Type_ mdn = DrvFolder) then 1 else 0))).
Proof.
  intros Hcat Hsize Hget. pose proof Hcat as [_ Hdef].
  assert (Hsize' : Z.of_nat (length (t_rows (with_row t mdn))) + 2 <= MaxInt64).
  { cbn [t_rows with_row]. rewrite length_app. cbn [length]. lia. }
  rewrite (Get_derives d t inode Hcat ltac:(lia)) in Hget.
  rewrite (Get_derives _ (with_row t mdn) inode (catalog_after_insert d t mdn Hcat) Hsize').
  rewrite rows_with_inode_with_row by exact Hdef.
  destruct (spec.rows_with_inode inode t) as [|r rest] eqn:Hrows; [discriminate|].
  cbn [app].
  destruct (sqlite.parseRow r) as [md0|e] eqn:Hparse; cbn [rbind] in *; [|discriminate].
  injection Hget as <-. rewrite set_NLink_twice. f_equal. f_equal.
  apply filter_In_head in Hrows. destruct Hrows as [_ Hi].
  apply bool_decide_eq_true_1 in Hi. rewrite Hdef in Hi.
  destruct (scan8_fields r md0 (parseRow_fields r md0 Hparse)) as (Hinode & _).
  rewrite Hi in Hinode. cbn in Hinode. injection Hinode as Hinode.
  unfold derived_nlink. cbn [sqlite.Type_ sqlite.Inode sqlite.NLink sqlite.set_NLink].
  destruct (bool_decide (sqlite.Type_ md0 = DrvFile)); [reflexivity|].
  rewrite children_with_row by exact Hdef. rewrite <- Hinode. lia.
Qed.

(** X5.  Creating a directory raises the link count of its parent by one and
    leaves every other directory's link count as it was: for an entry that
    [Get] returned before with a type other than FILE, [Get] afterwards
    returns the same entry with link count one higher if its inode is the
    parent of the new directory, and unchanged otherwise. *)
Theorem AddDirectory_raises_parent_link_count (d d' : database) (t : table)
        (parent : Z) (name : string) (mode : Z) (md : sqlite.Metadata)
        (inode : Z) (mdp : sqlite.Metadata) :
  spec.catalog d t ->
  Z.of_nat (length (t_rows t)) + 3 <= MaxInt64 ->
  sqlite.AddDirectory parent name mode d = (Ok md, d') ->
  sqlite.Get inode d = Ok mdp ->
  sqlite.Type_ mdp <> DrvFile ->
  sqlite.Get inode d' =
  Ok (sqlite.set_NLink mdp (if bool_decide (inode = parent) then sqlite.NLink mdp + 1
                            else sqlite.NLink mdp)).
Proof.
  intros Hcat Hsize Hrun Hget Hty.
  destruct (AddDirectory_Ok_inv d t parent name mode md d' Hcat Hrun) as (Hmd & -> & _).
  rewrite (Get_after_new_row d t md inode mdp Hcat Hsize Hget).
  rewrite bool_decide_eq_false_2 by exact Hty.
  rewrite Hmd. cbn [sqlite.Parent sqlite.Type_ new_entry].
  rewrite (bool_decide_eq_true_2 (DrvFolder = DrvFolder)) by reflexivity.
  rewrite andb_true_r.
  rewrite (bool_decide_ext (parent = inode) (inode = parent)) by (split; congruence).
  destruct (bool_decide (inode = parent)); [reflexivity|].
  rewrite Z.add_0_r. reflexivity.
Qed.

(** X6.  Creating a file changes no link count: when the FILE and FOLDER
    codes differ, every entry [Get] returned before a successful
    [CreateFile] is returned unchanged after it. *)
Theorem CreateFile_keeps_link_counts (d d' : database) (t : table)
        (parent : Z) (name : string) (mode : Z) (url hash : string)
        (md : sqlite.Metadata) (inode : Z) (mdp : sqlite.Metadata) :
  spec.catalog d t ->
  DrvFile <> DrvFolder ->
  Z.of_nat (length (t_rows t)) + 3 <= MaxInt64 ->
  sqlite.CreateFile parent name mode url hash d = (Ok md, d') ->
  sqlite.Get inode d = Ok mdp ->
  sqlite.Get inode d' = Ok mdp.
Proof.
  intros Hcat Hcodes Hsize Hrun Hget.
  destruct (CreateFile_Ok_inv d t parent name mode url hash md d' Hcat Hrun)
    as (Hmd & -> & _).
  rewrite (Get_after_new_row d t md inode mdp Hcat Hsize Hget).
  f_equal. transitivity (sqlite.set_NLink mdp (sqlite.NLink mdp)); [|apply set_NLink_same].
  f_equal.
  rewrite Hmd. cbn [sqlite.Parent sqlite.Type_ new_entry].
  rewrite (bool_decide_eq_false_2 (DrvFile = DrvFolder)) by exact Hcodes.
  rewrite andb_false_r, Z.add_0_r.
  destruct (bool_decide (sqlite.Type_ mdp = DrvFile)) eqn:Hty; [|reflexivity].
  apply bool_decide_eq_true_1 in Hty.
  rewrite (Get_derives d t inode Hcat ltac:(lia)) in Hget.
  destruct (spec.rows_with_inode inode t) as [|r rest]; [discriminate|].
  destruct (sqlite.parseRow r) as [md0|e]; cbn [rbind] in Hget; [|discriminate].
  injection Hget as <-. cbn in Hty |- *. unfold derived_nlink.
  rewrite bool_decide_eq_true_2 by exact Hty. reflexivity.
Qed.

(** X7.  The link count 2 that [AddDirectory] returns is the one [Get]
    derives afterwards, provided no row of the table already names the new
    inode as its parent and the directory is not created as its own parent;
    then [Get] on the new inode returns exactly the entry [AddDirectory]
    returned. *)
Theorem AddDirectory_agrees_with_Get (d d' : database) (t : table)
        (parent : Z) (name : string) (mode : Z) (md : sqlite.Metadata) :
  spec.catalog d t ->
  DrvFile <> DrvFolder ->
  Z.of_nat (length (t_rows t)) + 3 <= MaxInt64 ->
  sqlite.AddDirectory parent name mode d = (Ok md, d') ->
  (forall r, In r (t_rows t) -> row_get sqlite.files r "parent" <> VInt (sqlite.Inode md)) ->
  parent <> sqlite.Inode md ->
  sqlite.Get (sqlite.Inode md) d' = Ok md.
Proof.
  intros Hcat Hcodes Hsize Hrun Horphan Hself. pose proof Hcat as [_ Hdef].
  destruct (AddDirectory_Ok_inv d t parent name mode md d' Hcat Hrun) as (Hmd & -> & _).
  assert (Hsize' : Z.of_nat (length (t_rows (with_row t md))) + 2 <= MaxInt64).
  { cbn [t_rows with_row]. rewrite length_app. cbn [length]. lia. }
  rewrite (Get_derives _ (with_row t md) _ (catalog_after_insert d t md Hcat) Hsize').
  rewrite rows_with_inode_with_row by exact Hdef.
  assert (Hnext : sqlite.Inode md = next_inode t) by (rewrite Hmd; reflexivity).
  rewrite Hnext at 1. rewrite (rows_with_next_inode t Hdef).
  rewrite bool_decide_eq_true_2 by reflexivity. cbn [app].
  rewrite parseRow_row_of. cbn [rbind]. rewrite set_NLink_twice.
  f_equal. transitivity (sqlite.set_NLink md (sqlite.NLink md)); [|apply set_NLink_same].
  f_equal.
  unfold derived_nlink. cbn [sqlite.Type_ sqlite.Inode sqlite.set_NLink].
  assert (Hty : sqlite.Type_ md = DrvFolder) by (rewrite Hmd; reflexivity).
  rewrite bool_decide_eq_false_2 by congruence.
  rewrite children_with_row by exact Hdef.
  assert (Hp : sqlite.Parent md = parent) by (rewrite Hmd; reflexivity).
  rewrite Hp, (bool_decide_eq_false_2 (parent = sqlite.Inode md)) by exact Hself.
  cbn [andb]. 
  assert (Hzero : spec.children_of_type (sqlite.Inode md) DrvFolder t = 0).
  { unfold spec.children_of_type.
    replace (List.filter _ (t_rows t)) with (@nil row); [reflexivity|].
    symmetry. apply filter_nil_iff. intros r Hin. rewrite Hdef.
    rewrite (bool_decide_eq_false_2 _ (Horphan r Hin)). reflexivity. }
  rewrite Hzero. rewrite Hmd. reflexivity.
Qed.

End LinkCountsAfterInsert.

Lemma AddDirectory_raises_parent_link_count_witness :
  spec.catalog docs_catalog docs_table /\
  exists md d' mdp,
    @sqlite.AddDirectory gosql.decimal_engine codes01 1 "music" 448 docs_catalog = (Ok md, d') /\
    @sqlite.Get gosql.decimal_engine codes01 1 docs_catalog = Ok mdp /\
    sqlite.NLink mdp = 3 /\
    @sqlite.Get gosql.decimal_engine codes01 1 d' = Ok (sqlite.set_NLink mdp 4).
Proof.
  assert (Hcat : spec.catalog docs_catalog docs_table) by (split; reflexivity).
  assert (Hsize : Z.of_nat (length (sql.t_rows docs_table)) + 3 <= MaxInt64)
    by (vm_compute; discriminate).
  split; [exact Hcat|]. eexists _, _, _.
  split; [vm_compute; reflexivity|]. split; [vm_compute; reflexivity|].
  split; [reflexivity|].
  refine (@AddDirectory_raises_parent_link_count gosql.decimal_engine codes01
            docs_catalog _ docs_table 1 "music" 448 _ 1 _ Hcat Hsize eq_refl eq_refl _).
  vm_compute. discriminate.
Defined.

Lemma CreateFile_keeps_link_counts_witness :
  spec.catalog docs_catalog docs_table /\
  exists md d' mdp,
    @sqlite.CreateFile gosql.decimal_engine codes01 1 "a.txt" 420 "dropbox://x1" "h"
                       docs_catalog = (Ok md, d') /\
    @sqlite.Get gosql.decimal_engine codes01 1 docs_catalog = Ok mdp /\
    @sqlite.Get gosql.decimal_engine codes01 1 d' = Ok mdp.
Proof.
  assert (Hcat : spec.catalog docs_catalog docs_table) by (split; reflexivity).
  assert (Hsize : Z.of_nat (length (sql.t_rows docs_table)) + 3 <= MaxInt64)
    by (vm_compute; discriminate).
  assert (Hcodes : @DrvFile codes01 <> @DrvFolder codes01) by discriminate.
  split; [exact Hcat|]. eexists _, _, _.
  split; [vm_compute; reflexivity|]. split; [vm_compute; reflexivity|].
  exact (@CreateFile_keeps_link_counts gosql.decimal_engine codes01
           docs_catalog _ docs_table 1 "a.txt" 420 "dropbox://x1" "h" _ 1 _
           Hcat Hcodes Hsize eq_refl eq_refl).
Defined.

Lemma AddDirectory_agrees_with_Get_witness :
  spec.catalog docs_catalog docs_table /\
  exists md d',
    @sqlite.AddDirectory gosql.decimal_engine codes01 2 "music" 448 docs_catalog = (Ok md, d') /\
    @sqlite.Get gosql.decimal_engine codes01 (sqlite.Inode md) d' = Ok md.
Proof.
  assert (Hcat : spec.catalog docs_catalog docs_table) by (split; reflexivity).
  assert (Hsize : Z.of_nat (length (sql.t_rows docs_table)) + 3 <= MaxInt64)
    by (vm_compute; discriminate).
  assert (Hcodes : @DrvFile codes01 <> @DrvFolder codes01) by discriminate.
  split; [exact Hcat|]. eexists _, _. split; [vm_compute; reflexivity|].
  refine (@AddDirectory_agrees_with_Get gosql.decimal_engine codes01
            docs_catalog _ docs_table 2 "music" 448 _ Hcat Hcodes Hsize eq_refl _ _).
  - intros r Hin.
    repeat (destruct Hin as [<-|Hin]; [vm_compute; discriminate|]). destruct Hin.
  - vm_compute. discriminate.
Defined.

(** A directory created as its own parent: [AddDirectory] returns link count
    2, [Get] derives 3. *)
Example AddDirectory_own_parent :
  exists md d',
    @sqlite.AddDirectory gosql.decimal_engine codes01 3 "loop" 448 docs_catalog = (Ok md, d') /\
    sqlite.Inode md = 3 /\ sqlite.NLink md = 2 /\
    @sqlite.Get gosql.decimal_engine codes01 3 d' = Ok (sqlite.set_NLink md 3).
Proof. eexists _, _. repeat split; vm_compute; reflexivity. Qed.

(** ** Counting rows *)

Section Counting.
Context `{sql.Engine} `{TypeCodes} `{sqlw.Floats}.
Import sql gosql.

Lemma catalog_prepare_more d t (s : statement) :
  spec.catalog d t ->
  In s [sqlite.count_rows; sqlite.count_by_type; sqlite.one_row; sqlite.insert_with_inode] ->
  Prepare d s = Ok s.
Proof.
  intros [Hfind Hdef] Hin. unfold Prepare.
  repeat (destruct Hin as [<-|Hin]); try contradiction;
    cbn; rewrite Hfind, ?Hdef; reflexivity.
Qed.

Lemma filter_all_true {A} (f : A -> bool) (l : list A) :
  (forall a, f a = true) -> List.filter f l = l.
Proof.
  intros Hf. induction l as [|a l IH]; [reflexivity|].
  cbn [List.filter]. rewrite Hf, IH. reflexivity.
Qed.

Lemma GetRowCount_on_catalog d t :
  spec.catalog d t ->
  sqlite.GetRowCount d = Ok (Z.of_nat (length (t_rows t))).
Proof.
  intros Hcat. pose proof Hcat as [Hfind Hdef]. unfold sqlite.GetRowCount.
  rewrite (catalog_prepare_more d t) by (cbn; tauto || exact Hcat).
  cbn [wrap rbind]. unfold Query.
  change (checked_args _ _) with (Ok (A:=list value) []).
  cbn [rbind run_query sqlite.count_rows]. rewrite Hfind. cbn [wrap rbind sqlite.scan_count].
  unfold count_where, select_where. rewrite filter_all_true by reflexivity.
  reflexivity.
Qed.

Lemma GetFileCount_on_catalog d t :
  spec.catalog d t ->
  sqlite.GetFileCount d = Ok (Z.of_nat (length (rows_of_type DrvFile t))).
Proof.
  intros Hcat. pose proof Hcat as [Hfind Hdef]. unfold sqlite.GetFileCount.
  rewrite (catalog_prepare_more d t) by (cbn; tauto || exact Hcat).
  cbn [wrap rbind]. unfold Query.
  change (checked_args _ _) with (Ok (A:=list value) [VInt DrvFile]).
  cbn [rbind run_query sqlite.count_by_type]. rewrite Hfind.
  cbn [wrap rbind sqlite.scan_count].
  unfold count_where, select_where, rows_of_type. rewrite Hdef.
  replace (List.filter (row_matches sqlite.files
                          (bind_where [("type", Placeholder)] [VInt DrvFile])) (t_rows t))
    with (List.filter (fun r => bool_decide (row_get sqlite.files r "type" = VInt DrvFile))
                      (t_rows t)); [reflexivity|].
  apply filter_ext_all. intros r. unfold row_matches. cbn.
  rewrite sql_eq_int, andb_true_r. reflexivity.
Qed.

Lemma rows_of_type_with_row t md code :
  rows_of_type code (with_row t md) =
  (rows_of_type code t ++ (if bool_decide (sqlite.Type_ md = code) then [row_of md] else []))%list.
Proof.
  unfold rows_of_type. cbn [t_rows with_row]. rewrite filter_app_one. f_equal.
  change (row_get sqlite.files (row_of md) "type") with (VInt (sqlite.Type_ md)).
  rewrite (bool_decide_ext (VInt (sqlite.Type_ md) = VInt code) (sqlite.Type_ md = code))
    by (split; congruence).
  reflexivity.
Qed.

(** X8.  On a catalog [GetRowCount] returns the number of rows and
    [GetFileCount] the number of rows of type FILE.  A successful
    [AddDirectory] raises the first by one and, when the FILE and FOLDER
    codes differ, leaves the second; a successful [CreateFile] raises both
    by one. *)
Theorem counts_follow_inserts (d : database) (t : table) :
  spec.catalog d t ->
  DrvFile <> DrvFolder ->
  sqlite.GetRowCount d = Ok (Z.of_nat (length (t_rows t))) /\
  sqlite.GetFileCount d = Ok (Z.of_nat (length (rows_of_type DrvFile t))) /\
  (forall parent name mode md d',
     sqlite.AddDirectory parent name mode d = (Ok md, d') ->
     sqlite.GetRowCount d' = Ok (Z.of_nat (length (t_rows t)) + 1) /\
     sqlite.GetFileCount d' = sqlite.GetFileCount d) /\
  (forall parent name mode url hash md d',
     sqlite.CreateFile parent name mode url hash d = (Ok md, d') ->
     sqlite.GetRowCount d' = Ok (Z.of_nat (length (t_rows t)) + 1) /\
     sqlite.GetFileCount d' = Ok (Z.of_nat (length (rows_of_type DrvFile t)) + 1)).
Proof.
  intros Hcat Hcodes.
  split; [apply GetRowCount_on_catalog; exact Hcat|].
  split; [apply GetFileCount_on_catalog; exact Hcat|]. split.
  - intros parent name mode md d' Hrun.
    destruct (AddDirectory_Ok_inv d t parent name mode md d' Hcat Hrun) as (Hmd & -> & _).
    pose proof (catalog_after_insert d t md Hcat) as Hcat'.
    rewrite (GetRowCount_on_catalog _ _ Hcat'), (GetFileCount_on_catalog _ _ Hcat'),
      (GetFileCount_on_catalog _ _ Hcat).
    rewrite rows_of_type_with_row. cbn [t_rows with_row]. rewrite !length_app.
    rewrite Hmd. cbn [sqlite.Type_ new_entry].
    rewrite bool_decide_eq_false_2 by congruence. cbn [length].
    split; f_equal; lia.
  - intros parent name mode url hash md d' Hrun.
    destruct (CreateFile_Ok_inv d t parent name mode url hash md d' Hcat Hrun)
      as (Hmd & -> & _).
    pose proof (catalog_after_insert d t md Hcat) as Hcat'.
    rewrite (GetRowCount_on_catalog _ _ Hcat'), (GetFileCount_on_catalog _ _ Hcat').
    rewrite rows_of_type_with_row. cbn [t_rows with_row]. rewrite !length_app.
    rewrite Hmd. cbn [sqlite.Type_ new_entry].
    rewrite bool_decide_eq_true_2 by reflexivity. cbn [length].
    split; f_equal; lia.
Qed.

End Counting.

Lemma counts_follow_inserts_witness :
  spec.catalog docs_catalog docs_table /\
  @sqlite.GetRowCount gosql.decimal_engine docs_catalog = Ok 2 /\
  @sqlite.GetFileCount gosql.decimal_engine codes01 docs_catalog = Ok 0.
Proof.
  assert (Hcat : spec.catalog docs_catalog docs_table) by (split; reflexivity).
  assert (Hcodes : @DrvFile codes01 <> @DrvFolder codes01) by discriminate.
  destruct (@counts_follow_inserts gosql.decimal_engine codes01 docs_catalog docs_table
              Hcat Hcodes) as (Hrows & Hfiles & _).
  split; [exact Hcat|]. split; [exact Hrows|exact Hfiles].
Defined.

(** ** [GetTotalSize] *)

Section TotalSize.
Context `{sql.Engine} `{TypeCodes} `{sqlw.Floats}.
Import sql gosql.

Lemma PrepareSum_on_catalog d t :
  spec.catalog d t ->
  sqlw.PrepareSum d sqlite.sum_size_by_type = Ok sqlite.sum_size_by_type.
Proof.
  intros [Hfind Hdef]. cbn. rewrite Hfind, Hdef. reflexivity.
Qed.

Lemma QuerySum_on_catalog d t :
  spec.catalog d t ->
  sqlw.QuerySum sqlite.sum_size_by_type [AInt DrvFile] d =
  Ok (sqlw.sum_column (map (fun r => row_get sqlite.files r "size")
                           (rows_of_type DrvFile t))).
Proof.
  intros [Hfind Hdef]. unfold sqlw.QuerySum, sqlite.sum_size_by_type.
  change (sqlw.checked_count _ _) with (Ok (A:=list value) [VInt DrvFile]).
  cbn [rbind]. rewrite Hfind. rewrite Hdef. do 3 f_equal.
  unfold select_where, rows_of_type. rewrite Hdef.
  apply filter_ext_all. intros r. unfold row_matches. cbn.
  rewrite sql_eq_int, andb_true_r. reflexivity.
Qed.

Lemma GetTotalSize_on_catalog d t :
  spec.catalog d t ->
  sqlite.GetTotalSize d =
  match sqlw.sum_column (map (fun r => row_get sqlite.files r "size")
                             (rows_of_type DrvFile t)) with
  | Ok s => wrap "couldn't get sum of sizes: " (at_column 0 (sqlw.scan_sum s))
  | Err e => Err (Errorf "couldn't get sum of sizes: " e)
  end.
Proof.
  intros Hcat. unfold sqlite.GetTotalSize.
  rewrite (PrepareSum_on_catalog d t Hcat). cbn [wrap rbind].
  rewrite (QuerySum_on_catalog d t Hcat). reflexivity.
Qed.

Lemma sizes_of_entries (mds : list sqlite.Metadata) :
  map (fun r => row_get sqlite.files r "size") (map row_of mds) =
  map (fun md => VInt (sqlite.Size md)) mds.
Proof. rewrite map_map. reflexivity. Qed.

Lemma sum_stuck (mds : list sqlite.Metadata) (q : sqlw.sum_state) :
  sqlw.overflow q = true ->
  sqlw.overflow (fold_left sqlw.sum_step (map (fun md => VInt (sqlite.Size md)) mds) q) = true.
Proof.
  revert q. induction mds as [|md mds IH]; intros q Hq; cbn [map fold_left]; [exact Hq|].
  apply IH. cbn [sqlw.sum_step]. unfold sqlw.sum_integer.
  rewrite Hq, orb_true_r. reflexivity.
Qed.

Lemma sum_counts (mds : list sqlite.Metadata) (q : sqlw.sum_state) :
  sqlw.cnt (fold_left sqlw.sum_step (map (fun md => VInt (sqlite.Size md)) mds) q) =
  (sqlw.cnt q + length mds)%nat.
Proof.
  revert q. induction mds as [|md mds IH]; intros q; cbn [map fold_left length]; [lia|].
  rewrite IH. cbn [sqlw.sum_step]. unfold sqlw.sum_integer.
  destruct (sqlw.approx q || sqlw.overflow q); [cbn [sqlw.cnt]; lia|].
  destruct (bool_decide _); cbn [sqlw.cnt]; lia.
Qed.

Lemma sum_entries_from (p : sqlw.sum_state) (mds : list sqlite.Metadata) :
  sqlw.approx p = false -> sqlw.overflow p = false ->
  match running_size (sqlw.iSum p) mds with
  | Some total =>
      sqlw.iSum (fold_left sqlw.sum_step (map (fun md => VInt (sqlite.Size md)) mds) p) = total /\
      sqlw.approx (fold_left sqlw.sum_step (map (fun md => VInt (sqlite.Size md)) mds) p) = false /\
      sqlw.overflow (fold_left sqlw.sum_step (map (fun md => VInt (sqlite.Size md)) mds) p) = false
  | None =>
      sqlw.overflow (fold_left sqlw.sum_step (map (fun md => VInt (sqlite.Size md)) mds) p) = true
  end.
Proof.
  revert p. induction mds as [|md mds IH]; intros p Ha Ho.
  - cbn [map fold_left running_size]. auto.
  - cbn [map fold_left running_size sqlw.sum_step]. unfold sqlw.sum_integer.
    rewrite Ha, Ho. cbn [orb].
    destruct (bool_decide (MinInt64 <= sqlw.iSum p + sqlite.Size md <= MaxInt64)).
    + exact (IH {| sqlw.cnt := S (sqlw.cnt p); sqlw.iSum := sqlw.iSum p + sqlite.Size md;
                   sqlw.approx := false; sqlw.overflow := false |} eq_refl eq_refl).
    + apply sum_stuck. reflexivity.
Qed.

Lemma sum_column_entries (md : sqlite.Metadata) (mds : list sqlite.Metadata) :
  sqlw.sum_column (map (fun md => VInt (sqlite.Size md)) (md :: mds)) =
  match running_size 0 (md :: mds) with
  | Some total => Ok (sqlw.SumInt total)
  | None => Err (ErrText "integer overflow")
  end.
Proof.
  unfold sqlw.sum_column. cbv zeta.
  pose proof (sum_counts (md :: mds) sqlw.sum_start) as Hcnt.
  pose proof (sum_entries_from sqlw.sum_start (md :: mds) eq_refl eq_refl) as Hsum.
  change (sqlw.iSum sqlw.sum_start) with 0 in Hsum.
  rewrite bool_decide_eq_false_2 by (rewrite Hcnt; cbn [length]; lia).
  destruct (running_size 0 (md :: mds)) as [total|].
  - destruct Hsum as (Hi & Ha & Ho). rewrite Ho, Ha, Hi. reflexivity.
  - rewrite Hsum. reflexivity.
Qed.

Lemma running_size_total (mds : list sqlite.Metadata) (acc total : Z) :
  running_size acc mds = Some total -> total = acc + total_size mds.
Proof.
  revert acc. induction mds as [|md mds IH]; intros acc; cbn [running_size total_size fold_right].
  - intros Hsum. injection Hsum as <-. lia.
  - destruct (bool_decide _); [|discriminate]. intros Hsum.
    rewrite (IH _ Hsum). unfold total_size. lia.
Qed.

Lemma total_size_nonneg (mds : list sqlite.Metadata) :
  List.Forall (fun md => 0 <= sqlite.Size md) mds -> 0 <= total_size mds.
Proof.
  induction 1 as [|md mds Hmd _ IH]; cbn [total_size fold_right]; [lia|].
  unfold total_size in IH. lia.
Qed.

Lemma running_size_nonneg (mds : list sqlite.Metadata) (acc : Z) :
  0 <= acc <= MaxInt64 ->
  List.Forall (fun md => 0 <= sqlite.Size md) mds ->
  (running_size acc mds = None <-> MaxInt64 < acc + total_size mds).
Proof.
  intros Hacc Hall. revert acc Hacc.
  induction Hall as [|md mds Hmd Hall IH]; intros acc Hacc;
    cbn [running_size total_size fold_right].
  - split; [discriminate|lia].
  - pose proof (total_size_nonneg mds Hall) as Hrest. unfold total_size in Hrest.
    destruct (decide (MinInt64 <= acc + sqlite.Size md <= MaxInt64)) as [Hfit|Hout].
    + rewrite bool_decide_eq_true_2 by exact Hfit.
      rewrite (IH (acc + sqlite.Size md)) by lia. unfold total_size. lia.
    + rewrite bool_decide_eq_false_2 by exact Hout.
      split; [intros _|reflexivity]. unfold MinInt64 in *. lia.
Qed.

(** X9.  On a catalog without a row of type FILE, [GetTotalSize] fails: the
    engine's sum over no rows is NULL, which [Scan] cannot store in an
    [int64].  It does not return 0. *)
Theorem GetTotalSize_without_files (d : database) (t : table) :
  spec.catalog d t ->
  rows_of_type DrvFile t = [] ->
  sqlite.GetTotalSize d =
  Err (Errorf "couldn't get sum of sizes: "
         (Errorf "sql: Scan error on column index 0: "
                 (ErrText "converting NULL to int64 is unsupported"))).
Proof.
  intros Hcat Hnone. rewrite (GetTotalSize_on_catalog d t Hcat), Hnone. reflexivity.
Qed.

(** X10.  On a catalog whose FILE rows hold the entries [md :: mds],
    [GetTotalSize] adds their sizes in the order of the rows: it returns the
    sum when every partial sum fits 64 bits, and the engine's
    integer-overflow error as soon as one does not, even if the total would
    fit.  When no size is negative, it fails exactly when the total exceeds
    the largest [int64]. *)
Theorem GetTotalSize_sums_file_sizes (d : database) (t : table)
        (md : sqlite.Metadata) (mds : list sqlite.Metadata) :
  spec.catalog d t ->
  rows_of_type DrvFile t = map row_of (md :: mds) ->
  sqlite.GetTotalSize d =
    match running_size 0 (md :: mds) with
    | Some total => Ok total
    | None => Err (Errorf "couldn't get sum of sizes: " (ErrText "integer overflow"))
    end /\
  (forall total, running_size 0 (md :: mds) = Some total ->
                 total = total_size (md :: mds)) /\
  (List.Forall (fun md => 0 <= sqlite.Size md) (md :: mds) ->
   (running_size 0 (md :: mds) = None <-> MaxInt64 < total_size (md :: mds))).
Proof.
  intros Hcat Hrows. split; [|split].
  - rewrite (GetTotalSize_on_catalog d t Hcat), Hrows.
    rewrite sizes_of_entries, sum_column_entries.
    destruct (running_size 0 (md :: mds)); reflexivity.
  - intros total Hsum. rewrite (running_size_total _ _ _ Hsum). lia.
  - intros Hall.
    rewrite (running_size_nonneg (md :: mds) 0) by (unfold MaxInt64; try lia; exact Hall).
    reflexivity.
Qed.

End TotalSize.

Lemma GetTotalSize_without_files_witness :
  spec.catalog docs_catalog docs_table /\
  rows_of_type 0 docs_table = [] /\
  exists e, @sqlite.GetTotalSize gosql.decimal_engine codes01 no_floats docs_catalog = Err e.
Proof.
  assert (Hcat : spec.catalog docs_catalog docs_table) by (split; reflexivity).
  assert (Hnone : rows_of_type (@DrvFile codes01) docs_table = []) by reflexivity.
  split; [exact Hcat|]. split; [exact Hnone|]. eexists.
  apply (@GetTotalSize_without_files gosql.decimal_engine codes01 no_floats
           docs_catalog docs_table Hcat Hnone).
Defined.

(** ** [IsValidDatabase] *)

Section Validity.
Context `{sql.Engine}.
Import sql gosql.

(** X11.  [IsValidDatabase] returns true on every database that has a
    [files] table; on a database without one it does not return false but
    panics, because the statement of the failed [Prepare] is nil when
    [Query] is called on it.  In no case does it return false. *)
Theorem IsValidDatabase_true_or_panic (d : database) :
  (forall t, find_table "files" d = Some t -> sqlite.IsValidDatabase d = Return true) /\
  (find_table "files" d = None -> exists msg, sqlite.IsValidDatabase d = Panic msg) /\
  sqlite.IsValidDatabase d <> Return false.
Proof.
  assert (Hsome : forall t, find_table "files" d = Some t ->
                            sqlite.IsValidDatabase d = Return true).
  { intros t Hfind. unfold sqlite.IsValidDatabase, Prepare, Query.
    cbn [compile sqlite.one_row map]. rewrite Hfind. cbn [List.find].
    change (checked_args _ _) with (Ok (A:=list value) []).
    cbn [rbind run_query sqlite.one_row]. rewrite Hfind. reflexivity. }
  assert (Hnone : find_table "files" d = None ->
                  exists msg, sqlite.IsValidDatabase d = Panic msg).
  { intros Hfind. unfold sqlite.IsValidDatabase, Prepare.
    cbn [compile sqlite.one_row]. rewrite Hfind. eexists. reflexivity. }
  split; [exact Hsome|]. split; [exact Hnone|].
  destruct (find_table "files" d) as [t|] eqn:Hfind.
  - rewrite (Hsome t eq_refl). discriminate.
  - destruct (Hnone eq_refl) as [msg ->]. discriminate.
Qed.

End Validity.

Lemma IsValidDatabase_true_or_panic_witness :
  sql.find_table "files" docs_catalog = Some docs_table /\
  @sqlite.IsValidDatabase gosql.decimal_engine docs_catalog = Return true /\
  sql.find_table "files" [] = None /\
  exists msg, @sqlite.IsValidDatabase gosql.decimal_engine [] = Panic msg.
Proof.
  split; [reflexivity|]. split.
  - apply (proj1 (@IsValidDatabase_true_or_panic gosql.decimal_engine docs_catalog)
             docs_table eq_refl).
  - split; [reflexivity|].
    apply (proj1 (proj2 (@IsValidDatabase_true_or_panic gosql.decimal_engine [])) eq_refl).
Defined.

Lemma GetTotalSize_sums_file_sizes_witness :
  spec.catalog sized_catalog (files_table (map row_of sized_entries) 4) /\
  rows_of_type 0 (files_table (map row_of sized_entries) 4) = map row_of sized_entries /\
  @sqlite.GetTotalSize gosql.decimal_engine codes01 no_floats sized_catalog = Ok 42.
Proof.
  assert (Hcat : spec.catalog sized_catalog (files_table (map row_of sized_entries) 4))
    by (split; reflexivity).
  assert (Hrows : rows_of_type (@DrvFile codes01) (files_table (map row_of sized_entries) 4) =
                  map row_of sized_entries) by reflexivity.
  split; [exact Hcat|]. split; [exact Hrows|].
  exact (proj1 (@GetTotalSize_sums_file_sizes gosql.decimal_engine codes01 no_floats
                  sized_catalog _ _ _ Hcat Hrows)).
Defined.

(** Sizes whose total fits but whose second partial sum does not. *)
Example GetTotalSize_partial_overflow :
  total_size overflowing_entries = MaxInt64 - 1 /\
  @sqlite.GetTotalSize gosql.decimal_engine codes01 no_floats
    [files_table (map row_of overflowing_entries) 4] =
  Err (Errorf "couldn't get sum of sizes: " (ErrText "integer overflow")).
Proof. split; vm_compute; reflexivity. Qed.

(** ** [GetChildren] *)

Section Children.
Context `{sql.Engine} `{TypeCodes}.
Import sql gosql.

Lemma GetChildren_on_catalog d t parent :
  spec.catalog d t ->
  sqlite.GetChildren parent d =
  sqlite.collect d
    (List.filter (fun r => bool_decide (row_get sqlite.files r "parent" = VInt parent))
                 (t_rows t)) [].
Proof.
  intros Hcat. pose proof Hcat as [_ Hdef]. unfold sqlite.GetChildren.
  rewrite (catalog_prepare d t) by (cbn; tauto || exact Hcat).
  cbn [wrap rbind]. rewrite (query_by_parent d t parent Hcat). cbn [wrap rbind].
  rewrite Hdef. reflexivity.
Qed.

Lemma collect_entries d t (mds acc : list sqlite.Metadata) :
  spec.catalog d t ->
  Z.of_nat (length (t_rows t)) + 2 <= MaxInt64 ->
  sqlite.collect d (map row_of mds) acc =
  Ok (acc ++ map (fun md => sqlite.set_NLink md (derived_nlink t md)) mds)%list.
Proof.
  intros Hcat Hsize. revert acc.
  induction mds as [|md mds IH]; intros acc; cbn [map sqlite.collect].
  - rewrite app_nil_r. reflexivity.
  - rewrite parseRow_row_of. cbn [rbind].
    rewrite (fillNLink_on_catalog d t _ Hcat Hsize). cbn [wrap rbind].
    rewrite IH, <- app_assoc. reflexivity.
Qed.

Lemma filter_parent_entries (mds : list sqlite.Metadata) (parent : Z) :
  List.filter (fun r => bool_decide (row_get sqlite.files r "parent" = VInt parent))
              (map row_of mds) =
  map row_of (List.filter (fun md => bool_decide (sqlite.Parent md = parent)) mds).
Proof.
  induction mds as [|md mds IH]; [reflexivity|]. cbn [map List.filter].
  change (row_get sqlite.files (row_of md) "parent") with (VInt (sqlite.Parent md)).
  rewrite (bool_decide_ext (VInt (sqlite.Parent md) = VInt parent) (sqlite.Parent md = parent))
    by (split; congruence).
  rewrite IH. destruct (bool_decide _); reflexivity.
Qed.

(** X12.  [GetChildren] of an inode that no row names as its parent returns
    the empty list and no error, whether or not a row with that inode
    exists: a missing directory and an empty one look the same. *)
Theorem GetChildren_of_childless (d : database) (t : table) (parent : Z) :
  spec.catalog d t ->
  (forall r, In r (t_rows t) -> row_get sqlite.files r "parent" <> VInt parent) ->
  sqlite.GetChildren parent d = Ok [].
Proof.
  intros Hcat Hnone. rewrite (GetChildren_on_catalog d t parent Hcat).
  replace (List.filter _ (t_rows t)) with (@nil row); [reflexivity|].
  symmetry. apply filter_nil_iff. intros r Hin.
  apply bool_decide_eq_false_2. exact (Hnone r Hin).
Qed.

(** X13.  On a catalog whose rows hold the entries [mds], [GetChildren]
    returns exactly the entries whose parent is the given inode, in table
    order, each with its derived link count. *)
Theorem GetChildren_lists_the_children (d : database) (t : table)
        (mds : list sqlite.Metadata) (parent : Z) :
  spec.catalog d t ->
  t_rows t = map row_of mds ->
  Z.of_nat (length (t_rows t)) + 2 <= MaxInt64 ->
  sqlite.GetChildren parent d =
  Ok (map (fun md => sqlite.set_NLink md (derived_nlink t md))
          (List.filter (fun md => bool_decide (sqlite.Parent md = parent)) mds)).
Proof.
  intros Hcat Hrows Hsize. rewrite (GetChildren_on_catalog d t parent Hcat), Hrows.
  rewrite filter_parent_entries.
  rewrite (collect_entries d t _ [] Hcat Hsize). reflexivity.
Qed.

End Children.

Lemma GetChildren_of_childless_witness :
  spec.catalog docs_catalog docs_table /\
  @sqlite.GetChildren gosql.decimal_engine codes01 2 docs_catalog = Ok [] /\
  @sqlite.GetChildren gosql.decimal_engine codes01 77 docs_catalog = Ok [].
Proof.
  assert (Hcat : spec.catalog docs_catalog docs_table) by (split; reflexivity).
  split; [exact Hcat|].
  split; apply (@GetChildren_of_childless gosql.decimal_engine codes01
                  docs_catalog docs_table _ Hcat);
    intros r Hin;
    repeat (destruct Hin as [<-|Hin]; [vm_compute; discriminate|]); destruct Hin.
Defined.

Lemma GetChildren_lists_the_children_witness :
  spec.catalog file_catalog file_table /\
  exists mds, sql.t_rows file_table = map row_of mds /\
    @sqlite.GetChildren gosql.decimal_engine codes01 2 file_catalog = Ok [file_entry].
Proof.
  assert (Hcat : spec.catalog file_catalog file_table) by (split; reflexivity).
  split; [exact Hcat|].
  pose (mds := [ {| sqlite.Inode := 1; sqlite.Name := EmptyString; sqlite.URL := EmptyString;
                    sqlite.Size := 0; sqlite.Mode := 493; sqlite.Parent := 0;
                    sqlite.Type_ := 1; sqlite.Hash := EmptyString; sqlite.NLink := 0 |};
                 {| sqlite.Inode := 2; sqlite.Name := "docs"; sqlite.URL := EmptyString;
                    sqlite.Size := 0; sqlite.Mode := 493; sqlite.Parent := 1;
                    sqlite.Type_ := 1; sqlite.Hash := EmptyString; sqlite.NLink := 0 |};
                 file_entry ]).
  assert (Hrows : sql.t_rows file_table = map row_of mds) by reflexivity.
  exists mds. split; [exact Hrows|].
  refine (@GetChildren_lists_the_children gosql.decimal_engine codes01
            file_catalog file_table mds 2 Hcat Hrows _).
  vm_compute. discriminate.
Defined.

(** ** Link counts of the entries [Get] and [GetChildren] return *)

Section LinkCounts.
Context `{sql.Engine} `{TypeCodes}.
Import sql gosql.

(** C3.  On a catalog, [Get] and [GetChildren] return their entries with
    the derived link count.  [Get] of an inode whose first row holds an
    entry returns that entry with link count 1 when its type is FILE and
    otherwise 2 plus the number of rows whose parent is its inode and whose
    type is FOLDER; on a catalog whose rows hold entries, [GetChildren]
    returns the entries under the given parent, in table order, each with
    the link count derived in the same way; and whatever [Get] or
    [GetChildren] returns has link count 1 if it is a FILE and 2 plus the
    number of its child folders if it is a FOLDER.  A directory returned by
    [AddDirectory] has link count 2, and on a catalog where the name is free
    under the parent and inodes are left [AddDirectory] does return the new
    directory.  (The row count is below the range of Go's [int], as for
    every table the engine can hold.) *)
Theorem nlink_derivation (d : database) (t : table) :
  spec.catalog d t ->
  DrvFile <> DrvFolder ->
  Z.of_nat (length (t_rows t)) + 2 <= MaxInt64 ->
  (forall inode md, sqlite.Get inode d = Ok md -> nlink_derived t md) /\
  (forall inode entry rest,
     spec.rows_with_inode inode t = row_of entry :: rest ->
     sqlite.Get inode d =
     Ok (sqlite.set_NLink entry
           (if bool_decide (sqlite.Type_ entry = DrvFile) then 1
            else 2 + spec.children_of_type (sqlite.Inode entry) DrvFolder t))) /\
  (forall parent mds md,
     sqlite.GetChildren parent d = Ok mds -> In md mds -> nlink_derived t md) /\
  (forall parent entries,
     t_rows t = map row_of entries ->
     sqlite.GetChildren parent d =
     Ok (map (fun entry =>
                sqlite.set_NLink entry
                  (if bool_decide (sqlite.Type_ entry = DrvFile) then 1
                   else 2 + spec.children_of_type (sqlite.Inode entry) DrvFolder t))
             (List.filter (fun entry => bool_decide (sqlite.Parent entry = parent))
                          entries))) /\
  (forall parent name mode md d',
     sqlite.AddDirectory parent name mode d = (Ok md, d') -> sqlite.NLink md = 2) /\
  (forall parent name mode,
     spec.canonical_rows parent name t = [] ->
     Z.max (t_seq t) (max_rowid t) <> MaxInt64 ->
     exists md d', sqlite.AddDirectory parent name mode d = (Ok md, d') /\
                   sqlite.Name md = name /\ sqlite.Parent md = parent /\
                   sqlite.Type_ md = DrvFolder /\ sqlite.NLink md = 2).
Proof.
  intros Hcat Hcodes Hsize. split; [|split; [|split; [|split; [|split]]]].
  - intros inode md Hget. rewrite (Get_on_catalog d t inode Hcat) in Hget.
    destruct (spec.rows_with_inode inode t) as [|r rows]; [discriminate|].
    destruct (sqlite.parseRow r) as [md0|e]; cbn [rbind] in Hget; [|discriminate].
    destruct (sqlite.fillNLink md0 d) as [md1|e] eqn:Hfill; cbn [wrap] in Hget;
      [|discriminate].
    injection Hget as <-.
    exact (fillNLink_derived d t md0 md1 Hcat Hcodes Hsize Hfill).
  - intros inode entry rest Hrows.
    rewrite (Get_derives d t inode Hcat Hsize), Hrows, parseRow_row_of. reflexivity.
  - intros parent mds md Hrun Hin. unfold sqlite.GetChildren in Hrun.
    rewrite (catalog_prepare d t) in Hrun by (cbn; tauto || exact Hcat).
    cbn [wrap rbind] in Hrun. rewrite (query_by_parent d t parent Hcat) in Hrun.
    cbn [wrap rbind] in Hrun.
    pose proof (collect_derived d t Hcat Hcodes Hsize _ _ _ Hrun (List.Forall_nil _)) as Hall.
    rewrite List.Forall_forall in Hall. apply Hall. exact Hin.
  - intros parent entries Hrows.
    rewrite (GetChildren_on_catalog d t parent Hcat), Hrows.
    rewrite filter_parent_entries.
    rewrite (collect_entries d t _ [] Hcat Hsize). reflexivity.
  - intros parent name mode md d'. apply AddDirectory_nlink.
  - intros parent name mode Hfree Hm.
    destruct (AddDirectory_creates d t parent name mode Hcat Hfree Hm) as [d' Hrun].
    eexists _, d'. split; [exact Hrun|]. cbn. auto.
Qed.

End LinkCounts.

Lemma nlink_derivation_witness :
  spec.catalog file_catalog file_table /\
  @sqlite.Get gosql.decimal_engine codes01 1 file_catalog = Ok (sqlite.set_NLink root_entry 3) /\
  @sqlite.Get gosql.decimal_engine codes01 3 file_catalog = Ok (sqlite.set_NLink file_entry 1) /\
  @sqlite.GetChildren gosql.decimal_engine codes01 1 file_catalog =
    Ok [sqlite.set_NLink docs_entry 2] /\
  @sqlite.GetChildren gosql.decimal_engine codes01 2 file_catalog =
    Ok [sqlite.set_NLink file_entry 1] /\
  (exists md d', @sqlite.AddDirectory gosql.decimal_engine codes01 2 "music" 493 file_catalog
                 = (Ok md, d') /\ sqlite.NLink md = 2).
Proof.
  assert (Hcat : spec.catalog file_catalog file_table) by (split; reflexivity).
  assert (Hcodes : @DrvFile codes01 <> @DrvFolder codes01) by discriminate.
  assert (Hsize : Z.of_nat (length (sql.t_rows file_table)) + 2 <= MaxInt64)
    by (vm_compute; discriminate).
  assert (Hrows : sql.t_rows file_table = map row_of [root_entry; docs_entry; file_entry])
    by reflexivity.
  destruct (@nlink_derivation gosql.decimal_engine codes01 file_catalog file_table
              Hcat Hcodes Hsize) as (_ & Hget & _ & Hchildren & Hadd & _).
  split; [exact Hcat|]. split; [|split; [|split; [|split]]].
  - exact (Hget 1 root_entry [] eq_refl).
  - exact (Hget 3 file_entry [] eq_refl).
  - exact (Hchildren 1 _ Hrows).
  - exact (Hchildren 2 _ Hrows).
  - eexists _, _. split; [vm_compute; reflexivity|].
    eapply (Hadd 2 "music" 493). vm_compute. reflexivity.
Defined.

(** ** [InitDB] on an initialised database *)

Section InitAgain.
Context `{sql.Engine} `{TypeCodes}.
Import sql gosql.

(** X14.  [InitDB] on a database that already has a [files] table fails at
    its first statement and leaves the database exactly as it was: the rows
    are kept and no second root is inserted. *)
Theorem InitDB_refuses_existing_table (d : database) (t : table) :
  find_table "files" d = Some t ->
  sqlite.InitDB d =
  (Some (Errorf "error in query: " (ErrText "table files already exists")), d).
Proof.
  intros Hfind. unfold sqlite.InitDB, sqlite.tableSchemas. cbn [sqlite.init_loop].
  unfold Prepare. cbn [compile]. change (tbl_name sqlite.files) with "files".
  rewrite Hfind. reflexivity.
Qed.

End InitAgain.

Lemma InitDB_refuses_existing_table_witness :
  sql.find_table "files" docs_catalog = Some docs_table /\
  fst (@sqlite.InitDB gosql.decimal_engine codes01 docs_catalog) =
    Some (Errorf "error in query: " (ErrText "table files already exists")) /\
  snd (@sqlite.InitDB gosql.decimal_engine codes01 docs_catalog) = docs_catalog.
Proof.
  split; [reflexivity|].
  rewrite (@InitDB_refuses_existing_table gosql.decimal_engine codes01
             docs_catalog docs_table eq_refl).
  split; reflexivity.
Defined.

(** ** [Delete] *)

Section Deleting.
Context `{sql.Engine} `{TypeCodes}.
Import sql gosql.

Lemma replace_table_same name t d :
  find_table name d = Some t -> replace_table t d = d.
Proof.
  unfold find_table. induction d as [|t0 d IH]; [discriminate|].
  cbn [List.find replace_table].
  destruct (bool_decide (tbl_name (t_def t0) = name)) eqn:Hname.
  - intros Ht. injection Ht as ->. rewrite bool_decide_eq_true_2 by reflexivity. reflexivity.
  - intros Hfind. apply bool_decide_eq_false_1 in Hname.
    assert (Hin : tbl_name (t_def t) = name).
    { apply find_some in Hfind. destruct Hfind as [_ Hb].
      apply bool_decide_eq_true_1 in Hb. exact Hb. }
    rewrite bool_decide_eq_false_2 by congruence. rewrite (IH Hfind). reflexivity.
Qed.

Lemma PrepareChange_on_catalog d t (c : sqlw.change) :
  spec.catalog d t ->
  In c [sqlite.delete_by_inode; sqlite.update_by_inode] ->
  sqlw.PrepareChange d c = Ok c.
Proof.
  intros [Hfind Hdef] Hin.
  repeat (destruct Hin as [<-|Hin]); try contradiction;
    unfold sqlw.PrepareChange, sqlw.compile_change;
    cbv beta iota zeta delta [sqlite.delete_by_inode sqlite.update_by_inode];
    rewrite Hfind; cbv beta iota; rewrite Hdef; reflexivity.
Qed.

Lemma filter_all_true_on {A} (f : A -> bool) (l : list A) :
  (forall a, In a l -> f a = true) -> List.filter f l = l.
Proof.
  induction l as [|a l IH]; intros Hf; [reflexivity|].
  cbn [List.filter]. rewrite (Hf a (or_introl eq_refl)), IH; [reflexivity|].
  intros b Hb. apply Hf. right. exact Hb.
Qed.

Lemma Delete_on_catalog d t inode :
  spec.catalog d t ->
  sqlite.Delete inode d = (None, replace_table (without_inode inode t) d).
Proof.
  intros Hcat. pose proof Hcat as [Hfind Hdef]. unfold sqlite.Delete.
  rewrite (PrepareChange_on_catalog d t) by (cbn; tauto || exact Hcat). cbn [wrap].
  unfold sqlw.ExecChange.
  change (sqlw.checked_count _ _) with (Ok (A:=list value) [VInt inode]).
  cbn [rbind sqlw.run_change sqlite.delete_by_inode]. rewrite Hfind. cbn [wrap].
  do 2 f_equal.
  unfold sqlw.delete_where, without_inode. f_equal. rewrite Hdef.
  apply filter_ext_all. intros r. unfold row_matches. cbn.
  rewrite sql_eq_int, andb_true_r. reflexivity.
Qed.

Lemma catalog_without_inode d t inode :
  spec.catalog d t ->
  spec.catalog (replace_table (without_inode inode t) d) (without_inode inode t).
Proof.
  intros [Hfind Hdef]. split; [|exact Hdef].
  apply (find_replace_table "files" t _ d Hfind). cbn [t_def without_inode].
  rewrite Hdef. reflexivity.
Qed.

Lemma filter_filter_head {A} (f g : A -> bool) (l : list A) (a : A) (rest : list A) :
  List.filter f l = a :: rest -> g a = true ->
  exists rest', List.filter f (List.filter g l) = a :: rest'.
Proof.
  induction l as [|b l IH]; cbn [List.filter]; [discriminate|].
  destruct (f b) eqn:Hfb.
  - intros Heq Hga. injection Heq as -> _. rewrite Hga. cbn [List.filter].
    rewrite Hfb. eauto.
  - intros Heq Hga. destruct (g b); cbn [List.filter]; rewrite ?Hfb; exact (IH Heq Hga).
Qed.

Lemma max_rowid_filter def rows seq (g : row -> bool) :
  max_rowid {| t_def := def; t_rows := List.filter g rows; t_seq := seq |} <=
  max_rowid {| t_def := def; t_rows := rows; t_seq := seq |}.
Proof.
  unfold max_rowid. cbn [t_def t_rows].
  induction rows as [|r rows IH]; cbn [List.filter fold_right]; [lia|].
  destruct (g r); cbn [fold_right]; destruct (rowid_of def r); lia.
Qed.

Lemma max_rowid_without_inode inode t :
  max_rowid (without_inode inode t) <= max_rowid t.
Proof. destruct t as [def rows seq]. apply max_rowid_filter. Qed.

(** X15.  [Delete] never fails on a catalog and never answers NOT_FOUND:
    it removes the rows with the given inode and keeps every other row and
    the sequence entry; afterwards [Get] on the inode answers NOT_FOUND;
    and deleting an inode that no row has leaves the catalog as it was. *)
Theorem Delete_removes_the_inode (d : database) (t : table) (inode : Z) :
  spec.catalog d t ->
  exists d' t',
    sqlite.Delete inode d = (None, d') /\
    spec.catalog d' t' /\
    t_rows t' = List.filter (fun r => negb (bool_decide
                               (row_get sqlite.files r "inode" = VInt inode))) (t_rows t) /\
    t_seq t' = t_seq t /\
    sqlite.Get inode d' = Err ErrNotFound /\
    ((forall r, In r (t_rows t) -> row_get sqlite.files r "inode" <> VInt inode) -> d' = d).
Proof.
  intros Hcat. pose proof Hcat as [Hfind Hdef].
  exists (replace_table (without_inode inode t) d), (without_inode inode t).
  pose proof (catalog_without_inode d t inode Hcat) as Hcat'.
  split; [apply Delete_on_catalog; exact Hcat|]. split; [exact Hcat'|].
  split; [reflexivity|]. split; [reflexivity|]. split.
  - rewrite (Get_on_catalog _ _ inode Hcat').
    replace (spec.rows_with_inode inode (without_inode inode t)) with (@nil row);
      [reflexivity|].
    symmetry. apply filter_nil_iff. intros r Hin. cbn [t_def t_rows without_inode] in *.
    apply filter_In in Hin. destruct Hin as [_ Hkeep]. rewrite Hdef.
    apply negb_true_iff in Hkeep. exact Hkeep.
  - intros Hnone.
    assert (Hsame : without_inode inode t = t).
    { destruct t as [def rows seq]. unfold without_inode. cbn [t_def t_rows t_seq] in *.
      f_equal. apply filter_all_true_on. intros r Hin.
      apply negb_true_iff. apply bool_decide_eq_false_2. exact (Hnone r Hin). }
    rewrite Hsame. apply (replace_table_same "files"). exact Hfind.
Qed.

(** X16.  [Delete] does not cascade: an entry that [Search] found under a
    directory before the directory's row was deleted is still found, under
    the same parent inode, afterwards. *)
Theorem Delete_keeps_the_children (d d' : database) (t : table) (inode : Z)
        (name : string) (md : sqlite.Metadata) :
  spec.catalog d t ->
  sqlite.Delete inode d = (None, d') ->
  sqlite.Search inode name d = Ok md ->
  sqlite.Inode md <> inode ->
  sqlite.Search inode name d' = Ok md.
Proof.
  intros Hcat Hdel Hs Hother. pose proof Hcat as [_ Hdef].
  rewrite (Delete_on_catalog d t inode Hcat) in Hdel. injection Hdel as <-.
  rewrite (Search_on_catalog d t inode name Hcat) in Hs.
  rewrite (Search_on_catalog _ _ inode name (catalog_without_inode d t inode Hcat)).
  destruct (spec.canonical_rows inode name t) as [|r rest] eqn:Hrows; [discriminate|].
  assert (Hkeep : negb (bool_decide (inode_of r = VInt inode)) = true).
  { apply negb_true_iff. apply bool_decide_eq_false_2. intros Hi.
    destruct (scan8_fields r md (parseRow_fields r md Hs)) as (Hinode & _).
    unfold inode_of in Hi. rewrite Hi in Hinode. cbn in Hinode. congruence. }
  unfold spec.canonical_rows in *. cbn [t_def t_rows without_inode].
  destruct (filter_filter_head _ (fun r => negb (bool_decide (inode_of r = VInt inode)))
              _ _ _ Hrows Hkeep) as [rest' ->]. exact Hs.
Qed.

(** X17.  Inodes are not reused after a deletion: on a catalog whose
    sequence entry is at least every inode in use, a directory created after
    [Delete] gets the inode after the sequence entry, which is larger than
    every inode the table held before the deletion, the deleted one
    included. *)
Theorem inode_not_reused_after_Delete (d d1 d2 : database) (t : table) (inode : Z)
        (parent : Z) (name : string) (mode : Z) (md : sqlite.Metadata) :
  spec.catalog d t ->
  max_rowid t <= t_seq t ->
  sqlite.Delete inode d = (None, d1) ->
  sqlite.AddDirectory parent name mode d1 = (Ok md, d2) ->
  sqlite.Inode md = t_seq t + 1 /\
  (forall r z, In r (t_rows t) -> row_get sqlite.files r "inode" = VInt z ->
               z < sqlite.Inode md).
Proof.
  intros Hcat Hseq Hdel Hadd. pose proof Hcat as [_ Hdef].
  rewrite (Delete_on_catalog d t inode Hcat) in Hdel. injection Hdel as <-.
  destruct (AddDirectory_Ok_inv _ _ parent name mode md d2
              (catalog_without_inode d t inode Hcat) Hadd) as (Hmd & _).
  assert (Hinode : sqlite.Inode md = t_seq t + 1).
  { rewrite Hmd. unfold new_entry, next_inode. cbn [sqlite.Inode t_seq without_inode].
    pose proof (max_rowid_without_inode inode t). lia. }
  split; [exact Hinode|].
  intros r z Hin Hid. rewrite Hinode.
  assert (Hid' : rowid_of (t_def t) r = VInt z) by (rewrite Hdef; exact Hid).
  pose proof (max_rowid_ge t r z Hin Hid'). lia.
Qed.

End Deleting.

Lemma Delete_removes_the_inode_witness :
  spec.catalog docs_catalog docs_table /\
  exists d', @sqlite.Delete gosql.decimal_engine 2 docs_catalog = (None, d') /\
             @sqlite.Get gosql.decimal_engine codes01 2 d' = Err ErrNotFound.
Proof.
  assert (Hcat : spec.catalog docs_catalog docs_table) by (split; reflexivity).
  split; [exact Hcat|].
  destruct (@Delete_removes_the_inode gosql.decimal_engine codes01 docs_catalog docs_table 2 Hcat)
    as (d' & t' & Hdel & _ & _ & _ & Hget & _).
  exists d'. split; assumption.
Defined.

Lemma Delete_keeps_the_children_witness :
  spec.catalog file_catalog file_table /\
  exists d' md,
    @sqlite.Delete gosql.decimal_engine 2 file_catalog = (None, d') /\
    @sqlite.Search gosql.decimal_engine 2 "a.txt" file_catalog = Ok md /\
    sqlite.Inode md = 3 /\
    @sqlite.Search gosql.decimal_engine 2 "a.txt" d' = Ok md.
Proof.
  assert (Hcat : spec.catalog file_catalog file_table) by (split; reflexivity).
  split; [exact Hcat|]. eexists _, _.
  split; [vm_compute; reflexivity|]. split; [vm_compute; reflexivity|].
  split; [reflexivity|].
  refine (@Delete_keeps_the_children gosql.decimal_engine file_catalog _ file_table
            2 "a.txt" _ Hcat eq_refl eq_refl _).
  vm_compute. discriminate.
Defined.

Lemma inode_not_reused_after_Delete_witness :
  spec.catalog docs_catalog docs_table /\
  sql.max_rowid docs_table <= sql.t_seq docs_table /\
  exists d1 md d2,
    @sqlite.Delete gosql.decimal_engine 2 docs_catalog = (None, d1) /\
    @sqlite.AddDirectory gosql.decimal_engine codes01 1 "docs" 493 d1 = (Ok md, d2) /\
    sqlite.Inode md = 3.
Proof.
  assert (Hcat : spec.catalog docs_catalog docs_table) by (split; reflexivity).
  assert (Hseq : sql.max_rowid docs_table <= sql.t_seq docs_table)
    by (vm_compute; discriminate).
  split; [exact Hcat|]. split; [exact Hseq|]. eexists _, _, _.
  split; [vm_compute; reflexivity|]. split; [vm_compute; reflexivity|].
  apply (@inode_not_reused_after_Delete gosql.decimal_engine codes01
           docs_catalog _ _ docs_table 2 1 "docs" 493 _ Hcat Hseq eq_refl eq_refl).
Defined.

(** ** [ForceInsert] and [Insert] *)

Section Forcing.
Context `{sql.Engine} `{TypeCodes}.
Import sql gosql.

Lemma unique_violation_entry t md :
  t_def t = sqlite.files ->
  unique_violation t (row_of md) =
  match spec.canonical_rows (sqlite.Parent md) (sqlite.Name md) t with
  | [] => None
  | _ => Some ["name"; "parent"]
  end.
Proof.
  intros Hdef.
  destruct (spec.canonical_rows (sqlite.Parent md) (sqlite.Name md) t) as [|r' rest] eqn:Hrows.
  - apply (no_unique_violation t (sqlite.Inode md) (sqlite.Name md) (sqlite.URL md)
             (sqlite.Size md) (sqlite.Mode md) (sqlite.Parent md) (sqlite.Type_ md)
             (sqlite.Hash md) Hdef Hrows).
  - unfold unique_violation. rewrite Hdef. cbn [tbl_unique sqlite.files List.find].
    apply filter_In_head in Hrows. destruct Hrows as [Hin Hmatch].
    apply andb_true_iff in Hmatch. destruct Hmatch as [Hn Hp].
    apply bool_decide_eq_true_1 in Hn. apply bool_decide_eq_true_1 in Hp.
    rewrite Hdef in Hn, Hp.
    replace (existsb _ (t_rows t)) with true; [reflexivity|].
    symmetry. apply existsb_exists. exists r'. split; [exact Hin|].
    unfold same_on. cbn [forallb]. rewrite Hn, Hp.
    change (row_get sqlite.files (row_of md) "name") with (VText (sqlite.Name md)).
    change (row_get sqlite.files (row_of md) "parent") with (VInt (sqlite.Parent md)).
    cbv iota beta. rewrite !bool_decide_eq_true_2 by reflexivity. reflexivity.
Qed.

Lemma insert_given_entry t md :
  t_def t = sqlite.files ->
  insert_given t (row_of md) =
  if existsb (fun r' => bool_decide (inode_of r' = VInt (sqlite.Inode md))) (t_rows t)
  then Err (ErrText "UNIQUE constraint failed: files.inode")
  else match spec.canonical_rows (sqlite.Parent md) (sqlite.Name md) t with
       | [] => Ok (with_row_at t md)
       | _ => Err (ErrText "UNIQUE constraint failed: files.name, files.parent")
       end.
Proof.
  intros Hdef. unfold insert_given. rewrite Hdef. cbv zeta.
  change (rowid_of sqlite.files (row_of md)) with (VInt (sqlite.Inode md)).
  cbn [rbind].
  change (map _ (combine (tbl_columns sqlite.files) (row_of md))) with (row_of md).
  change (not_null_violation sqlite.files (row_of md)) with (@None string).
  change (existsb (fun r' => bool_decide (rowid_of sqlite.files r' = VInt (sqlite.Inode md)))
                  (t_rows t))
    with (existsb (fun r' => bool_decide (inode_of r' = VInt (sqlite.Inode md))) (t_rows t)).
  destruct (existsb _ (t_rows t)); [reflexivity|].
  rewrite (unique_violation_entry t md Hdef).
  destruct (spec.canonical_rows _ _ t); reflexivity.
Qed.

Lemma ForceInsert_on_catalog d t md :
  spec.catalog d t ->
  sqlite.ForceInsert md d =
  if existsb (fun r' => bool_decide (inode_of r' = VInt (sqlite.Inode md))) (t_rows t)
  then (Some (Errorf "couldn't insert file: "
                (ErrText "UNIQUE constraint failed: files.inode")), d)
  else match spec.canonical_rows (sqlite.Parent md) (sqlite.Name md) t with
       | [] => (None, replace_table (with_row_at t md) d)
       | _ => (Some (Errorf "couldn't insert file: "
                       (ErrText "UNIQUE constraint failed: files.name, files.parent")), d)
       end.
Proof.
  intros Hcat. pose proof Hcat as [Hfind Hdef]. unfold sqlite.ForceInsert.
  rewrite (catalog_prepare_more d t) by (cbn; tauto || exact Hcat). cbn [wrap].
  unfold Exec.
  change (checked_args _ _)
    with (Ok (A:=list value) (row_of md)).
  cbn [rbind run_exec sqlite.insert_with_inode]. rewrite Hfind.
  unfold insert_row. rewrite Hdef.
  change (map _ (tbl_columns sqlite.files)) with (row_of md).
  rewrite (insert_given_entry t md Hdef).
  destruct (existsb _ (t_rows t)); [reflexivity|].
  destruct (spec.canonical_rows _ _ t); reflexivity.
Qed.

Lemma catalog_with_row_at d t md :
  spec.catalog d t -> spec.catalog (replace_table (with_row_at t md) d) (with_row_at t md).
Proof.
  intros [Hfind Hdef]. split; [|reflexivity].
  apply (find_replace_table "files" t _ d Hfind). reflexivity.
Qed.

(** X18.  [ForceInsert] of an entry whose inode a row already has fails with
    the primary-key error and leaves the catalog as it was. *)
Theorem ForceInsert_refuses_used_inode (d : database) (t : table)
        (md : sqlite.Metadata) (r : row) :
  spec.catalog d t ->
  In r (t_rows t) ->
  row_get sqlite.files r "inode" = VInt (sqlite.Inode md) ->
  sqlite.ForceInsert md d =
  (Some (Errorf "couldn't insert file: "
           (ErrText "UNIQUE constraint failed: files.inode")), d).
Proof.
  intros Hcat Hin Hi. rewrite (ForceInsert_on_catalog d t md Hcat).
  replace (existsb _ (t_rows t)) with true; [reflexivity|].
  symmetry. apply existsb_exists. exists r. split; [exact Hin|].
  apply bool_decide_eq_true_2. exact Hi.
Qed.

(** X19.  [ForceInsert] of an entry whose inode is unused and whose name is
    free under its parent stores the entry under the inode it carries:
    [Search] by its parent and name returns it (with link count 0), and a
    directory created afterwards gets a larger inode. *)
Theorem ForceInsert_keeps_the_inode (d : database) (t : table) (md : sqlite.Metadata) :
  spec.catalog d t ->
  (forall r, In r (t_rows t) -> row_get sqlite.files r "inode" <> VInt (sqlite.Inode md)) ->
  spec.canonical_rows (sqlite.Parent md) (sqlite.Name md) t = [] ->
  exists d',
    sqlite.ForceInsert md d = (None, d') /\
    sqlite.Search (sqlite.Parent md) (sqlite.Name md) d' = Ok (sqlite.set_NLink md 0) /\
    (forall parent name mode mdn d'',
       sqlite.AddDirectory parent name mode d' = (Ok mdn, d'') ->
       sqlite.Inode md < sqlite.Inode mdn).
Proof.
  intros Hcat Hunused Hfree. pose proof Hcat as [_ Hdef].
  exists (replace_table (with_row_at t md) d).
  pose proof (catalog_with_row_at d t md Hcat) as Hcat'.
  split; [|split].
  - rewrite (ForceInsert_on_catalog d t md Hcat), Hfree.
    replace (existsb _ (t_rows t)) with false; [reflexivity|].
    symmetry. apply not_true_is_false. intros Hex.
    apply existsb_exists in Hex. destruct Hex as (r & Hin & Hi).
    apply bool_decide_eq_true_1 in Hi. exact (Hunused r Hin Hi).
  - rewrite (Search_on_catalog _ _ _ _ Hcat').
    unfold spec.canonical_rows. cbn [t_def t_rows with_row_at].
    rewrite filter_insert_by_rowid.
    + reflexivity.
    + unfold spec.canonical_rows in Hfree. rewrite Hdef in Hfree. exact Hfree.
    + change (row_get sqlite.files (row_of md) "name") with (VText (sqlite.Name md)).
      change (row_get sqlite.files (row_of md) "parent") with (VInt (sqlite.Parent md)).
      rewrite !bool_decide_eq_true_2 by reflexivity. reflexivity.
  - intros parent name mode mdn d'' Hadd.
    destruct (AddDirectory_Ok_inv _ _ parent name mode mdn d'' Hcat' Hadd) as (Hmdn & _).
    rewrite Hmdn. unfold new_entry, next_inode. cbn [sqlite.Inode t_seq with_row_at]. lia.
Qed.

(** X20.  [Insert] does not keep the inode of the entry it is given: on
    success the entry is stored under the next inode of the sequence, and
    [Search] by its parent and name returns it under that inode, with link
    count 0. *)
Theorem Insert_assigns_the_next_inode (d d' : database) (t : table)
        (md : sqlite.Metadata) :
  spec.catalog d t ->
  sqlite.Insert md d = (None, d') ->
  sqlite.Search (sqlite.Parent md) (sqlite.Name md) d' =
    Ok (sqlite.set_NLink (set_Inode md (next_inode t)) 0) /\
  t_seq t < next_inode t /\
  (forall r z, In r (t_rows t) -> row_get sqlite.files r "inode" = VInt z ->
               z < next_inode t).
Proof.
  intros Hcat Hrun. pose proof Hcat as [_ Hdef].
  rewrite (Insert_on_catalog d t md Hcat) in Hrun.
  destruct (bool_decide (Z.max (t_seq t) (max_rowid t) = MaxInt64)); [discriminate|].
  destruct (spec.canonical_rows (sqlite.Parent md) (sqlite.Name md) t) eqn:Hfree;
    [|discriminate].
  injection Hrun as <-. split; [|split].
  - set (mdn := new_entry t (sqlite.Name md) (sqlite.URL md) (sqlite.Size md)
                  (sqlite.Mode md) (sqlite.Parent md) (sqlite.Type_ md) (sqlite.Hash md) 0).
    change (sqlite.Parent md) with (sqlite.Parent mdn).
    change (sqlite.Name md) with (sqlite.Name mdn).
    rewrite (Search_finds_new_row d t mdn Hcat Hfree). reflexivity.
  - unfold next_inode. lia.
  - intros r z Hin Hid. apply (rows_below_next t r z Hin). rewrite Hdef. exact Hid.
Qed.

End Forcing.

Lemma ForceInsert_refuses_used_inode_witness :
  spec.catalog docs_catalog docs_table /\
  @sqlite.ForceInsert gosql.decimal_engine (set_Inode file_entry 2) docs_catalog =
  (Some (Errorf "couldn't insert file: " (ErrText "UNIQUE constraint failed: files.inode")),
   docs_catalog).
Proof.
  assert (Hcat : spec.catalog docs_catalog docs_table) by (split; reflexivity).
  split; [exact Hcat|].
  apply (@ForceInsert_refuses_used_inode gosql.decimal_engine docs_catalog docs_table
           (set_Inode file_entry 2)
           [sql.VInt 2; sql.VText "docs"; sql.VText EmptyString; sql.VInt 0;
            sql.VInt 493; sql.VInt 1; sql.VInt 1; sql.VText EmptyString] Hcat).
  - right. left. reflexivity.
  - reflexivity.
Defined.

Lemma ForceInsert_keeps_the_inode_witness :
  spec.catalog docs_catalog docs_table /\
  exists d',
    @sqlite.ForceInsert gosql.decimal_engine (set_Inode file_entry 9) docs_catalog = (None, d') /\
    @sqlite.Search gosql.decimal_engine 2 "a.txt" d' =
      Ok (sqlite.set_NLink (set_Inode file_entry 9) 0).
Proof.
  assert (Hcat : spec.catalog docs_catalog docs_table) by (split; reflexivity).
  split; [exact Hcat|].
  destruct (@ForceInsert_keeps_the_inode gosql.decimal_engine codes01 docs_catalog docs_table
              (set_Inode file_entry 9) Hcat) as (d' & Hrun & Hs & _).
  - intros r Hin.
    repeat (destruct Hin as [<-|Hin]; [vm_compute; discriminate|]). destruct Hin.
  - reflexivity.
  - exists d'. split; assumption.
Defined.

Lemma Insert_assigns_the_next_inode_witness :
  spec.catalog docs_catalog docs_table /\
  exists d',
    @sqlite.Insert gosql.decimal_engine (set_Inode file_entry 77) docs_catalog = (None, d') /\
    @sqlite.Search gosql.decimal_engine 2 "a.txt" d' = Ok (sqlite.set_NLink file_entry 0).
Proof.
  assert (Hcat : spec.catalog docs_catalog docs_table) by (split; reflexivity).
  split; [exact Hcat|]. eexists. split; [vm_compute; reflexivity|].
  apply (@Insert_assigns_the_next_inode gosql.decimal_engine docs_catalog _ docs_table
           (set_Inode file_entry 77) Hcat eq_refl).
Defined.

(** ** [Update] *)

Section Updating.
Context `{sql.Engine} `{TypeCodes}.
Import sql gosql.

Lemma ExecChange_update d t md :
  spec.catalog d t ->
  sqlw.ExecChange sqlite.update_by_inode
    [AString (sqlite.Name md); AString (sqlite.URL md); AInt (sqlite.Size md);
     AInt (sqlite.Mode md); AInt (sqlite.Parent md); AInt (sqlite.Type_ md);
     AString (sqlite.Hash md); AInt (sqlite.Inode md)] d =
  let* t' := sqlw.update_where t
               [("name", VText (sqlite.Name md)); ("url", VText (sqlite.URL md));
                ("size", VInt (sqlite.Size md)); ("mode", VInt (sqlite.Mode md));
                ("parent", VInt (sqlite.Parent md)); ("type", VInt (sqlite.Type_ md));
                ("hash", VText (sqlite.Hash md))]
               [("inode", VInt (sqlite.Inode md))] in
  Ok (replace_table t' d).
Proof.
  intros [Hfind Hdef]. unfold sqlw.ExecChange.
  change (sqlw.checked_count _ _)
    with (Ok (A:=list value)
            [VText (sqlite.Name md); VText (sqlite.URL md); VInt (sqlite.Size md);
             VInt (sqlite.Mode md); VInt (sqlite.Parent md); VInt (sqlite.Type_ md);
             VText (sqlite.Hash md); VInt (sqlite.Inode md)]).
  cbn [rbind sqlw.run_change sqlite.update_by_inode]. rewrite Hfind. reflexivity.
Qed.

Lemma update_where_inode t sets inode :
  t_def t = sqlite.files ->
  sqlw.update_where t sets [("inode", VInt inode)] =
  sqlw.update_each sets (map inode_of (spec.rows_with_inode inode t)) t.
Proof.
  intros Hdef. unfold sqlw.update_where. f_equal. rewrite Hdef.
  change (rowid_of sqlite.files) with inode_of. f_equal.
  unfold select_where, spec.rows_with_inode. rewrite Hdef.
  apply filter_ext_all. intros r. unfold row_matches. cbn.
  rewrite sql_eq_int, andb_true_r. reflexivity.
Qed.

(** X21.  [Update] of an entry whose inode no row has changes nothing and
    reports success: it does not answer NOT_FOUND. *)
Theorem Update_of_missing_inode (d : database) (t : table) (md : sqlite.Metadata) :
  spec.catalog d t ->
  (forall r, In r (t_rows t) -> row_get sqlite.files r "inode" <> VInt (sqlite.Inode md)) ->
  sqlite.Update md d = (None, d).
Proof.
  intros Hcat Hnone. pose proof Hcat as [Hfind Hdef]. unfold sqlite.Update.
  rewrite (PrepareChange_on_catalog d t) by (cbn; tauto || exact Hcat). cbn [wrap].
  rewrite (ExecChange_update d t md Hcat).
  rewrite (update_where_inode t _ _ Hdef).
  replace (spec.rows_with_inode (sqlite.Inode md) t) with (@nil row).
  - cbn [map sqlw.update_each rbind wrap].
    rewrite (replace_table_same "files" t d Hfind). reflexivity.
  - symmetry. apply filter_nil_iff. intros r Hin. rewrite Hdef.
    apply bool_decide_eq_false_2. exact (Hnone r Hin).
Qed.

Lemma split_rowid_here before r after :
  (forall r', In r' before -> inode_of r' <> inode_of r) ->
  sqlw.split_rowid sqlite.files (inode_of r) (before ++ r :: after) =
  Some (before, r, after).
Proof.
  induction before as [|b before IH]; intros Hb; cbn [app sqlw.split_rowid].
  - change (rowid_of sqlite.files r) with (inode_of r).
    rewrite bool_decide_eq_true_2 by reflexivity. reflexivity.
  - change (rowid_of sqlite.files b) with (inode_of b).
    rewrite bool_decide_eq_false_2 by (apply Hb; left; reflexivity).
    rewrite IH by (intros r' Hin; apply Hb; right; exact Hin). reflexivity.
Qed.

Lemma NoDup_map_middle {A B} (f : A -> B) (before : list A) (x : A) (after : list A) :
  List.NoDup (map f (before ++ x :: after)) ->
  (forall y, In y (before ++ after) -> f y <> f x) /\ List.NoDup (map f (before ++ after)).
Proof.
  rewrite !map_app. cbn [map]. intros Hnd.
  apply List.NoDup_remove in Hnd. destruct Hnd as [Hnd Hnot]. split; [|exact Hnd].
  intros y Hin Heq. apply Hnot. rewrite <- Heq, <- map_app. apply in_map. exact Hin.
Qed.

Lemma rows_with_inode_unique before md after seq :
  List.NoDup (map inode_of (before ++ row_of md :: after)) ->
  spec.rows_with_inode (sqlite.Inode md) (files_table (before ++ row_of md :: after) seq) =
  [row_of md].
Proof.
  intros Hnd. destruct (NoDup_map_middle inode_of _ _ _ Hnd) as [Hother _].
  unfold spec.rows_with_inode. cbn [t_def t_rows files_table].
  rewrite List.filter_app. cbn [List.filter].
  change (row_get sqlite.files (row_of md) "inode") with (VInt (sqlite.Inode md)).
  rewrite bool_decide_eq_true_2 by reflexivity.
  assert (Hnone : forall l, (forall y, In y l -> inode_of y <> inode_of (row_of md)) ->
            List.filter (fun r => bool_decide (row_get sqlite.files r "inode" =
                                               VInt (sqlite.Inode md))) l = []).
  { intros l Hl. apply filter_nil_iff. intros r Hin.
    apply bool_decide_eq_false_2. exact (Hl r Hin). }
  rewrite (Hnone before), (Hnone after); [reflexivity| |];
    intros y Hin; apply Hother; apply in_or_app; auto.
Qed.

(** What [Update] does to the row that has the inode, on a table with
    distinct inodes. *)
Lemma update_where_entry before old after seq md :
  List.NoDup (map inode_of (before ++ row_of old :: after)) ->
  sqlite.Inode old = sqlite.Inode md ->
  sqlw.update_where (files_table (before ++ row_of old :: after) seq)
    [("name", VText (sqlite.Name md)); ("url", VText (sqlite.URL md));
     ("size", VInt (sqlite.Size md)); ("mode", VInt (sqlite.Mode md));
     ("parent", VInt (sqlite.Parent md)); ("type", VInt (sqlite.Type_ md));
     ("hash", VText (sqlite.Hash md))]
    [("inode", VInt (sqlite.Inode md))] =
  match spec.canonical_rows (sqlite.Parent md) (sqlite.Name md)
          (files_table (before ++ after) seq) with
  | [] => Ok (files_table (before ++ row_of md :: after) seq)
  | _ => Err (ErrText "UNIQUE constraint failed: files.name, files.parent")
  end.
Proof.
  intros Hnd Hsame.
  rewrite update_where_inode by reflexivity.
  rewrite <- Hsame, rows_with_inode_unique by exact Hnd.
  cbn [map sqlw.update_each]. unfold sqlw.update_at.
  cbn [t_def t_rows t_seq files_table].
  destruct (NoDup_map_middle inode_of _ _ _ Hnd) as [Hother _].
  rewrite split_rowid_here by (intros r' Hin; apply Hother; apply in_or_app; auto).
  cbv zeta.
  change (sqlw.updated_row sqlite.files _ (row_of old))
    with (row_of (set_Inode md (sqlite.Inode old))).
  assert (Hmd : set_Inode md (sqlite.Inode old) = md)
    by (rewrite Hsame; destruct md; reflexivity).
  rewrite Hmd.
  change (not_null_violation sqlite.files (row_of md)) with (@None string).
  change (rowid_of sqlite.files (row_of md)) with (VInt (sqlite.Inode md)).
  change (rowid_of sqlite.files (row_of old)) with (VInt (sqlite.Inode old)).
  cbv beta iota.
  replace (existsb (fun r' => bool_decide (rowid_of sqlite.files r' = VInt (sqlite.Inode md)))
                   (before ++ after)%list) with false.
  2:{ symmetry. apply not_true_is_false. intros Hex.
      apply existsb_exists in Hex. destruct Hex as (r' & Hin & Hi).
      apply bool_decide_eq_true_1 in Hi.
      apply (Hother r' Hin). rewrite <- Hsame in Hi. exact Hi. }
  rewrite (unique_violation_entry
             {| t_def := sqlite.files; t_rows := (before ++ after)%list; t_seq := seq |}
             md eq_refl).
  change {| t_def := sqlite.files; t_rows := (before ++ after)%list; t_seq := seq |}
    with (files_table (before ++ after) seq).
  destruct (spec.canonical_rows _ _ (files_table (before ++ after) seq)); [|reflexivity].
  cbn [rbind]. rewrite bool_decide_eq_true_2 by (rewrite Hsame; reflexivity).
  reflexivity.
Qed.

End Updating.

Section UpdatingEntries.
Context `{sql.Engine} `{TypeCodes}.
Import sql gosql.

Lemma table_is_files_table t :
  t_def t = sqlite.files -> t = files_table (t_rows t) (t_seq t).
Proof. destruct t as [def rows seq]. cbn. intros ->. reflexivity. Qed.

Lemma Update_on_entry d t before old after md :
  spec.catalog d t ->
  List.NoDup (map inode_of (t_rows t)) ->
  t_rows t = (before ++ row_of old :: after)%list ->
  sqlite.Inode old = sqlite.Inode md ->
  sqlite.Update md d =
  match spec.canonical_rows (sqlite.Parent md) (sqlite.Name md)
          (files_table (before ++ after) (t_seq t)) with
  | [] => (None, replace_table (files_table (before ++ row_of md :: after) (t_seq t)) d)
  | _ => (Some (Errorf "couldn't update file: "
                  (ErrText "UNIQUE constraint failed: files.name, files.parent")), d)
  end.
Proof.
  intros Hcat Hnd Hrows Hsame. pose proof Hcat as [Hfind Hdef]. unfold sqlite.Update.
  rewrite (PrepareChange_on_catalog d t) by (cbn; tauto || exact Hcat). cbn [wrap].
  rewrite (ExecChange_update d t md Hcat).
  rewrite (table_is_files_table t Hdef) at 1. rewrite Hrows in *.
  rewrite (update_where_entry before old after (t_seq t) md Hnd Hsame).
  destruct (spec.canonical_rows _ _ _); reflexivity.
Qed.

Lemma canonical_rows_none rows seq parent name :
  (forall r, In r rows -> key_of r <> (VText name, VInt parent)) ->
  spec.canonical_rows parent name (files_table rows seq) = [].
Proof.
  intros Hnone. apply filter_nil_iff. intros r Hin. cbn [t_def t_rows files_table] in *.
  apply andb_false_iff.
  destruct (decide (row_get sqlite.files r "name" = VText name)) as [Hn|Hn].
  - right. apply bool_decide_eq_false_2. intros Hp.
    apply (Hnone r Hin). unfold key_of. rewrite Hn, Hp. reflexivity.
  - left. apply bool_decide_eq_false_2. exact Hn.
Qed.

Lemma canonical_rows_middle before md after seq parent name :
  (forall r, In r (before ++ after) -> key_of r <> (VText name, VInt parent)) ->
  spec.canonical_rows parent name (files_table (before ++ row_of md :: after) seq) =
  if bool_decide (sqlite.Name md = name) && bool_decide (sqlite.Parent md = parent)
  then [row_of md] else [].
Proof.
  intros Hnone. unfold spec.canonical_rows. cbn [t_def t_rows files_table].
  rewrite List.filter_app. cbn [List.filter].
  pose proof (canonical_rows_none before seq parent name
                (fun r Hin => Hnone r (in_or_app _ _ _ (or_introl Hin)))) as Hb.
  pose proof (canonical_rows_none after seq parent name
                (fun r Hin => Hnone r (in_or_app _ _ _ (or_intror Hin)))) as Ha.
  unfold spec.canonical_rows in Hb, Ha. cbn [t_def t_rows files_table] in Hb, Ha.
  rewrite Hb, Ha.
  change (row_get sqlite.files (row_of md) "name") with (VText (sqlite.Name md)).
  change (row_get sqlite.files (row_of md) "parent") with (VInt (sqlite.Parent md)).
  rewrite (bool_decide_ext (VText (sqlite.Name md) = VText name) (sqlite.Name md = name))
    by (split; congruence).
  rewrite (bool_decide_ext (VInt (sqlite.Parent md) = VInt parent) (sqlite.Parent md = parent))
    by (split; congruence).
  destruct (_ && _); reflexivity.
Qed.

Lemma catalog_files_table d t rows seq :
  spec.catalog d t ->
  spec.catalog (replace_table (files_table rows seq) d) (files_table rows seq).
Proof.
  intros [Hfind Hdef]. split; [|reflexivity].
  apply (find_replace_table "files" t _ d Hfind). reflexivity.
Qed.

(** X22.  [Update] rewrites the row that has the entry's inode: on a
    consistent catalog, when the new name is free under the new parent,
    [Update] succeeds, [Search] by the new parent and name then returns the
    given entry (with link count 0) under the same inode, and, if name or
    parent changed, [Search] by the old parent and name answers NOT_FOUND. *)
Theorem Update_moves_the_entry (d : database) (t : table) (old md : sqlite.Metadata) :
  spec.catalog d t ->
  consistent t ->
  In (row_of old) (t_rows t) ->
  sqlite.Inode old = sqlite.Inode md ->
  (forall r, In r (t_rows t) -> key_of r = (VText (sqlite.Name md), VInt (sqlite.Parent md)) ->
             r = row_of old) ->
  exists d',
    sqlite.Update md d = (None, d') /\
    sqlite.Search (sqlite.Parent md) (sqlite.Name md) d' = Ok (sqlite.set_NLink md 0) /\
    (sqlite.Name old <> sqlite.Name md \/ sqlite.Parent old <> sqlite.Parent md ->
     sqlite.Search (sqlite.Parent old) (sqlite.Name old) d' = Err ErrNotFound).
Proof.
  intros Hcat (Hdef & _ & Hinodes & Hkeys & _) Hin Hsame Hfree.
  apply in_split in Hin. destruct Hin as (before & after & Hrows).
  pose proof Hinodes as Hinodes0.
  rewrite Hrows in Hinodes, Hkeys, Hfree.
  destruct (NoDup_map_middle inode_of _ _ _ Hinodes) as [Hoi _].
  destruct (NoDup_map_middle key_of _ _ _ Hkeys) as [Hok _].
  assert (Hnew : forall r, In r (before ++ after) ->
                           key_of r <> (VText (sqlite.Name md), VInt (sqlite.Parent md))).
  { intros r Hr Hk. apply (Hoi r Hr). f_equal. apply Hfree; [|exact Hk].
    apply in_app_or in Hr. apply in_or_app. destruct Hr; [left|right; right]; assumption. }
  exists (replace_table (files_table (before ++ row_of md :: after) (t_seq t)) d).
  pose proof (catalog_files_table d t (before ++ row_of md :: after) (t_seq t) Hcat) as Hcat'.
  split; [|split].
  - rewrite (Update_on_entry d t before old after md Hcat Hinodes0 Hrows Hsame).
    rewrite (canonical_rows_none _ _ _ _ Hnew). reflexivity.
  - rewrite (Search_on_catalog _ _ _ _ Hcat').
    rewrite (canonical_rows_middle _ _ _ _ _ _ Hnew).
    rewrite !bool_decide_eq_true_2 by reflexivity. reflexivity.
  - intros Hchanged. rewrite (Search_on_catalog _ _ _ _ Hcat').
    rewrite canonical_rows_middle by (intros r Hr; apply (Hok r Hr)).
    replace (bool_decide (sqlite.Name md = sqlite.Name old) &&
             bool_decide (sqlite.Parent md = sqlite.Parent old)) with false; [reflexivity|].
    symmetry. apply andb_false_iff.
    destruct Hchanged as [Hn|Hp]; [left|right]; apply bool_decide_eq_false_2; congruence.
Qed.

(** X23.  [Update] cannot move an entry onto a name that another row already
    has under the same parent: it fails with the UNIQUE error and leaves the
    catalog as it was. *)
Theorem Update_refuses_a_taken_name (d : database) (t : table)
        (old md : sqlite.Metadata) (r : row) :
  spec.catalog d t ->
  consistent t ->
  In (row_of old) (t_rows t) ->
  sqlite.Inode old = sqlite.Inode md ->
  In r (t_rows t) ->
  r <> row_of old ->
  key_of r = (VText (sqlite.Name md), VInt (sqlite.Parent md)) ->
  sqlite.Update md d =
  (Some (Errorf "couldn't update file: "
           (ErrText "UNIQUE constraint failed: files.name, files.parent")), d).
Proof.
  intros Hcat (Hdef & _ & Hinodes & _ & _) Hin Hsame Hr Hne Hkey.
  apply in_split in Hin. destruct Hin as (before & after & Hrows).
  rewrite (Update_on_entry d t before old after md Hcat Hinodes Hrows Hsame).
  assert (Hr' : In r (before ++ after)).
  { rewrite Hrows in Hr. apply in_app_or in Hr. apply in_or_app.
    destruct Hr as [Hr|[Hr|Hr]]; [left; exact Hr|congruence|right; exact Hr]. }
  destruct (spec.canonical_rows _ _ (files_table (before ++ after) (t_seq t)))
    as [|r0 rest] eqn:Hnone; [|reflexivity].
  exfalso. pose proof (proj1 (filter_nil_iff _ _) Hnone r Hr') as Hf.
  cbn [t_def t_rows files_table] in Hf. cbv beta in Hf.
  unfold key_of in Hkey. injection Hkey as Hn Hp. rewrite Hn, Hp in Hf.
  rewrite !bool_decide_eq_true_2 in Hf by reflexivity. discriminate.
Qed.

End UpdatingEntries.

Lemma file_table_rows :
  sql.t_rows file_table =
  [ [sql.VInt 1; sql.VText EmptyString; sql.VText EmptyString; sql.VInt 0;
     sql.VInt 493; sql.VInt 0; sql.VInt 1; sql.VText EmptyString];
    [sql.VInt 2; sql.VText "docs"; sql.VText EmptyString; sql.VInt 0;
     sql.VInt 493; sql.VInt 1; sql.VInt 1; sql.VText EmptyString];
    row_of file_entry ].
Proof. reflexivity. Qed.

Lemma file_table_consistent : consistent file_table.
Proof.
  unfold consistent. rewrite file_table_rows.
  split; [reflexivity|]. split; [|split; [|split]].
  - intros r [<-|[<-|[<-|[]]]].
    + exists {| sqlite.Inode := 1; sqlite.Name := EmptyString; sqlite.URL := EmptyString;
                sqlite.Size := 0; sqlite.Mode := 493; sqlite.Parent := 0;
                sqlite.Type_ := 1; sqlite.Hash := EmptyString; sqlite.NLink := 0 |}.
      reflexivity.
    + exists {| sqlite.Inode := 2; sqlite.Name := "docs"; sqlite.URL := EmptyString;
                sqlite.Size := 0; sqlite.Mode := 493; sqlite.Parent := 1;
                sqlite.Type_ := 1; sqlite.Hash := EmptyString; sqlite.NLink := 0 |}.
      reflexivity.
    + exists file_entry. reflexivity.
  - vm_compute. repeat constructor; cbn; intros Hin;
      repeat (destruct Hin as [Hin|Hin]; [discriminate Hin|]); exact Hin.
  - vm_compute. repeat constructor; cbn; intros Hin;
      repeat (destruct Hin as [Hin|Hin]; [discriminate Hin|]); exact Hin.
  - vm_compute. discriminate.
Qed.

Lemma Update_of_missing_inode_witness :
  spec.catalog docs_catalog docs_table /\
  @sqlite.Update gosql.decimal_engine (set_Inode file_entry 77) docs_catalog =
  (None, docs_catalog).
Proof.
  assert (Hcat : spec.catalog docs_catalog docs_table) by (split; reflexivity).
  split; [exact Hcat|].
  apply (@Update_of_missing_inode gosql.decimal_engine docs_catalog docs_table
           (set_Inode file_entry 77) Hcat).
  intros r Hin. vm_compute in Hin.
  destruct Hin as [<-|[<-|[]]]; vm_compute; discriminate.
Defined.

Lemma Update_moves_the_entry_witness :
  spec.catalog file_catalog file_table /\
  consistent file_table /\
  exists d',
    @sqlite.Update gosql.decimal_engine moved_entry file_catalog = (None, d') /\
    @sqlite.Search gosql.decimal_engine 1 "b.txt" d' = Ok (sqlite.set_NLink moved_entry 0) /\
    @sqlite.Search gosql.decimal_engine 2 "a.txt" d' = Err ErrNotFound.
Proof.
  assert (Hcat : spec.catalog file_catalog file_table) by (split; reflexivity).
  split; [exact Hcat|]. split; [exact file_table_consistent|].
  destruct (@Update_moves_the_entry gosql.decimal_engine file_catalog file_table
              file_entry moved_entry Hcat file_table_consistent)
    as (d' & Hupdate & Hnew & Hold).
  - rewrite file_table_rows. right. right. left. reflexivity.
  - reflexivity.
  - rewrite file_table_rows. intros r [<-|[<-|[<-|[]]]]; vm_compute; intros Hk;
      try discriminate Hk; reflexivity.
  - exists d'. split; [exact Hupdate|]. split; [exact Hnew|].
    apply Hold. left. vm_compute. discriminate.
Defined.

Lemma Update_refuses_a_taken_name_witness :
  spec.catalog file_catalog file_table /\
  consistent file_table /\
  @sqlite.Update gosql.decimal_engine clashing_entry file_catalog =
  (Some (Errorf "couldn't update file: "
           (ErrText "UNIQUE constraint failed: files.name, files.parent")), file_catalog).
Proof.
  assert (Hcat : spec.catalog file_catalog file_table) by (split; reflexivity).
  split; [exact Hcat|]. split; [exact file_table_consistent|].
  apply (@Update_refuses_a_taken_name gosql.decimal_engine file_catalog file_table
           file_entry clashing_entry
           [sql.VInt 2; sql.VText "docs"; sql.VText EmptyString; sql.VInt 0;
            sql.VInt 493; sql.VInt 1; sql.VInt 1; sql.VText EmptyString]
           Hcat file_table_consistent).
  - rewrite file_table_rows. right. right. left. reflexivity.
  - reflexivity.
  - rewrite file_table_rows. right. left. reflexivity.
  - vm_compute. discriminate.
  - reflexivity.
Defined.

(** ** What every call keeps true of the catalog *)

Section Consistency.
Context `{sql.Engine} `{TypeCodes}.
Import sql gosql.

Lemma max_rowid_le def rows seq bound :
  0 <= bound ->
  (forall r z, In r rows -> rowid_of def r = VInt z -> z <= bound) ->
  max_rowid {| t_def := def; t_rows := rows; t_seq := seq |} <= bound.
Proof.
  intros Hpos. unfold max_rowid. cbn [t_def t_rows].
  induction rows as [|r rows IH]; intros Hall; cbn [fold_right]; [exact Hpos|].
  assert (IH' := IH (fun r' z Hin => Hall r' z (or_intror Hin))).
  destruct (rowid_of def r) as [|z|s] eqn:Hid; try exact IH'.
  pose proof (Hall r z (or_introl eq_refl) Hid). lia.
Qed.

Lemma max_rowid_nonneg t : 0 <= max_rowid t.
Proof.
  unfold max_rowid. induction (t_rows t) as [|r rows IH]; cbn [fold_right]; [lia|].
  destruct (rowid_of (t_def t) r); lia.
Qed.

Lemma NoDup_map_filter {A B} (f : A -> B) (g : A -> bool) (l : list A) :
  List.NoDup (map f l) -> List.NoDup (map f (List.filter g l)).
Proof.
  induction l as [|a l IH]; cbn [map List.filter]; intros Hnd; [exact Hnd|].
  apply List.NoDup_cons_iff in Hnd. destruct Hnd as [Hnot Hnd].
  destruct (g a); cbn [map]; [|exact (IH Hnd)].
  apply List.NoDup_cons; [|exact (IH Hnd)].
  intros Hin. apply Hnot. apply in_map_iff in Hin. destruct Hin as (x & Hx & Hin).
  apply in_map_iff. exists x. split; [exact Hx|]. apply filter_In in Hin. tauto.
Qed.

Lemma NoDup_map_insert {A B} (f : A -> B) (before : list A) (x : A) (after : list A) :
  List.NoDup (map f (before ++ after)) ->
  (forall y, In y (before ++ after) -> f y <> f x) ->
  List.NoDup (map f (before ++ x :: after)).
Proof.
  rewrite !map_app. cbn [map]. intros Hnd Hfresh.
  apply List.NoDup_Add with (a := f x) (l := (map f before ++ map f after)%list).
  - apply List.Add_app.
  - split; [exact Hnd|]. rewrite <- map_app. intros Hin.
    apply in_map_iff in Hin. destruct Hin as (y & Hy & Hin). exact (Hfresh y Hin Hy).
Qed.

Lemma insert_by_rowid_split def z r rows :
  exists before after,
    rows = (before ++ after)%list /\
    insert_by_rowid def z r rows = (before ++ r :: after)%list.
Proof.
  induction rows as [|r' rows IH]; cbn [insert_by_rowid].
  - exists [], []. split; reflexivity.
  - destruct IH as (before & after & Hrows & Hins).
    assert (Hlater : exists before0 after0,
               r' :: rows = (before0 ++ after0)%list /\
               r' :: insert_by_rowid def z r rows = (before0 ++ r :: after0)%list).
    { exists (r' :: before), after. rewrite Hins, Hrows. split; reflexivity. }
    destruct (rowid_of def r') as [|z'|s]; try exact Hlater.
    destruct (bool_decide (z < z')); [|exact Hlater].
    exists [], (r' :: rows). split; reflexivity.
Qed.

Lemma inode_of_entry md : inode_of (row_of md) = VInt (sqlite.Inode md).
Proof. reflexivity. Qed.

Lemma key_of_entry md :
  key_of (row_of md) = (VText (sqlite.Name md), VInt (sqlite.Parent md)).
Proof. reflexivity. Qed.

Lemma canonical_rows_nil_keys t parent name :
  t_def t = sqlite.files ->
  spec.canonical_rows parent name t = [] ->
  forall r, In r (t_rows t) -> key_of r <> (VText name, VInt parent).
Proof.
  intros Hdef Hnone r Hin Hkey.
  pose proof (proj1 (filter_nil_iff _ _) Hnone r Hin) as Hf. rewrite Hdef in Hf.
  cbv beta in Hf. unfold key_of in Hkey. injection Hkey as Hn Hp. rewrite Hn, Hp in Hf.
  rewrite !bool_decide_eq_true_2 in Hf by reflexivity. discriminate.
Qed.

(** A row stored between the others, under a fresh inode and a fresh
    (name, parent) pair. *)
Lemma consistent_insert t md before after :
  consistent t ->
  t_rows t = (before ++ after)%list ->
  (forall r, In r (t_rows t) -> inode_of r <> VInt (sqlite.Inode md)) ->
  spec.canonical_rows (sqlite.Parent md) (sqlite.Name md) t = [] ->
  consistent (files_table (before ++ row_of md :: after)
                          (Z.max (t_seq t) (sqlite.Inode md))).
Proof.
  intros (Hdef & Hentries & Hinodes & Hkeys & Hseq) Hrows Hfresh Hnone.
  pose proof (canonical_rows_nil_keys t _ _ Hdef Hnone) as Hkey.
  rewrite Hrows in *.
  split; [reflexivity|]. cbn [t_rows files_table t_seq]. split; [|split; [|split]].
  - intros r Hin. apply in_app_or in Hin. destruct Hin as [Hin|[<-|Hin]].
    + apply Hentries, in_or_app. left. exact Hin.
    + exists md. reflexivity.
    + apply Hentries, in_or_app. right. exact Hin.
  - apply NoDup_map_insert; [exact Hinodes|]. intros y Hy. rewrite inode_of_entry.
    exact (Hfresh y Hy).
  - apply NoDup_map_insert; [exact Hkeys|]. intros y Hy. rewrite key_of_entry.
    exact (Hkey y Hy).
  - pose proof (max_rowid_nonneg t). apply max_rowid_le; [lia|].
    intros r z Hin Hid. apply in_app_or in Hin. destruct Hin as [Hin|[<-|Hin]].
    + pose proof (max_rowid_ge t r z) as Hge. rewrite Hdef, Hrows in Hge.
      specialize (Hge (in_or_app _ _ _ (or_introl Hin)) Hid). lia.
    + change (rowid_of sqlite.files (row_of md)) with (VInt (sqlite.Inode md)) in Hid.
      injection Hid as <-. lia.
    + pose proof (max_rowid_ge t r z) as Hge. rewrite Hdef, Hrows in Hge.
      specialize (Hge (in_or_app _ _ _ (or_intror Hin)) Hid). lia.
Qed.

Lemma consistent_with_row t md :
  consistent t ->
  sqlite.Inode md = next_inode t ->
  spec.canonical_rows (sqlite.Parent md) (sqlite.Name md) t = [] ->
  consistent (with_row t md).
Proof.
  intros Hcons Hnext Hnone.
  pose proof (consistent_insert t md (t_rows t) [] Hcons) as Hins.
  rewrite app_nil_r in Hins. apply Hins; [reflexivity| |exact Hnone].
  intros r Hin Hid. destruct Hcons as (Hdef & _).
  assert (Hid' : rowid_of (t_def t) r = VInt (sqlite.Inode md))
    by (rewrite Hdef; exact Hid).
  pose proof (rows_below_next t r _ Hin Hid'). lia.
Qed.

Lemma consistent_with_row_at t md :
  consistent t ->
  existsb (fun r' => bool_decide (inode_of r' = VInt (sqlite.Inode md))) (t_rows t) = false ->
  spec.canonical_rows (sqlite.Parent md) (sqlite.Name md) t = [] ->
  consistent (with_row_at t md).
Proof.
  intros Hcons Hfresh Hnone. unfold with_row_at.
  destruct (insert_by_rowid_split sqlite.files (sqlite.Inode md) (row_of md) (t_rows t))
    as (before & after & Hrows & ->).
  apply (consistent_insert t md before after Hcons Hrows); [|exact Hnone].
  intros r Hin Hid.
  assert (Hex : existsb (fun r' => bool_decide (inode_of r' = VInt (sqlite.Inode md)))
                        (t_rows t) = true).
  { apply existsb_exists. exists r. split; [exact Hin|].
    apply bool_decide_eq_true_2. exact Hid. }
  congruence.
Qed.

Lemma consistent_without_inode t inode :
  consistent t -> consistent (without_inode inode t).
Proof.
  intros (Hdef & Hentries & Hinodes & Hkeys & Hseq). unfold without_inode.
  split; [exact Hdef|]. cbn [t_rows t_seq]. split; [|split; [|split]].
  - intros r Hin. apply filter_In in Hin. apply Hentries. tauto.
  - apply NoDup_map_filter. exact Hinodes.
  - apply NoDup_map_filter. exact Hkeys.
  - pose proof (max_rowid_without_inode inode t). unfold without_inode in *. lia.
Qed.

Lemma consistent_update t before old after md :
  consistent t ->
  t_rows t = (before ++ row_of old :: after)%list ->
  sqlite.Inode old = sqlite.Inode md ->
  spec.canonical_rows (sqlite.Parent md) (sqlite.Name md)
    (files_table (before ++ after) (t_seq t)) = [] ->
  consistent (files_table (before ++ row_of md :: after) (t_seq t)).
Proof.
  intros (Hdef & Hentries & Hinodes & Hkeys & Hseq) Hrows Hsame Hnone.
  pose proof (canonical_rows_nil_keys (files_table (before ++ after) (t_seq t)) _ _
                eq_refl Hnone) as Hkey. cbn [t_rows files_table] in Hkey.
  rewrite Hrows in *.
  destruct (NoDup_map_middle inode_of _ _ _ Hinodes) as [Hoi Hni].
  destruct (NoDup_map_middle key_of _ _ _ Hkeys) as [_ Hnk].
  split; [reflexivity|]. cbn [t_rows files_table t_seq]. split; [|split; [|split]].
  - intros r Hin. apply in_app_or in Hin. destruct Hin as [Hin|[<-|Hin]].
    + apply Hentries, in_or_app. left. exact Hin.
    + exists md. reflexivity.
    + apply Hentries, in_or_app. right. right. exact Hin.
  - apply NoDup_map_insert; [exact Hni|]. intros y Hy.
    rewrite inode_of_entry, <- Hsame. exact (Hoi y Hy).
  - apply NoDup_map_insert; [exact Hnk|]. intros y Hy. rewrite key_of_entry.
    exact (Hkey y Hy).
  - pose proof (max_rowid_nonneg t). apply max_rowid_le; [lia|].
    intros r z Hin Hid.
    pose proof (max_rowid_ge t) as Hge. rewrite Hdef, Hrows in Hge.
    apply in_app_or in Hin. destruct Hin as [Hin|[<-|Hin]].
    + specialize (Hge r z (in_or_app _ _ _ (or_introl Hin)) Hid). lia.
    + change (rowid_of sqlite.files (row_of md)) with (VInt (sqlite.Inode md)) in Hid.
      injection Hid as <-.
      assert (Hold : In (row_of old) (before ++ row_of old :: after))
        by (apply in_or_app; right; left; reflexivity).
      specialize (Hge (row_of old) (sqlite.Inode old) Hold eq_refl). lia.
    + assert (Hlater : In r (before ++ row_of old :: after))
        by (apply in_or_app; right; right; exact Hin).
      specialize (Hge r z Hlater Hid). lia.
Qed.

Ltac keep_catalog Hcat Hcons :=
  eexists; split; [exact Hcat|exact Hcons].

(** One call. *)
Lemma after_keeps_consistent c d t :
  spec.catalog d t -> consistent t ->
  exists t', spec.catalog (after c d) t' /\ consistent t'.
Proof.
  intros Hcat Hcons. pose proof Hcat as [Hfind Hdef].
  destruct c as [parent name mode|parent name mode url hash|md|md|inode|md]; cbn [after].
  - rewrite (AddDirectory_on_catalog d t parent name mode Hcat).
    destruct (bool_decide _); [keep_catalog Hcat Hcons|].
    destruct (spec.canonical_rows parent name t) eqn:Hnone; [|keep_catalog Hcat Hcons].
    cbv zeta. cbn [snd]. eexists. split; [apply catalog_after_insert; exact Hcat|].
    apply consistent_with_row; [exact Hcons|reflexivity|exact Hnone].
  - rewrite (CreateFile_on_catalog d t parent name mode url hash Hcat).
    destruct (bool_decide _); [keep_catalog Hcat Hcons|].
    destruct (spec.canonical_rows parent name t) eqn:Hnone; [|keep_catalog Hcat Hcons].
    cbv zeta. cbn [snd]. eexists. split; [apply catalog_after_insert; exact Hcat|].
    apply consistent_with_row; [exact Hcons|reflexivity|exact Hnone].
  - rewrite (Insert_on_catalog d t md Hcat).
    destruct (bool_decide _); [keep_catalog Hcat Hcons|].
    destruct (spec.canonical_rows _ _ t) eqn:Hnone; [|keep_catalog Hcat Hcons].
    cbn [snd]. eexists. split; [apply catalog_after_insert; exact Hcat|].
    apply consistent_with_row; [exact Hcons|reflexivity|exact Hnone].
  - rewrite (ForceInsert_on_catalog d t md Hcat).
    destruct (existsb _ _) eqn:Hfresh; [keep_catalog Hcat Hcons|].
    destruct (spec.canonical_rows _ _ t) eqn:Hnone; [|keep_catalog Hcat Hcons].
    cbn [snd]. eexists. split; [apply catalog_with_row_at; exact Hcat|].
    apply consistent_with_row_at; assumption.
  - rewrite (Delete_on_catalog d t inode Hcat). cbn [snd].
    eexists. split; [apply catalog_without_inode; exact Hcat|].
    apply consistent_without_inode. exact Hcons.
  - destruct (spec.rows_with_inode (sqlite.Inode md) t) as [|r rest] eqn:Hrows.
    + assert (Hsame : sqlite.Update md d = (None, d)).
      { unfold sqlite.Update.
        rewrite (PrepareChange_on_catalog d t) by (cbn; tauto || exact Hcat). cbn [wrap].
        rewrite (ExecChange_update d t md Hcat).
        rewrite (update_where_inode t _ _ Hdef), Hrows.
        cbn [map sqlw.update_each rbind wrap].
        rewrite (replace_table_same "files" t d Hfind). reflexivity. }
      rewrite Hsame. keep_catalog Hcat Hcons.
    + assert (Hin : In r (spec.rows_with_inode (sqlite.Inode md) t))
        by (rewrite Hrows; left; reflexivity).
      apply filter_In in Hin. destruct Hin as [Hin Hid].
      apply bool_decide_eq_true_1 in Hid. rewrite Hdef in Hid.
      pose proof Hcons as (_ & Hentries & Hinodes & _).
      destruct (Hentries r Hin) as (old & ->).
      change (row_get sqlite.files (row_of old) "inode") with (VInt (sqlite.Inode old)) in Hid.
      injection Hid as Hsame.
      apply in_split in Hin. destruct Hin as (before & after & Hsplit).
      rewrite (Update_on_entry d t before old after md Hcat Hinodes Hsplit Hsame).
      destruct (spec.canonical_rows _ _ (files_table (before ++ after) (t_seq t)))
        eqn:Hnone; [|keep_catalog Hcat Hcons].
      cbn [snd]. eexists. split; [apply (catalog_files_table d t); exact Hcat|].
      apply (consistent_update t before old after md Hcons Hsplit Hsame Hnone).
Qed.

Lemma InitDB_consistent :
  exists t, spec.catalog (snd (sqlite.InitDB [])) t /\ consistent t.
Proof.
  eexists. split; [split; reflexivity|].
  split; [reflexivity|]. cbn [t_rows]. split; [|split; [|split]].
  - intros r [<-|[]].
    exists {| sqlite.Inode := 1; sqlite.Name := EmptyString; sqlite.URL := EmptyString;
              sqlite.Size := 0; sqlite.Mode := 493; sqlite.Parent := 0;
              sqlite.Type_ := DrvFolder; sqlite.Hash := EmptyString; sqlite.NLink := 0 |}.
    reflexivity.
  - repeat constructor. intros [].
  - repeat constructor. intros [].
  - cbv. discriminate.
Qed.

Lemma after_all_snoc calls c d :
  after_all (calls ++ [c]) d = after c (after_all calls d).
Proof. unfold after_all. rewrite fold_left_app. reflexivity. Qed.

(** X24.  Every call that writes ([AddDirectory], [CreateFile], [Insert],
    [ForceInsert], [Delete], [Update]), whether it succeeds or fails, keeps
    the catalog consistent: the [files] table is still there, every row
    holds an entry, no two rows share an inode or a (name, parent) pair, and
    the AUTOINCREMENT sequence is at least every inode in use.  So it holds
    after any sequence of calls. *)
Theorem calls_keep_the_catalog_consistent (calls : list call) (d : database) (t : table) :
  spec.catalog d t ->
  consistent t ->
  exists t', spec.catalog (after_all calls d) t' /\ consistent t'.
Proof.
  revert d t. induction calls as [|c calls IH]; intros d t Hcat Hcons.
  - exists t. split; assumption.
  - destruct (after_keeps_consistent c d t Hcat Hcons) as (t1 & Hcat1 & Hcons1).
    exact (IH (after c d) t1 Hcat1 Hcons1).
Qed.

(** X25.  A catalog created by [InitDB] on an empty database and then
    changed only through the client's calls is consistent, and a lookup by
    parent and name in it answers NOT_FOUND or returns an entry: it never
    fails in another way. *)
Theorem catalog_from_InitDB_is_consistent (calls : list call) :
  let d := after_all calls (snd (sqlite.InitDB [])) in
  exists t,
    spec.catalog d t /\ consistent t /\
    forall parent name,
      sqlite.Search parent name d = Err ErrNotFound \/
      exists md, sqlite.Search parent name d = Ok md.
Proof.
  cbv zeta.
  assert (Hreach : exists t, spec.catalog (after_all calls (snd (sqlite.InitDB []))) t /\
                             consistent t).
  { induction calls as [|c calls IH] using rev_ind.
    - exact InitDB_consistent.
    - destruct IH as (t & Hcat & Hcons). rewrite after_all_snoc.
      exact (after_keeps_consistent c _ t Hcat Hcons). }
  destruct Hreach as (t & Hcat & Hcons). exists t. split; [exact Hcat|]. split; [exact Hcons|].
  intros parent name. rewrite (Search_on_catalog _ t parent name Hcat).
  destruct (spec.canonical_rows parent name t) as [|r rest] eqn:Hrows; [left; reflexivity|].
  right. assert (Hin : In r (spec.canonical_rows parent name t))
    by (rewrite Hrows; left; reflexivity).
  apply filter_In in Hin. destruct Hin as [Hin _].
  destruct Hcons as (_ & Hentries & _). destruct (Hentries r Hin) as (md & ->).
  exists (sqlite.set_NLink md 0). apply parseRow_row_of.
Qed.

End Consistency.

Lemma calls_keep_the_catalog_consistent_witness :
  spec.catalog file_catalog file_table /\
  consistent file_table /\
  exists t',
    spec.catalog
      (@after_all gosql.decimal_engine codes01
         [CallUpdate moved_entry; CallDelete 2; CallInsert clashing_entry;
          CallForceInsert (set_Inode file_entry 2); CallAddDirectory 1 "docs" 493;
          CallCreateFile 1 "docs" 420 "dropbox://x2" "h3"] file_catalog) t' /\
    consistent t'.
Proof.
  assert (Hcat : spec.catalog file_catalog file_table) by (split; reflexivity).
  split; [exact Hcat|]. split; [exact file_table_consistent|].
  exact (@calls_keep_the_catalog_consistent gosql.decimal_engine codes01 _
           file_catalog file_table Hcat file_table_consistent).
Defined.

(** ** Which backend [findDBDrive] returns *)

(** X26.  A backend returned by [findDBDrive] is one of the given backends,
    it holds the catalog, and every backend before it in the list answered
    NOT_FOUND. *)
Theorem findDBDrive_selected (drives : list drive.Drive) (drv : drive.Drive) :
  main.findDBDrive drives = Ok drv ->
  exists before after,
    drives = (before ++ drv :: after)%list /\
    Forall answers_not_found before /\
    holds_catalog drv.
Proof.
  induction drives as [|d drives IH]; cbn [main.findDBDrive]; [discriminate|].
  destruct (drive.GetFileMetadata d common.DatabaseFileName) as [md|err] eqn:Hprobe.
  - intros Hsel. injection Hsel as <-. exists [], drives.
    split; [reflexivity|]. split; [constructor|]. exists md. exact Hprobe.
  - destruct (decide (err = ErrNotFound)) as [->|Hne]; [|discriminate].
    intros Hsel. destruct (IH Hsel) as (before & after & -> & Hbefore & Hholds).
    exists (d :: before), after. split; [reflexivity|].
    split; [constructor; assumption|exact Hholds].
Qed.

Lemma findDBDrive_selected_witness :
  main.findDBDrive [empty_drive; gdrive_drive; dropbox_drive] = Ok gdrive_drive /\
  exists before after,
    [empty_drive; gdrive_drive; dropbox_drive] = (before ++ gdrive_drive :: after)%list /\
    Forall answers_not_found before /\
    holds_catalog gdrive_drive.
Proof.
  split; [reflexivity|].
  apply (findDBDrive_selected [empty_drive; gdrive_drive; dropbox_drive] gdrive_drive).
  reflexivity.
Defined.

(** X27.  [findDBDrive] answers NOT_FOUND exactly when every backend
    answered NOT_FOUND: the failure of a probe is never reported as
    NOT_FOUND, so [main], which goes on to create a new catalog on
    NOT_FOUND, does so only when no backend could hold one. *)
Theorem findDBDrive_NotFound_iff (drives : list drive.Drive) :
  main.findDBDrive drives = Err ErrNotFound <-> Forall answers_not_found drives.
Proof.
  split.
  - induction drives as [|d drives IH]; cbn [main.findDBDrive]; [constructor|].
    destruct (drive.GetFileMetadata d common.DatabaseFileName) as [md|err] eqn:Hprobe;
      [discriminate|].
    destruct (decide (err = ErrNotFound)) as [->|Hne]; [|discriminate].
    intros Hrest. constructor; [exact Hprobe|exact (IH Hrest)].
  - intros Hall. rewrite <- (app_nil_r drives).
    rewrite (findDBDrive_skips drives [] Hall). reflexivity.
Qed.

(** ** The first client and arguments above the signed range *)

Section FirstClientArguments.
Context `{sql.Engine}.
Import sql gosql.

(** X28.  The first client passes [uint64] arguments to the statement, and
    the conversion refuses values with the high bit set: for an inode or a
    parent of 2^63 or more, [Get] and [Search] fail before the table is read,
    whatever it holds, and the failure is not NOT_FOUND. *)
Theorem first_client_high_bit_arguments (d : database) (t : table) (z : Z) (name : string) :
  spec.first_catalog d t ->
  2 ^ 63 <= z ->
  db.Get z d =
    Err (Errorf "there is an error in query: "
           (Errorf "sql: converting argument $1 type: "
                   (ErrText "uint64 values with high bit set are not supported"))) /\
  db.Search z name d = db.Get z d.
Proof.
  intros Hcat Hz. split; [exact (first_Get_high_bit d t z Hcat Hz)|].
  unfold db.Search, db.Get.
  rewrite !(first_catalog_prepare d t) by (cbn; tauto || exact Hcat).
  cbn [wrap rbind]. unfold QueryRow, Query, checked_args.
  cbn [driver_args driver_value]. rewrite bool_decide_eq_true_2 by exact Hz.
  reflexivity.
Qed.

End FirstClientArguments.

Lemma first_client_high_bit_arguments_witness :
  spec.first_catalog first_fresh_catalog first_fresh_table /\
  2 ^ 63 <= MaxUint64 /\
  @db.Search gosql.decimal_engine MaxUint64 "docs" first_fresh_catalog =
  Err (Errorf "there is an error in query: "
         (Errorf "sql: converting argument $1 type: "
                 (ErrText "uint64 values with high bit set are not supported"))).
Proof.
  assert (Hcat : spec.first_catalog first_fresh_catalog first_fresh_table)
    by (split; reflexivity).
  assert (Hz : 2 ^ 63 <= MaxUint64) by (vm_compute; discriminate).
  split; [exact Hcat|]. split; [exact Hz|].
  destruct (@first_client_high_bit_arguments gosql.decimal_engine first_fresh_catalog
              first_fresh_table MaxUint64 "docs" Hcat Hz) as [Hget Hsearch].
  rewrite Hsearch. exact Hget.
Defined.

(** ** When a directory can be created *)

Section Creating.
Context `{sql.Engine} `{TypeCodes}.
Import sql gosql.

(** X29.  [AddDirectory] succeeds exactly when no row has the given name
    under the given parent and the inode sequence is not used up.  Whether a
    row with the parent's inode exists, and whether it is a directory, plays
    no part.  When it fails, the catalog is left as it was. *)
Theorem AddDirectory_succeeds_iff (d : database) (t : table)
        (parent : Z) (name : string) (mode : Z) :
  spec.catalog d t ->
  ((exists md d', sqlite.AddDirectory parent name mode d = (Ok md, d')) <->
   (spec.canonical_rows parent name t = [] /\
    Z.max (t_seq t) (max_rowid t) <> MaxInt64)) /\
  (forall e d', sqlite.AddDirectory parent name mode d = (Err e, d') -> d' = d).
Proof.
  intros Hcat. rewrite (AddDirectory_on_catalog d t parent name mode Hcat).
  destruct (decide (Z.max (t_seq t) (max_rowid t) = MaxInt64)) as [Hfull|Hleft].
  - rewrite bool_decide_eq_true_2 by exact Hfull. split.
    + split; [intros (md & d' & Hrun); discriminate|intros [_ Hne]; contradiction].
    + intros e d' Hrun. injection Hrun as _ <-. reflexivity.
  - rewrite bool_decide_eq_false_2 by exact Hleft.
    destruct (spec.canonical_rows parent name t) as [|r rest]; split.
    + split; [intros _; split; [reflexivity|exact Hleft]|].
      intros _. eexists _, _. reflexivity.
    + intros e d' Hrun. discriminate.
    + split; [intros (md & d' & Hrun); discriminate|intros [Hnil _]; discriminate].
    + intros e d' Hrun. injection Hrun as _ <-. reflexivity.
Qed.

End Creating.

Lemma AddDirectory_succeeds_iff_witness :
  spec.catalog docs_catalog docs_table /\
  (forall r, In r (sql.t_rows docs_table) -> inode_of r <> sql.VInt 99) /\
  exists md d',
    @sqlite.AddDirectory gosql.decimal_engine codes01 99 "lost" 493 docs_catalog = (Ok md, d').
Proof.
  assert (Hcat : spec.catalog docs_catalog docs_table) by (split; reflexivity).
  split; [exact Hcat|]. split.
  - intros r Hin. vm_compute in Hin. destruct Hin as [<-|[<-|[]]]; vm_compute; discriminate.
  - apply (proj1 (@AddDirectory_succeeds_iff gosql.decimal_engine codes01 docs_catalog
                    docs_table 99 "lost" 493 Hcat)).
    split; [reflexivity|vm_compute; discriminate].
Defined.
